(** * DFU class bootloader (rram-usbdfu.c): shallow embedding and properties

    The bootloader logic of [rram-usbdfu.c] is embedded as functions over an
    explicit record of its global variables.  Calls to the peripherals
    (USB endpoint, SPM flash programming, EEPROM, dataflash) are not part of
    the repository: each call is recorded, in program order, in a trace of
    events, and the values the read primitives return are taken from a
    [world] that describes the host and the memories during one handler
    call. *)

From Stdlib Require Import ZArith List Bool Lia.
Import ListNotations.
Open Scope Z_scope.

(** ** Constants of [rram-usbdfu.h] *)

(** [enum DFU_Class_Specific_Request_t] *)
Definition DFU_DETACH    : Z := 0.
Definition DFU_DNLOAD    : Z := 1.
Definition DFU_UPLOAD    : Z := 2.
Definition DFU_GETSTATUS : Z := 3.
Definition DFU_CLRSTATUS : Z := 4.
Definition DFU_GETSTATE  : Z := 5.
Definition DFU_ABORT     : Z := 6.

(** [enum DFU_Status_t] (the two values the bootloader uses) *)
Definition OK              : Z := 0.
Definition errCHECK_ERASED : Z := 5.

(** [enum DFU_State_t] *)
Definition appIDLE                : Z := 0.
Definition appDETACH              : Z := 1.
Definition dfuIDLE                : Z := 2.
Definition dfuDNLOAD_SYNC         : Z := 3.
Definition dfuDNBUSY              : Z := 4.
Definition dfuDNLOAD_IDLE         : Z := 5.
Definition dfuMANIFEST_SYNC       : Z := 6.
Definition dfuMANIFEST            : Z := 7.
Definition dfuMANIFEST_WAIT_RESET : Z := 8.
Definition dfuUPLOAD_IDLE         : Z := 9.
Definition dfuERROR               : Z := 10.

(** [enum FLIP_Group_Command_t] *)
Definition CMD_GROUP_DOWNLOAD : Z := 1.
Definition CMD_GROUP_UPLOAD   : Z := 3.
Definition CMD_GROUP_EXEC     : Z := 4.
Definition CMD_GROUP_READ     : Z := 5.
Definition CMD_GROUP_SELECT   : Z := 6.

(** Bootloader and device information *)
Definition BOOTLOADER_VERSION_MAJOR : Z := 2.
Definition BOOTLOADER_VERSION_MINOR : Z := 0.
Definition BOOTLOADER_VERSION : Z :=
  Z.lor (Z.shiftl BOOTLOADER_VERSION_MAJOR 4) BOOTLOADER_VERSION_MINOR.
Definition BOOTLOADER_ID_BYTE1 : Z := 0xDC.
Definition BOOTLOADER_ID_BYTE2 : Z := 0xFB.
Definition MANUFACTURER_CODE : Z := 0x1E.
Definition FAMILY_CODE       : Z := 0x94.
Definition PRODUCT_NAME      : Z := 0x13.
Definition PRODUCT_REVISION  : Z := 0x14.

(** Wrap-around of the C integer types ([int] is 16 bits on the AVR). *)
Definition u8  (x : Z) : Z := x mod 2 ^ 8.
Definition u16 (x : Z) : Z := x mod 2 ^ 16.
Definition u32 (x : Z) : Z := x mod 2 ^ 32.

(** ** Build configuration

    These macros come from the toolchain and the USB library, not from the
    repository; the embedding takes them as parameters. *)
Record config := mkConfig {
  FIXED_CONTROL_ENDPOINT_SIZE : Z;  (* bytes in one control endpoint packet *)
  SPM_PAGESIZE : Z;                 (* bytes in one flash page *)
  DATAFLASH_PAGE_SIZE : Z;          (* bytes in one dataflash page *)
  BOOT_START_ADDR : Z               (* first address of the bootloader section *)
}.

(** ** Peripherals *)

(** Dataflash opcodes handed to the driver. *)
Inductive df_cmd := DF_CMD_BUFF1WRITE | DF_CMD_BUFF1TOMAINMEMWITHERASE | DF_CMD_CONTARRAYREAD_LF.

(** One event per call to a primitive outside the repository, named after
    the primitive.  Read primitives carry what they return; the two spin
    waits stand for the whole loop [while(!flag){}]. *)
Inductive event :=
| Endpoint_ClearSETUP
| Endpoint_ClearStatusStage
| Endpoint_IsOUTReceived
| Endpoint_IsINReady
| Endpoint_Read_Byte (v : Z)
| Endpoint_Read_Word_LE (v : Z)
| Endpoint_ClearOUT
| Endpoint_Write_Byte (v : Z)
| Endpoint_Write_Word_LE (v : Z)
| Endpoint_ClearIN
| boot_page_erase (a : Z)
| boot_page_write (a : Z)
| boot_page_fill (a v : Z)
| boot_spm_busy_wait
| boot_rww_enable
| pgm_read_byte (a : Z)
| pgm_read_word (a : Z)
| eeprom_write_byte (a v : Z)
| eeprom_busy_wait
| eeprom_read_byte (a : Z)
| Dataflash_SelectChip
| Dataflash_DeselectChip
| Dataflash_ToggleSelectedChipCS
| Dataflash_WaitWhileBusy
| Dataflash_Configure_Write_Page_Offset (c : df_cmd) (page offset : Z)
| Dataflash_Configure_Read_Page_Offset (c : df_cmd) (page offset : Z)
| Dataflash_SendByte (v : Z)
| Dataflash_ReceiveByte (cell : Z)
| wdt_enable_250MS
| MCUCR_write_IVCE
| MCUCR_write_zero
| USB_ShutDown
| SPI_ShutDown
| AppStart (a : Z).

(** What the read primitives see during one handler call: byte [j] of the
    [k]-th OUT packet the host sends, and the cells of the three memories. *)
Record world := mkWorld {
  host_out : nat -> nat -> Z;
  flash_cell : Z -> Z;
  eeprom_cell : Z -> Z;
  dataflash_cell : Z -> Z
}.

(** ** Global variables *)

(** [USB_FLIP_Command_t] *)
Record USB_FLIP_Command_t := mkFlip {
  group : Z;
  data : list Z
}.

(** The globals of [rram-usbdfu.c], followed by the state of the
    peripherals the model needs: how many OUT packets were acknowledged, how
    many bytes of the current one were read, the cell the dataflash hands
    out next in a continuous read, and the trace. *)
Record state := mkState {
  waitForSecondRequest : bool;
  flipCommand : USB_FLIP_Command_t;
  DFU_State : Z;
  DFU_Status : Z;
  nonBlankAddr : Z;
  AppStartPtr : Z;
  curFlash64KBPageNumber : Z;
  out_packet : nat;
  out_offset : nat;
  df_cursor : Z;
  trace : list event
}.

(** Values of the globals at reset. *)
Definition reset_state : state :=
  mkState false (mkFlip 0 [0; 0; 0; 0; 0]) dfuIDLE OK 0 0 0 0%nat 0%nat 0 [].

Definition set_waitForSecondRequest (b : bool) (s : state) : state :=
  mkState b (flipCommand s) (DFU_State s) (DFU_Status s) (nonBlankAddr s)
    (AppStartPtr s) (curFlash64KBPageNumber s) (out_packet s) (out_offset s)
    (df_cursor s) (trace s).
Definition set_flipCommand (c : USB_FLIP_Command_t) (s : state) : state :=
  mkState (waitForSecondRequest s) c (DFU_State s) (DFU_Status s) (nonBlankAddr s)
    (AppStartPtr s) (curFlash64KBPageNumber s) (out_packet s) (out_offset s)
    (df_cursor s) (trace s).
Definition set_DFU_State (v : Z) (s : state) : state :=
  mkState (waitForSecondRequest s) (flipCommand s) v (DFU_Status s) (nonBlankAddr s)
    (AppStartPtr s) (curFlash64KBPageNumber s) (out_packet s) (out_offset s)
    (df_cursor s) (trace s).
Definition set_DFU_Status (v : Z) (s : state) : state :=
  mkState (waitForSecondRequest s) (flipCommand s) (DFU_State s) v (nonBlankAddr s)
    (AppStartPtr s) (curFlash64KBPageNumber s) (out_packet s) (out_offset s)
    (df_cursor s) (trace s).
Definition set_nonBlankAddr (v : Z) (s : state) : state :=
  mkState (waitForSecondRequest s) (flipCommand s) (DFU_State s) (DFU_Status s) v
    (AppStartPtr s) (curFlash64KBPageNumber s) (out_packet s) (out_offset s)
    (df_cursor s) (trace s).
Definition set_AppStartPtr (v : Z) (s : state) : state :=
  mkState (waitForSecondRequest s) (flipCommand s) (DFU_State s) (DFU_Status s)
    (nonBlankAddr s) v (curFlash64KBPageNumber s) (out_packet s) (out_offset s)
    (df_cursor s) (trace s).
Definition set_curFlash64KBPageNumber (v : Z) (s : state) : state :=
  mkState (waitForSecondRequest s) (flipCommand s) (DFU_State s) (DFU_Status s)
    (nonBlankAddr s) (AppStartPtr s) v (out_packet s) (out_offset s)
    (df_cursor s) (trace s).
Definition set_out (p o : nat) (s : state) : state :=
  mkState (waitForSecondRequest s) (flipCommand s) (DFU_State s) (DFU_Status s)
    (nonBlankAddr s) (AppStartPtr s) (curFlash64KBPageNumber s) p o
    (df_cursor s) (trace s).
Definition set_df_cursor (v : Z) (s : state) : state :=
  mkState (waitForSecondRequest s) (flipCommand s) (DFU_State s) (DFU_Status s)
    (nonBlankAddr s) (AppStartPtr s) (curFlash64KBPageNumber s) (out_packet s)
    (out_offset s) v (trace s).
Definition emit (e : event) (s : state) : state :=
  mkState (waitForSecondRequest s) (flipCommand s) (DFU_State s) (DFU_Status s)
    (nonBlankAddr s) (AppStartPtr s) (curFlash64KBPageNumber s) (out_packet s)
    (out_offset s) (df_cursor s) (trace s ++ [e]).

(** [flipCommand.data[i]] and the assignment to it. *)
Definition cmd_data (s : state) (i : nat) : Z := nth i (data (flipCommand s)) 0.

Fixpoint list_set (i : nat) (v : Z) (l : list Z) : list Z :=
  match l, i with
  | [], _ => []
  | _ :: t, O => v :: t
  | h :: t, S i' => h :: list_set i' v t
  end.

Definition set_group (g : Z) (s : state) : state :=
  set_flipCommand (mkFlip g (data (flipCommand s))) s.
Definition set_cmd_data (i : nat) (v : Z) (s : state) : state :=
  set_flipCommand (mkFlip (group (flipCommand s)) (list_set i v (data (flipCommand s)))) s.

(** How a handler call ends: it returns, it hands control to the
    application and never returns, or the model ran out of fuel inside a
    [while] loop. *)
Inductive outcome :=
| Done (s : state)
| Exited (s : state)
| OutOfFuel.

Definition bind (o : outcome) (k : state -> outcome) : outcome :=
  match o with
  | Done s => k s
  | Exited s => Exited s
  | OutOfFuel => OutOfFuel
  end.

(** ** The bootloader *)

Section Bootloader.

Variable cfg : config.
Variable w : world.

(** *** Endpoint and memory primitives *)

(** [Endpoint_Read_Byte()]: the next byte of the current OUT packet. *)
Definition read_byte (s : state) : Z * state :=
  let v := u8 (host_out w (out_packet s) (out_offset s)) in
  (v, emit (Endpoint_Read_Byte v) (set_out (out_packet s) (S (out_offset s)) s)).

(** [Endpoint_Read_Word_LE()]: the next two bytes, low byte first. *)
Definition read_word_LE (s : state) : Z * state :=
  let lo := u8 (host_out w (out_packet s) (out_offset s)) in
  let hi := u8 (host_out w (out_packet s) (S (out_offset s))) in
  let v := Z.lor lo (Z.shiftl hi 8) in
  (v, emit (Endpoint_Read_Word_LE v) (set_out (out_packet s) (S (S (out_offset s))) s)).

(** [Endpoint_ClearOUT()]: acknowledge the packet; the rest of it is gone. *)
Definition clear_OUT (s : state) : state :=
  emit Endpoint_ClearOUT (set_out (S (out_packet s)) 0%nat s).

(** [pgm_read_word(a)] *)
Definition flash_word (a : Z) : Z :=
  Z.lor (flash_cell w a) (Z.shiftl (flash_cell w (a + 1)) 8).

(** [Dataflash_Configure_Read_Page_Offset]: the driver starts a continuous
    array read at the given page and offset. *)
Definition configure_read (c : df_cmd) (page offset : Z) (s : state) : state :=
  emit (Dataflash_Configure_Read_Page_Offset c page offset)
    (set_df_cursor (page * DATAFLASH_PAGE_SIZE cfg + offset) s).

(** [Dataflash_ReceiveByte()]: the cell under the read cursor, which then
    moves on by one. *)
Definition receive_byte (s : state) : Z * state :=
  let a := df_cursor s in
  (dataflash_cell w a, emit (Dataflash_ReceiveByte a) (set_df_cursor (a + 1) s)).

(** The two address fields of the payload:
    [((uint16_t)data[1] << 8) | (uint16_t)data[2]] and its 32-bit form with
    the 64KB page number on top. *)
Definition addr16 (hi lo : Z) : Z := u16 (Z.lor (Z.shiftl hi 8) lo).
Definition addr32 (bank hi lo : Z) : Z :=
  u32 (Z.lor (Z.lor (Z.shiftl bank 16) (Z.shiftl hi 8)) lo).

(** Iterations of [for(uint8_t i=0;i<FIXED_CONTROL_ENDPOINT_SIZE;i+=2)] and of
    the same loop with [i++].  A control endpoint holds at most 64 bytes, so
    the 8-bit counter does not wrap. *)
Definition packet_words : nat := Z.to_nat ((FIXED_CONTROL_ENDPOINT_SIZE cfg + 1) / 2).
Definition packet_bytes : nat := Z.to_nat (FIXED_CONTROL_ENDPOINT_SIZE cfg).

Definition finish (r : option (Z * state)) : outcome :=
  match r with
  | Some (_, s) => Done s
  | None => OutOfFuel
  end.

(** *** ProcessDownload *)

(** Flash: the [for] loop over one packet.  Returns the cursor and the state
    after the loop ([break] leaves the cursor where it is). *)
Fixpoint download_flash_packet (n : nat) (startAddr endAddr curAddr : Z) (s : state)
  : Z * state :=
  match n with
  | O => (curAddr, s)
  | S n' =>
    let new_page := curAddr mod SPM_PAGESIZE cfg =? 0 in
    let s1 :=
      if new_page then
        let s := emit boot_spm_busy_wait (emit (boot_page_erase curAddr) s) in
        let s := if negb (curAddr =? startAddr)
                 then emit (boot_page_write (u16 (curAddr - 2))) s else s in
        emit boot_rww_enable (emit boot_spm_busy_wait s)
      else s in
    if new_page && (curAddr >? endAddr) then
      (curAddr, set_DFU_State dfuMANIFEST_SYNC s1)
    else
      let (v, s2) := read_word_LE s1 in
      download_flash_packet n' startAddr endAddr (u16 (curAddr + 2))
        (emit (boot_page_fill curAddr v) s2)
  end.

(** What follows the [for] loop in every download stream: acknowledge the
    packet and, when still busy, wait for the host to poll. *)
Definition end_of_packet (s : state) : state :=
  let s := clear_OUT s in
  if DFU_State s =? dfuDNBUSY then set_DFU_State dfuDNLOAD_SYNC s else s.

(** Flash: [while(DFU_State != dfuMANIFEST_SYNC)]. *)
Fixpoint download_flash_stream (fuel : nat) (startAddr endAddr curAddr : Z) (s : state)
  : option (Z * state) :=
  match fuel with
  | O => None
  | S fuel' =>
    if negb (DFU_State s =? dfuMANIFEST_SYNC) then
      let s := set_DFU_State dfuDNBUSY (emit Endpoint_IsOUTReceived s) in
      let (cur, s) := download_flash_packet packet_words startAddr endAddr curAddr s in
      download_flash_stream fuel' startAddr endAddr cur (end_of_packet s)
    else Some (curAddr, s)
  end.

(** EEPROM: the [for] loop over one packet. *)
Fixpoint download_eeprom_packet (n : nat) (endAddr curAddr : Z) (s : state) : Z * state :=
  match n with
  | O => (curAddr, s)
  | S n' =>
    if curAddr >? endAddr then (curAddr, set_DFU_State dfuMANIFEST_SYNC s)
    else
      let (v, s1) := read_byte s in
      download_eeprom_packet n' endAddr (u16 (curAddr + 1))
        (emit eeprom_busy_wait (emit (eeprom_write_byte curAddr v) s1))
  end.

Fixpoint download_eeprom_stream (fuel : nat) (endAddr curAddr : Z) (s : state)
  : option (Z * state) :=
  match fuel with
  | O => None
  | S fuel' =>
    if negb (DFU_State s =? dfuMANIFEST_SYNC) then
      let s := set_DFU_State dfuDNBUSY (emit Endpoint_IsOUTReceived s) in
      let (cur, s) := download_eeprom_packet packet_bytes endAddr curAddr s in
      download_eeprom_stream fuel' endAddr cur (end_of_packet s)
    else Some (curAddr, s)
  end.

(** Dataflash: the [for] loop over one packet. *)
Fixpoint download_dataflash_packet (n : nat) (startAddr endAddr curAddr : Z) (s : state)
  : Z * state :=
  match n with
  | O => (curAddr, s)
  | S n' =>
    let page_done :=
      negb (curAddr =? startAddr) && (curAddr mod DATAFLASH_PAGE_SIZE cfg =? 0) in
    let s1 :=
      if page_done then
        emit Dataflash_WaitWhileBusy
          (emit Dataflash_ToggleSelectedChipCS
             (emit (Dataflash_Configure_Write_Page_Offset DF_CMD_BUFF1TOMAINMEMWITHERASE
                      (u32 (curAddr / DATAFLASH_PAGE_SIZE cfg - 1)) 0)
                (emit Dataflash_ToggleSelectedChipCS s)))
      else s in
    if page_done && (curAddr >? endAddr) then
      (curAddr, set_DFU_State dfuMANIFEST_SYNC (emit Dataflash_DeselectChip s1))
    else
      let s2 :=
        if page_done then
          emit (Dataflash_Configure_Write_Page_Offset DF_CMD_BUFF1WRITE
                  (curAddr / DATAFLASH_PAGE_SIZE cfg) 0) s1
        else s1 in
      let (v, s3) := read_byte s2 in
      download_dataflash_packet n' startAddr endAddr (u32 (curAddr + 1))
        (emit (Dataflash_SendByte v) s3)
  end.

Fixpoint download_dataflash_stream (fuel : nat) (startAddr endAddr curAddr : Z) (s : state)
  : option (Z * state) :=
  match fuel with
  | O => None
  | S fuel' =>
    if negb (DFU_State s =? dfuMANIFEST_SYNC) then
      let s := set_DFU_State dfuDNBUSY (emit Endpoint_IsOUTReceived s) in
      let (cur, s) := download_dataflash_packet packet_bytes startAddr endAddr curAddr s in
      download_dataflash_stream fuel' startAddr endAddr cur (end_of_packet s)
    else Some (curAddr, s)
  end.

Definition ProcessDownload (fuel : nat) (s : state) : outcome :=
  if cmd_data s 0 =? 0x00 then
    if negb (DFU_State s =? dfuIDLE) then Done (set_DFU_State dfuERROR s)
    else
      let startAddr := addr16 (cmd_data s 1) (cmd_data s 2) in
      let endAddr := addr16 (cmd_data s 3) (cmd_data s 4) in
      finish (download_flash_stream fuel startAddr endAddr startAddr s)
  else if cmd_data s 0 =? 0x01 then
    if negb (DFU_State s =? dfuIDLE) then Done (set_DFU_State dfuERROR s)
    else
      let startAddr := addr16 (cmd_data s 1) (cmd_data s 2) in
      let endAddr := addr16 (cmd_data s 3) (cmd_data s 4) in
      finish (download_eeprom_stream fuel endAddr startAddr s)
  else if cmd_data s 0 =? 0x10 then
    if negb (DFU_State s =? dfuIDLE) then Done (set_DFU_State dfuERROR s)
    else
      let startAddr := addr32 (curFlash64KBPageNumber s) (cmd_data s 1) (cmd_data s 2) in
      let endAddr := addr32 (curFlash64KBPageNumber s) (cmd_data s 3) (cmd_data s 4) in
      let s := emit Dataflash_SelectChip s in
      let s := emit (Dataflash_Configure_Write_Page_Offset DF_CMD_BUFF1WRITE
                       (startAddr / DATAFLASH_PAGE_SIZE cfg)
                       (startAddr mod DATAFLASH_PAGE_SIZE cfg)) s in
      finish (download_dataflash_stream fuel startAddr endAddr startAddr s)
  else Done s.

(** *** ProcessUpload *)

(** Display flash: the [for] loop that fills one IN packet, word by word. *)
Fixpoint upload_flash_packet (n : nat) (curAddr : Z) (s : state) : Z * state :=
  match n with
  | O => (curAddr, s)
  | S n' =>
    upload_flash_packet n' (u16 (curAddr + 2))
      (emit (Endpoint_Write_Word_LE (flash_word curAddr)) (emit (pgm_read_word curAddr) s))
  end.

(** Display flash: [while(curAddr < endAddr)]. *)
Fixpoint upload_flash_stream (fuel : nat) (endAddr curAddr : Z) (s : state)
  : option (Z * state) :=
  match fuel with
  | O => None
  | S fuel' =>
    if curAddr <? endAddr then
      let (cur, s) := upload_flash_packet packet_words curAddr (emit Endpoint_IsINReady s) in
      upload_flash_stream fuel' endAddr cur (emit Endpoint_ClearIN s)
    else Some (curAddr, s)
  end.

(** Display EEPROM, byte by byte. *)
Fixpoint upload_eeprom_packet (n : nat) (curAddr : Z) (s : state) : Z * state :=
  match n with
  | O => (curAddr, s)
  | S n' =>
    upload_eeprom_packet n' (u16 (curAddr + 1))
      (emit (Endpoint_Write_Byte (eeprom_cell w curAddr)) (emit (eeprom_read_byte curAddr) s))
  end.

Fixpoint upload_eeprom_stream (fuel : nat) (endAddr curAddr : Z) (s : state)
  : option (Z * state) :=
  match fuel with
  | O => None
  | S fuel' =>
    if curAddr <? endAddr then
      let (cur, s) := upload_eeprom_packet packet_bytes curAddr (emit Endpoint_IsINReady s) in
      upload_eeprom_stream fuel' endAddr cur (emit Endpoint_ClearIN s)
    else Some (curAddr, s)
  end.

(** Display dataflash, byte by byte out of the continuous read. *)
Fixpoint upload_dataflash_packet (n : nat) (curAddr : Z) (s : state) : Z * state :=
  match n with
  | O => (curAddr, s)
  | S n' =>
    let (v, s1) := receive_byte s in
    upload_dataflash_packet n' (u32 (curAddr + 1)) (emit (Endpoint_Write_Byte v) s1)
  end.

Fixpoint upload_dataflash_stream (fuel : nat) (endAddr curAddr : Z) (s : state)
  : option (Z * state) :=
  match fuel with
  | O => None
  | S fuel' =>
    if curAddr <? endAddr then
      let (cur, s) := upload_dataflash_packet packet_bytes curAddr (emit Endpoint_IsINReady s) in
      upload_dataflash_stream fuel' endAddr cur (emit Endpoint_ClearIN s)
    else Some (curAddr, s)
  end.

(** Blank check in flash: [for(curAddr=startAddr;curAddr<endAddr;curAddr++)].
    The cursor stays below [endAddr], so it never wraps, and [n] counts the
    cells left in the window. *)
Fixpoint blank_check_flash (n : nat) (endAddr curAddr : Z) (s : state) : state :=
  match n with
  | O => s
  | S n' =>
    if curAddr <? endAddr then
      let s1 := emit (pgm_read_byte curAddr) s in
      if negb (flash_cell w curAddr =? 0xFF) then
        set_nonBlankAddr curAddr
          (set_DFU_Status errCHECK_ERASED (set_DFU_State dfuERROR s1))
      else blank_check_flash n' endAddr (curAddr + 1) s1
    else s
  end.

(** Blank check in dataflash: the same loop over the continuous read; the
    32-bit cursor is stored in the 16-bit [nonBlankAddr]. *)
Fixpoint blank_check_dataflash (n : nat) (endAddr curAddr : Z) (s : state) : state :=
  match n with
  | O => s
  | S n' =>
    if curAddr <? endAddr then
      let (v, s1) := receive_byte s in
      if negb (v =? 0xFF) then
        set_nonBlankAddr (u16 curAddr)
          (set_DFU_Status errCHECK_ERASED (set_DFU_State dfuERROR s1))
      else blank_check_dataflash n' endAddr (curAddr + 1) s1
    else s
  end.

Definition ProcessUpload (fuel : nat) (s : state) : outcome :=
  if cmd_data s 0 =? 0x00 then
    if negb (DFU_State s =? dfuIDLE) then Done (set_DFU_State dfuERROR s)
    else
      let startAddr := addr16 (cmd_data s 1) (cmd_data s 2) in
      let endAddr := addr16 (cmd_data s 3) (cmd_data s 4) in
      let s := set_DFU_State dfuUPLOAD_IDLE s in
      finish (upload_flash_stream fuel endAddr startAddr s)
  else if cmd_data s 0 =? 0x01 then
    let startAddr := addr16 (cmd_data s 1) (cmd_data s 2) in
    let endAddr := addr16 (cmd_data s 3) (cmd_data s 4) in
    Done (blank_check_flash (Z.to_nat (endAddr - startAddr)) endAddr startAddr s)
  else if cmd_data s 0 =? 0x02 then
    if negb (DFU_State s =? dfuIDLE) then Done (set_DFU_State dfuERROR s)
    else
      let startAddr := addr16 (cmd_data s 1) (cmd_data s 2) in
      let endAddr := addr16 (cmd_data s 3) (cmd_data s 4) in
      let s := set_DFU_State dfuUPLOAD_IDLE s in
      finish (upload_eeprom_stream fuel endAddr startAddr s)
  else if cmd_data s 0 =? 0x10 then
    if negb (DFU_State s =? dfuIDLE) then Done (set_DFU_State dfuERROR s)
    else
      let startAddr := addr32 (curFlash64KBPageNumber s) (cmd_data s 1) (cmd_data s 2) in
      let endAddr := addr32 (curFlash64KBPageNumber s) (cmd_data s 3) (cmd_data s 4) in
      let s := set_DFU_State dfuUPLOAD_IDLE s in
      let s := emit Dataflash_SelectChip s in
      let s := configure_read DF_CMD_CONTARRAYREAD_LF
                 (startAddr / DATAFLASH_PAGE_SIZE cfg)
                 (startAddr mod DATAFLASH_PAGE_SIZE cfg) s in
      bind (finish (upload_dataflash_stream fuel endAddr startAddr s))
           (fun s => Done (emit Dataflash_DeselectChip s))
  else if cmd_data s 0 =? 0x11 then
    let startAddr := addr32 (curFlash64KBPageNumber s) (cmd_data s 1) (cmd_data s 2) in
    let endAddr := addr32 (curFlash64KBPageNumber s) (cmd_data s 3) (cmd_data s 4) in
    let s := emit Dataflash_SelectChip s in
    let s := configure_read DF_CMD_CONTARRAYREAD_LF
               (startAddr / DATAFLASH_PAGE_SIZE cfg)
               (startAddr mod DATAFLASH_PAGE_SIZE cfg) s in
    let s := blank_check_dataflash (Z.to_nat (endAddr - startAddr)) endAddr startAddr s in
    Done (emit Dataflash_DeselectChip s)
  else Done s.

(** *** ProcessExec, ProcessRead, ProcessSelect *)

(** Erase flash:
    [for(uint16_t curAddr=0;curAddr<BOOT_START_ADDR;curAddr+=SPM_PAGESIZE)]. *)
Fixpoint erase_flash (fuel : nat) (curAddr : Z) (s : state) : outcome :=
  match fuel with
  | O => OutOfFuel
  | S fuel' =>
    if curAddr <? BOOT_START_ADDR cfg then
      erase_flash fuel' (u16 (curAddr + SPM_PAGESIZE cfg))
        (emit boot_spm_busy_wait (emit (boot_page_erase curAddr) s))
    else Done s
  end.

(** Erase EEPROM: [for(uint16_t curAddr=0;curAddr<512;curAddr++)]. *)
Fixpoint erase_eeprom (n : nat) (curAddr : Z) (s : state) : state :=
  match n with
  | O => s
  | S n' =>
    erase_eeprom n' (curAddr + 1)
      (emit eeprom_busy_wait (emit (eeprom_write_byte curAddr 0xFF) s))
  end.

Definition ProcessExec (fuel : nat) (s : state) : outcome :=
  bind
    (if (cmd_data s 0 =? 0x00) && (cmd_data s 1 =? 0xFF) then
       bind (erase_flash fuel 0 s) (fun s => Done (emit boot_rww_enable s))
     else Done s)
    (fun s =>
       if (cmd_data s 0 =? 0x01) && (cmd_data s 1 =? 0xFF) then
         Done (erase_eeprom 512 0 s)
       else if (cmd_data s 0 =? 0x10) && (cmd_data s 1 =? 0xFF) then
         Done (emit Dataflash_DeselectChip
                 (emit Dataflash_WaitWhileBusy
                    (emit Dataflash_ToggleSelectedChipCS
                       (emit (Dataflash_SendByte 0x9A)
                          (emit (Dataflash_SendByte 0x80)
                             (emit (Dataflash_SendByte 0x94)
                                (emit (Dataflash_SendByte 0xC7)
                                   (emit Dataflash_SelectChip s))))))))
       else if cmd_data s 0 =? 0x01 then Done s
       else if cmd_data s 0 =? 0x03 then
         if cmd_data s 1 =? 0x00 then Done (emit wdt_enable_250MS s)
         else if cmd_data s 1 =? 0x01 then
           Done (set_AppStartPtr (addr16 (cmd_data s 3) (cmd_data s 4)) s)
         else Done s
       else Done s).

Definition ProcessRead (s : state) : state :=
  let s := emit Endpoint_IsINReady s in
  let s :=
    if cmd_data s 0 =? 0x00 then
      if cmd_data s 1 =? 0x00 then emit (Endpoint_Write_Byte BOOTLOADER_VERSION) s
      else if cmd_data s 1 =? 0x01 then emit (Endpoint_Write_Byte BOOTLOADER_ID_BYTE1) s
      else if cmd_data s 1 =? 0x02 then emit (Endpoint_Write_Byte BOOTLOADER_ID_BYTE2) s
      else s
    else if cmd_data s 0 =? 0x01 then
      if cmd_data s 1 =? 0x30 then emit (Endpoint_Write_Byte MANUFACTURER_CODE) s
      else if cmd_data s 1 =? 0x31 then emit (Endpoint_Write_Byte FAMILY_CODE) s
      else if cmd_data s 1 =? 0x60 then emit (Endpoint_Write_Byte PRODUCT_NAME) s
      else if cmd_data s 1 =? 0x61 then emit (Endpoint_Write_Byte PRODUCT_REVISION) s
      else s
    else s in
  emit Endpoint_ClearIN s.

Definition ProcessSelect (s : state) : state :=
  if cmd_data s 0 =? 0x03 then
    if cmd_data s 1 =? 0x00 then set_curFlash64KBPageNumber (cmd_data s 2) s
    else s
  else s.

(** *** ProcessFlipCommand *)

Definition ProcessFlipCommand (fuel : nat) (s : state) : outcome :=
  let g := group (flipCommand s) in
  if g =? CMD_GROUP_DOWNLOAD then ProcessDownload fuel s
  else if g =? CMD_GROUP_UPLOAD then ProcessUpload fuel s
  else if g =? CMD_GROUP_EXEC then ProcessExec fuel s
  else if g =? CMD_GROUP_READ then Done (ProcessRead s)
  else if g =? CMD_GROUP_SELECT then Done (ProcessSelect s)
  else Done s.

(** *** UpdateState *)

Definition UpdateState (s : state) : state :=
  if DFU_State s =? dfuDNLOAD_SYNC then set_DFU_State dfuDNLOAD_IDLE s
  else if DFU_State s =? dfuUPLOAD_IDLE then set_DFU_State dfuIDLE s
  else if DFU_State s =? dfuMANIFEST_SYNC then set_DFU_State dfuIDLE s
  else s.

(** *** ResetHardware *)

Definition ResetHardware (s : state) : state :=
  emit SPI_ShutDown (emit USB_ShutDown (emit MCUCR_write_zero (emit MCUCR_write_IVCE s))).

(** *** EVENT_USB_Device_UnhandledControlRequest *)

(** The two fields of [USB_ControlRequest] the handler looks at. *)
Record USB_Request := mkRequest {
  bRequest : Z;
  wLength : Z
}.

(** [for(uint8_t i=0;i<5 && i<(USB_ControlRequest.wLength-1);i++)
       flipCommand.data[i] = Endpoint_Read_Byte();]
    with [n] the iterations left of the five. *)
Fixpoint read_flip_data (n i : nat) (len : Z) (s : state) : state :=
  match n with
  | O => s
  | S n' =>
    if Z.of_nat i <? len - 1 then
      let (v, s1) := read_byte s in
      read_flip_data n' (S i) len (set_cmd_data i v s1)
    else s
  end.

(** The test both [case DFU_DNLOAD] and [case DFU_UPLOAD] make for the three
    blank check commands. *)
Definition is_blank_check (s : state) : bool :=
  ((group (flipCommand s) =? CMD_GROUP_UPLOAD) && (cmd_data s 0 =? 0x01))
  || ((group (flipCommand s) =? CMD_GROUP_UPLOAD) && (cmd_data s 0 =? 0x03))
  || ((group (flipCommand s) =? CMD_GROUP_UPLOAD) && (cmd_data s 0 =? 0x11)).

(** The body of [case DFU_GETSTATUS]. *)
Definition case_GETSTATUS (s : state) : state :=
  let s := UpdateState s in
  let s := emit Endpoint_IsINReady s in
  let s := emit (Endpoint_Write_Byte (DFU_Status s)) s in
  let s := emit (Endpoint_Write_Byte 0) s in
  let s := emit (Endpoint_Write_Byte 0) s in
  let s := emit (Endpoint_Write_Byte 0) s in
  let s := emit (Endpoint_Write_Byte (DFU_State s)) s in
  let s := emit (Endpoint_Write_Byte 0) s in
  emit Endpoint_ClearIN s.

Definition case_DNLOAD (fuel : nat) (rq : USB_Request) (s : state) : outcome :=
  if negb (wLength rq =? 0) then
    let s := emit Endpoint_IsOUTReceived s in
    let (g, s) := read_byte s in
    let s := set_group g s in
    let s := read_flip_data 5 0 (wLength rq) s in
    let s := clear_OUT s in
    let s :=
      if (group (flipCommand s) =? CMD_GROUP_DOWNLOAD)
         || is_blank_check s
         || (group (flipCommand s) =? CMD_GROUP_EXEC)
         || (group (flipCommand s) =? CMD_GROUP_SELECT)
      then set_waitForSecondRequest false s
      else set_waitForSecondRequest true s in
    if negb (waitForSecondRequest s) then ProcessFlipCommand fuel s else Done s
  else
    let s := ResetHardware s in
    Exited (emit (AppStart (AppStartPtr s)) s).

(** [case DFU_UPLOAD]: it ends in [break] for a blank check and otherwise
    runs on into [case DFU_GETSTATUS]. *)
Definition case_UPLOAD (fuel : nat) (s : state) : outcome :=
  if is_blank_check s then
    let s := emit Endpoint_IsINReady s in
    let s := emit (Endpoint_Write_Word_LE (u16 (nonBlankAddr s))) s in
    Done (emit Endpoint_ClearIN s)
  else
    bind (ProcessFlipCommand fuel s) (fun s => Done (case_GETSTATUS s)).

Definition EVENT_USB_Device_UnhandledControlRequest
    (fuel : nat) (rq : USB_Request) (s : state) : outcome :=
  let s := emit Endpoint_ClearSETUP s in
  bind
    (if bRequest rq =? DFU_DETACH then Done s
     else if bRequest rq =? DFU_DNLOAD then case_DNLOAD fuel rq s
     else if bRequest rq =? DFU_UPLOAD then case_UPLOAD fuel s
     else if bRequest rq =? DFU_GETSTATUS then Done (case_GETSTATUS s)
     else if bRequest rq =? DFU_CLRSTATUS then
       Done (set_DFU_Status OK (set_DFU_State dfuIDLE s))
     else if bRequest rq =? DFU_GETSTATE then
       Done (emit Endpoint_ClearIN
               (emit (Endpoint_Write_Byte (DFU_State s)) (emit Endpoint_IsINReady s)))
     else if bRequest rq =? DFU_ABORT then
       Done (set_DFU_Status OK (set_DFU_State dfuIDLE s))
     else Done s)
    (fun s => Done (emit Endpoint_ClearStatusStage s)).

End Bootloader.

(** ** A session: control requests handled one after the other *)

Fixpoint handle_requests (cfg : config) (w : world) (fuel : nat)
    (rqs : list USB_Request) (s : state) : outcome :=
  match rqs with
  | [] => Done s
  | rq :: rest =>
    bind (EVENT_USB_Device_UnhandledControlRequest cfg w fuel rq s)
         (handle_requests cfg w fuel rest)
  end.

(** A build for the ATmega32U2 the descriptors name: 8-byte control endpoint,
    128-byte flash pages, 4KB boot section, and a dataflash with 512-byte
    pages.  Used for the concrete runs below. *)
Definition atmega32u2 : config := mkConfig 8 128 512 0x7000.

(** A host that sends the bytes 0, 1, 2, ... in each packet, and memories
    that are blank everywhere. *)
Definition blank_world : world :=
  mkWorld (fun _ j => Z.of_nat j) (fun _ => 0xFF) (fun _ => 0xFF) (fun _ => 0xFF).

(** The state with [flipCommand] holding the given group and payload. *)
Definition with_command (g : Z) (d : list Z) (s : state) : state :=
  set_flipCommand (mkFlip g d) s.

(** ** Vocabulary of the properties *)

(** The streaming commands: Download to flash, EEPROM or dataflash, and
    Upload in display mode from flash, EEPROM or dataflash. *)
Definition is_streaming (s : state) : bool :=
  ((group (flipCommand s) =? CMD_GROUP_DOWNLOAD)
   && ((cmd_data s 0 =? 0x00) || (cmd_data s 0 =? 0x01) || (cmd_data s 0 =? 0x10)))
  || ((group (flipCommand s) =? CMD_GROUP_UPLOAD)
      && ((cmd_data s 0 =? 0x00) || (cmd_data s 0 =? 0x02) || (cmd_data s 0 =? 0x10))).


(** The state of a non-empty Dnload request once the FLIP command has been
    retrieved from the OUT packet and the packet acknowledged. *)
Definition retrieve_command (w : world) (rq : USB_Request) (s : state) : state :=
  let s := emit Endpoint_IsOUTReceived (emit Endpoint_ClearSETUP s) in
  let (g, s) := read_byte w s in
  clear_OUT (read_flip_data w 5 0 (wLength rq) (set_group g s)).

(** The groups and blank check opcodes [case DFU_DNLOAD] processes at once. *)
Definition processed_in_dnload (s : state) : bool :=
  (group (flipCommand s) =? CMD_GROUP_DOWNLOAD)
  || is_blank_check s
  || (group (flipCommand s) =? CMD_GROUP_EXEC)
  || (group (flipCommand s) =? CMD_GROUP_SELECT).

(** The six bytes of the Getstatus response for a status and a state. *)
Definition status_response (status st : Z) : list event :=
  [Endpoint_Write_Byte status; Endpoint_Write_Byte 0; Endpoint_Write_Byte 0;
   Endpoint_Write_Byte 0; Endpoint_Write_Byte st; Endpoint_Write_Byte 0].

(** A host whose OUT packets are the given lists of bytes, in front of
    blank memories. *)
Definition host_world (pkts : list (list Z)) : world :=
  mkWorld (fun k j => nth j (nth k pkts []) 0)
          (fun _ => 0xFF) (fun _ => 0xFF) (fun _ => 0xFF).

(** The state a call returned with, if it returned. *)
Definition returned (o : outcome) : option state :=
  match o with
  | Done s => Some s
  | _ => None
  end.

(** Several events at once. *)
Definition emits (l : list event) (s : state) : state :=
  mkState (waitForSecondRequest s) (flipCommand s) (DFU_State s) (DFU_Status s)
    (nonBlankAddr s) (AppStartPtr s) (curFlash64KBPageNumber s) (out_packet s)
    (out_offset s) (df_cursor s) (trace s ++ l).

(** The addresses [a], [a+1], ..., [a+n-1]. *)
Fixpoint zrange (a : Z) (n : nat) : list Z :=
  match n with
  | O => []
  | S n' => a :: zrange (a + 1) n'
  end.

(** A blank check in the words of the specification: read the cells of the
    window in ascending order and stop at the first one that is not 0xFF.
    [cells_scanned] lists the cells read, [first_dirty] is the address found,
    if any, over the [n] cells from [a] on. *)
Fixpoint cells_scanned (cell : Z -> Z) (n : nat) (a : Z) : list Z :=
  match n with
  | O => []
  | S n' => a :: (if cell a =? 0xFF then cells_scanned cell n' (a + 1) else [])
  end.

Fixpoint first_dirty (cell : Z -> Z) (n : nat) (a : Z) : option Z :=
  match n with
  | O => None
  | S n' => if cell a =? 0xFF then first_dirty cell n' (a + 1) else Some a
  end.

(** What a scan that found [A] leaves in the globals. *)
Definition check_failed (A : Z) (s : state) : state :=
  set_nonBlankAddr A (set_DFU_Status errCHECK_ERASED (set_DFU_State dfuERROR s)).

(** A host that asks for the bootloader version (group Read), one that
    asks for an EEPROM blank check of the window 0..4 (group Upload, opcode
    0x03) while EEPROM cell 0 holds 0, and one that asks for a dataflash
    blank check of the window 0..4 while cell 0x10002 of the dataflash holds
    0. *)
Definition read_version_host : world := host_world [[5; 0; 0; 0; 0; 0]].
Definition eeprom_check_host : world :=
  mkWorld (fun k j => nth j (nth k [[3; 3; 0; 0; 0; 4]] []) 0)
          (fun _ => 0xFF) (fun a => if a =? 0 then 0 else 0xFF) (fun _ => 0xFF).
Definition dataflash_check_host : world :=
  mkWorld (fun k j => nth j (nth k [[3; 0x11; 0; 0; 0; 4]] []) 0)
          (fun _ => 0xFF) (fun _ => 0xFF) (fun a => if a =? 0x10002 then 0 else 0xFF).

(** The dataflash blank check of the window 0..4 with 64KB page 1 selected. *)
Definition bank1_dataflash_check : state :=
  with_command CMD_GROUP_UPLOAD [0x11; 0; 0; 0; 4]
    (set_curFlash64KBPageNumber 1 reset_state).

(** ** Flash page operations

    The three operations of the SPM interface a download issues, without
    the data: erase of the page at [a], commit (page write) of the page
    holding [a], fill of the word at [a] in the page buffer. *)
Inductive page_op :=
| Erase (a : Z)
| Commit (a : Z)
| Fill (a : Z).

Definition page_op_of (e : event) : option page_op :=
  match e with
  | boot_page_erase a => Some (Erase a)
  | boot_page_write a => Some (Commit a)
  | boot_page_fill a _ => Some (Fill a)
  | _ => None
  end.

(** The page operations of a trace, in order. *)
Fixpoint page_ops (tr : list event) : list page_op :=
  match tr with
  | [] => []
  | e :: rest =>
    match page_op_of e with
    | Some o => o :: page_ops rest
    | None => page_ops rest
    end
  end.

Definition is_erase (o : page_op) : bool :=
  match o with Erase _ => true | _ => false end.
Definition is_commit (o : page_op) : bool :=
  match o with Commit _ => true | _ => false end.
Definition is_fill (o : page_op) : bool :=
  match o with Fill _ => true | _ => false end.
Definition is_erase_of (a : Z) (o : page_op) : bool :=
  match o with Erase b => b =? a | _ => false end.

Definition count (p : page_op -> bool) (l : list page_op) : nat :=
  length (filter p l).

(** [n] word fills from [a] on. *)
Fixpoint fills (a : Z) (n : nat) : list page_op :=
  match n with
  | O => []
  | S n' => Fill a :: fills (a + 2) n'
  end.

(** The page operations of a download, page by page, for [N] pages of [P]
    bytes from the page-aligned address [a]: each page is erased, the page
    before it (if there is one) is committed, and the page is filled; at
    the boundary that closes the window the page that begins there is
    erased and the last page of the window is committed. *)
Fixpoint window_ops (P : Z) (first : bool) (a : Z) (N : nat) : list page_op :=
  match N with
  | O => [Erase a; Commit (a - 2)]
  | S N' =>
    Erase a :: (if first then [] else [Commit (a - 2)])
    ++ fills a (Z.to_nat (P / 2))
    ++ window_ops P false (a + P) N'
  end.

(** The same operations word by word, as the loop issues them: [k] words
    from the cursor [cur] of a download that started at [startAddr]. *)
Fixpoint stream_ops (P startAddr cur : Z) (k : nat) : list page_op :=
  match k with
  | O => []
  | S k' =>
    (if cur mod P =? 0
     then Erase cur :: (if cur =? startAddr then [] else [Commit (u16 (cur - 2))])
     else [])
    ++ Fill cur :: stream_ops P startAddr (cur + 2) k'
  end.

(** The rest of the flash [while] loop from a point inside the [for] loop
    with [n] iterations of the current packet left. *)
Definition download_flash_rest (cfg : config) (w : world) (fuel n : nat)
    (startAddr endAddr curAddr : Z) (s : state) : option (Z * state) :=
  let (cur, s') := download_flash_packet cfg w n startAddr endAddr curAddr s in
  download_flash_stream cfg w fuel startAddr endAddr cur (end_of_packet s').

(** The flash download of the window 0..1. *)
Definition flash_download_0_1 : state :=
  with_command CMD_GROUP_DOWNLOAD [0x00; 0; 0; 0; 1] reset_state.

(** The flash download of the window 2..3, inside page 0. *)
Definition flash_download_2_3 : state :=
  with_command CMD_GROUP_DOWNLOAD [0x00; 0; 2; 0; 3] reset_state.

(** ** Cells written and cells read

    The number of address units a trace writes to a memory (a flash fill is
    a word, two units) and the number it reads from one. *)
Definition written_by (e : event) : Z :=
  match e with
  | boot_page_fill _ _ => 2
  | eeprom_write_byte _ _ => 1
  | Dataflash_SendByte _ => 1
  | _ => 0
  end.


Fixpoint cells_written (tr : list event) : Z :=
  match tr with
  | [] => 0
  | e :: rest => written_by e + cells_written rest
  end.



(** The EEPROM download and the EEPROM display of the window 0..1, and the
    flash download and the flash display of the window 0..127. *)
Definition eeprom_download_0_1 : state :=
  with_command CMD_GROUP_DOWNLOAD [0x01; 0; 0; 0; 1] reset_state.



(** The [while] loop the three download streams share, over the [for] loop
    [pk] of one packet. *)
Fixpoint download_stream_of (pk : Z -> state -> Z * state) (fuel : nat) (curAddr : Z)
    (s : state) : option (Z * state) :=
  match fuel with
  | O => None
  | S fuel' =>
    if negb (DFU_State s =? dfuMANIFEST_SYNC) then
      let s := set_DFU_State dfuDNBUSY (emit Endpoint_IsOUTReceived s) in
      let (cur, s) := pk curAddr s in
      download_stream_of pk fuel' cur (end_of_packet s)
    else Some (curAddr, s)
  end.

(** The state a call ended in ([reset_state] when it ran out of fuel). *)
Definition result (o : outcome) : state :=
  match o with
  | Done s => s
  | Exited s => s
  | OutOfFuel => reset_state
  end.

(** ** Vocabulary of the further properties *)

(** The identity byte a Read command selects by its two opcode bytes, if
    any. *)
Definition identity_byte (category field : Z) : option Z :=
  if category =? 0x00 then
    if field =? 0x00 then Some BOOTLOADER_VERSION
    else if field =? 0x01 then Some BOOTLOADER_ID_BYTE1
    else if field =? 0x02 then Some BOOTLOADER_ID_BYTE2
    else None
  else if category =? 0x01 then
    if field =? 0x30 then Some MANUFACTURER_CODE
    else if field =? 0x31 then Some FAMILY_CODE
    else if field =? 0x60 then Some PRODUCT_NAME
    else if field =? 0x61 then Some PRODUCT_REVISION
    else None
  else None.

(** The bytes of an IN packet. *)
Definition in_packet (bytes : list Z) : list event :=
  Endpoint_IsINReady :: map Endpoint_Write_Byte bytes ++ [Endpoint_ClearIN].

(** The first addresses of the [n] pages of [P] bytes from [a] on. *)
Fixpoint page_starts (P a : Z) (n : nat) : list Z :=
  match n with
  | O => []
  | S n' => a :: page_starts P (a + P) n'
  end.

(** The events of erasing the flash pages at the given addresses, and of
    writing [v] to the EEPROM cells at the given addresses. *)
Definition erase_pages (l : list Z) : list event :=
  flat_map (fun a => [boot_page_erase a; boot_spm_busy_wait]) l.
Definition eeprom_fill (v : Z) (l : list Z) : list event :=
  flat_map (fun a => [eeprom_write_byte a v; eeprom_busy_wait]) l.

(** The events of [ResetHardware] followed by the jump to [a]. *)
Definition leave_bootloader (a : Z) : list event :=
  [Endpoint_ClearSETUP; MCUCR_write_IVCE; MCUCR_write_zero; USB_ShutDown; SPI_ShutDown;
   AppStart a].

(** Whether an Exec payload is "start application by jump". *)
Definition is_jump_command (s : state) : bool :=
  (cmd_data s 0 =? 0x03) && (cmd_data s 1 =? 0x01).

(** The requests whose case in the handler touches no global: Detach,
    Getstate, and every request code the [switch] has no case for. *)
Definition is_passive_request (rq : USB_Request) : bool :=
  negb ((bRequest rq =? DFU_DNLOAD) || (bRequest rq =? DFU_UPLOAD)
        || (bRequest rq =? DFU_GETSTATUS) || (bRequest rq =? DFU_CLRSTATUS)
        || (bRequest rq =? DFU_ABORT)).

(** What one passive request adds to the trace in a state whose DFU state
    is [st]. *)
Definition passive_events (st : Z) (rq : USB_Request) : list event :=
  Endpoint_ClearSETUP
  :: (if bRequest rq =? DFU_GETSTATE
      then [Endpoint_IsINReady; Endpoint_Write_Byte st; Endpoint_ClearIN]
      else [])
  ++ [Endpoint_ClearStatusStage].

(** What the Upload request that fetches a blank check result adds to the
    trace. *)
Definition result_reply (a : Z) : list event :=
  [Endpoint_ClearSETUP; Endpoint_IsINReady; Endpoint_Write_Word_LE a; Endpoint_ClearIN;
   Endpoint_ClearStatusStage].

(** A host that asks for a flash blank check of the window 0..4 while cell 2
    of the flash holds 0. *)
Definition flash_check_host : world :=
  mkWorld (fun k j => nth j (nth k [[3; 0x01; 0; 0; 0; 4]] []) 0)
          (fun a => if a =? 2 then 0 else 0xFF) (fun _ => 0xFF) (fun _ => 0xFF).

(** Two states that differ at most in the DFU state and in the state of
    the peripherals. *)
Definition same_globals (s s' : state) : Prop :=
  flipCommand s' = flipCommand s
  /\ DFU_Status s' = DFU_Status s
  /\ curFlash64KBPageNumber s' = curFlash64KBPageNumber s
  /\ nonBlankAddr s' = nonBlankAddr s
  /\ AppStartPtr s' = AppStartPtr s
  /\ waitForSecondRequest s' = waitForSecondRequest s.
















(** * Properties *)

Ltac zeqb :=
  repeat match goal with
  | H : (_ =? _) = true |- _ => apply Z.eqb_eq in H
  | H : (_ =? _) = false |- _ => apply Z.eqb_neq in H
  | H : _ && _ = true |- _ => apply andb_prop in H; destruct H
  | H : _ || _ = true |- _ => apply orb_prop in H; destruct H
  end.

Lemma ProcessDownload_refused cfg w fuel s :
  DFU_State s <> dfuIDLE ->
  cmd_data s 0 = 0x00 \/ cmd_data s 0 = 0x01 \/ cmd_data s 0 = 0x10 ->
  ProcessDownload cfg w fuel s = Done (set_DFU_State dfuERROR s).
Proof.
  intros Hst Hop. unfold ProcessDownload.
  apply Z.eqb_neq in Hst. rewrite Hst. simpl.
  destruct Hop as [H | [H | H]]; rewrite H; reflexivity.
Qed.

Lemma ProcessUpload_refused cfg w fuel s :
  DFU_State s <> dfuIDLE ->
  cmd_data s 0 = 0x00 \/ cmd_data s 0 = 0x02 \/ cmd_data s 0 = 0x10 ->
  ProcessUpload cfg w fuel s = Done (set_DFU_State dfuERROR s).
Proof.
  intros Hst Hop. unfold ProcessUpload.
  apply Z.eqb_neq in Hst. rewrite Hst. simpl.
  destruct Hop as [H | [H | H]]; rewrite H; reflexivity.
Qed.

(** C1.  A streaming command (Download to flash, EEPROM or dataflash, or
    Upload display from flash, EEPROM or dataflash) dispatched while the DFU
    state is not Idle returns at once, whatever the fuel: the state is
    Error, the status is the one before, and nothing else changed; in
    particular the trace is the one before, so no erase, write or read of
    any memory, and no endpoint access, took place. *)
Theorem streaming_command_refused_outside_idle :
  forall cfg w fuel s,
    is_streaming s = true ->
    DFU_State s <> dfuIDLE ->
    exists s',
      ProcessFlipCommand cfg w fuel s = Done s'
      /\ DFU_State s' = dfuERROR
      /\ DFU_Status s' = DFU_Status s
      /\ trace s' = trace s
      /\ s' = set_DFU_State dfuERROR s.
Proof.
  intros cfg w fuel s Hs Hst.
  exists (set_DFU_State dfuERROR s).
  repeat split.
  unfold is_streaming in Hs. unfold ProcessFlipCommand.
  apply orb_prop in Hs. destruct Hs as [Hs | Hs];
    apply andb_prop in Hs; destruct Hs as [Hg Hop]; apply Z.eqb_eq in Hg; rewrite Hg.
  - simpl. apply ProcessDownload_refused; [assumption|]. zeqb; auto.
  - simpl. apply ProcessUpload_refused; [assumption|]. zeqb; auto.
Qed.

Lemma streaming_command_refused_outside_idle_witness :
  exists s',
    ProcessFlipCommand atmega32u2 blank_world 0
      (with_command CMD_GROUP_DOWNLOAD [0x00; 0x10; 0x00; 0x10; 0x0F]
         (set_DFU_State dfuDNLOAD_IDLE reset_state)) = Done s'
    /\ DFU_State s' = dfuERROR
    /\ DFU_Status s' = OK
    /\ trace s' = []
    /\ s' = set_DFU_State dfuERROR
              (with_command CMD_GROUP_DOWNLOAD [0x00; 0x10; 0x00; 0x10; 0x0F]
                 (set_DFU_State dfuDNLOAD_IDLE reset_state)).
Proof.
  apply (streaming_command_refused_outside_idle atmega32u2 blank_world 0
           (with_command CMD_GROUP_DOWNLOAD [0x00; 0x10; 0x00; 0x10; 0x0F]
              (set_DFU_State dfuDNLOAD_IDLE reset_state))).
  - reflexivity.
  - vm_compute. discriminate.
Defined.

(** ** Status polling (claim C6) *)

Lemma UpdateState_only_state s :
  UpdateState s = set_DFU_State (DFU_State (UpdateState s)) s.
Proof.
  unfold UpdateState.
  destruct (DFU_State s =? dfuDNLOAD_SYNC) eqn:E1; [reflexivity|].
  destruct (DFU_State s =? dfuUPLOAD_IDLE) eqn:E2; [reflexivity|].
  destruct (DFU_State s =? dfuMANIFEST_SYNC) eqn:E3; [reflexivity|].
  destruct s; reflexivity.
Qed.

Lemma UpdateState_fixed s :
  DFU_State s <> dfuDNLOAD_SYNC -> DFU_State s <> dfuUPLOAD_IDLE ->
  DFU_State s <> dfuMANIFEST_SYNC -> UpdateState s = s.
Proof.
  intros H1 H2 H3. unfold UpdateState.
  apply Z.eqb_neq in H1, H2, H3. rewrite H1, H2, H3. reflexivity.
Qed.

Lemma GETSTATUS_returns cfg w fuel rq s :
  bRequest rq = DFU_GETSTATUS ->
  EVENT_USB_Device_UnhandledControlRequest cfg w fuel rq s
  = Done (emit Endpoint_ClearStatusStage (case_GETSTATUS (emit Endpoint_ClearSETUP s))).
Proof.
  intros H. unfold EVENT_USB_Device_UnhandledControlRequest. rewrite H. reflexivity.
Qed.

Lemma case_GETSTATUS_state s :
  DFU_State (emit Endpoint_ClearStatusStage (case_GETSTATUS (emit Endpoint_ClearSETUP s)))
  = DFU_State (UpdateState s).
Proof.
  unfold case_GETSTATUS, UpdateState. simpl.
  destruct (DFU_State s =? dfuDNLOAD_SYNC); [reflexivity|].
  destruct (DFU_State s =? dfuUPLOAD_IDLE); [reflexivity|].
  destruct (DFU_State s =? dfuMANIFEST_SYNC); reflexivity.
Qed.

Lemma polls_keep_state cfg w fuel rq n :
  bRequest rq = DFU_GETSTATUS ->
  forall s,
    DFU_State s <> dfuDNLOAD_SYNC -> DFU_State s <> dfuUPLOAD_IDLE ->
    DFU_State s <> dfuMANIFEST_SYNC ->
    exists s', handle_requests cfg w fuel (repeat rq n) s = Done s'
               /\ DFU_State s' = DFU_State s.
Proof.
  intros Hrq. induction n as [|n IH]; intros s H1 H2 H3; simpl.
  - exists s. split; reflexivity.
  - rewrite (GETSTATUS_returns cfg w fuel rq s Hrq). simpl bind.
    set (s1 := emit Endpoint_ClearStatusStage (case_GETSTATUS (emit Endpoint_ClearSETUP s))).
    assert (Hs1 : DFU_State s1 = DFU_State s).
    { unfold s1. rewrite case_GETSTATUS_state.
      rewrite (UpdateState_fixed s H1 H2 H3). reflexivity. }
    destruct (IH s1) as [s' [Hrun Hst]]; try (rewrite Hs1; assumption).
    exists s'. split; [exact Hrun | congruence].
Qed.

(** C6.  Every Getstatus request returns and leaves the DFU state that
    [UpdateState] computes from the one before: DownloadSync becomes
    DownloadIdle, UploadIdle becomes Idle, ManifestSync becomes Idle, and
    every other value stays; [UpdateState] touches nothing but the state.
    Hence any number of Getstatus polls issued in Idle, DownloadIdle or Error
    (and likewise DownloadBusy) returns with the state unchanged. *)
Theorem getstatus_poll_transition :
  forall cfg w fuel rq s,
    bRequest rq = DFU_GETSTATUS ->
    (exists s',
        EVENT_USB_Device_UnhandledControlRequest cfg w fuel rq s = Done s'
        /\ DFU_State s' = DFU_State (UpdateState s))
    /\ UpdateState s = set_DFU_State (DFU_State (UpdateState s)) s
    /\ (DFU_State s = dfuDNLOAD_SYNC -> DFU_State (UpdateState s) = dfuDNLOAD_IDLE)
    /\ (DFU_State s = dfuUPLOAD_IDLE -> DFU_State (UpdateState s) = dfuIDLE)
    /\ (DFU_State s = dfuMANIFEST_SYNC -> DFU_State (UpdateState s) = dfuIDLE)
    /\ (DFU_State s <> dfuDNLOAD_SYNC -> DFU_State s <> dfuUPLOAD_IDLE ->
        DFU_State s <> dfuMANIFEST_SYNC -> UpdateState s = s)
    /\ (DFU_State s = dfuIDLE \/ DFU_State s = dfuDNLOAD_IDLE
        \/ DFU_State s = dfuDNBUSY \/ DFU_State s = dfuERROR ->
        forall n, exists s',
          handle_requests cfg w fuel (repeat rq n) s = Done s'
          /\ DFU_State s' = DFU_State s).
Proof.
  intros cfg w fuel rq s Hrq.
  split; [|split; [|split; [|split; [|split; [|split]]]]].
  - eexists. split; [apply GETSTATUS_returns; assumption|].
    apply case_GETSTATUS_state.
  - apply UpdateState_only_state.
  - intros H. unfold UpdateState. rewrite H. reflexivity.
  - intros H. unfold UpdateState. rewrite H. reflexivity.
  - intros H. unfold UpdateState. rewrite H. reflexivity.
  - apply UpdateState_fixed.
  - intros H n. apply polls_keep_state; try assumption;
      destruct H as [H | [H | [H | H]]]; rewrite H; discriminate.
Qed.

Lemma getstatus_poll_transition_witness :
  DFU_State
    (UpdateState (set_DFU_State dfuMANIFEST_SYNC reset_state)) = dfuIDLE
  /\ exists s',
       handle_requests atmega32u2 blank_world 0
         (repeat (mkRequest DFU_GETSTATUS 6) 3)
         (set_DFU_State dfuERROR reset_state) = Done s'
       /\ DFU_State s' = dfuERROR.
Proof.
  split.
  - apply (getstatus_poll_transition atmega32u2 blank_world 0
             (mkRequest DFU_GETSTATUS 6)
             (set_DFU_State dfuMANIFEST_SYNC reset_state)); reflexivity.
  - apply (getstatus_poll_transition atmega32u2 blank_world 0
             (mkRequest DFU_GETSTATUS 6)
             (set_DFU_State dfuERROR reset_state)).
    + reflexivity.
    + right. right. right. reflexivity.
Defined.

(** ** Clrstatus and Abort (claim C7) *)

(** C7.  The Clrstatus request and the Abort request do the same on every
    state: both return with the DFU state Idle and the status Ok, whatever
    they were, with every other global as before and with nothing in the
    trace but the acknowledgement of the setup packet and of the status
    stage that every control request gets. *)
Theorem clrstatus_and_abort_equivalent :
  forall cfg w fuel len len' s,
    EVENT_USB_Device_UnhandledControlRequest cfg w fuel (mkRequest DFU_CLRSTATUS len) s
    = EVENT_USB_Device_UnhandledControlRequest cfg w fuel (mkRequest DFU_ABORT len') s
    /\ EVENT_USB_Device_UnhandledControlRequest cfg w fuel (mkRequest DFU_ABORT len') s
       = Done (mkState (waitForSecondRequest s) (flipCommand s) dfuIDLE OK
                 (nonBlankAddr s) (AppStartPtr s) (curFlash64KBPageNumber s)
                 (out_packet s) (out_offset s) (df_cursor s)
                 (trace s ++ [Endpoint_ClearSETUP; Endpoint_ClearStatusStage])).
Proof.
  intros cfg w fuel len len' s. split.
  - reflexivity.
  - unfold EVENT_USB_Device_UnhandledControlRequest. simpl.
    unfold emit, set_DFU_Status, set_DFU_State. simpl.
    rewrite <- app_assoc. reflexivity.
Qed.

(** ** Dispatch from the control requests (claims C8 and C10) *)

Lemma DNLOAD_unfold cfg w fuel rq s :
  bRequest rq = DFU_DNLOAD -> wLength rq <> 0 ->
  EVENT_USB_Device_UnhandledControlRequest cfg w fuel rq s
  = bind
      (let s1 := retrieve_command w rq s in
       if processed_in_dnload s1
       then ProcessFlipCommand cfg w fuel (set_waitForSecondRequest false s1)
       else Done (set_waitForSecondRequest true s1))
      (fun s => Done (emit Endpoint_ClearStatusStage s)).
Proof.
  intros Hrq Hlen. unfold EVENT_USB_Device_UnhandledControlRequest.
  rewrite Hrq.
  change (DFU_DNLOAD =? DFU_DETACH) with false.
  change (DFU_DNLOAD =? DFU_DNLOAD) with true.
  cbv beta match zeta. f_equal. unfold case_DNLOAD, retrieve_command.
  apply Z.eqb_neq in Hlen. rewrite Hlen.
  change (negb false) with true. cbv beta match zeta.
  destruct (read_byte w (emit Endpoint_IsOUTReceived (emit Endpoint_ClearSETUP s))) as [g s0].
  generalize (clear_OUT (read_flip_data w 5 0 (wLength rq) (set_group g s0))).
  intros s1. unfold processed_in_dnload.
  destruct ((group (flipCommand s1) =? CMD_GROUP_DOWNLOAD) || is_blank_check s1
            || (group (flipCommand s1) =? CMD_GROUP_EXEC)
            || (group (flipCommand s1) =? CMD_GROUP_SELECT)); reflexivity.
Qed.

Lemma UPLOAD_unfold cfg w fuel rq s :
  bRequest rq = DFU_UPLOAD ->
  is_blank_check s = false ->
  EVENT_USB_Device_UnhandledControlRequest cfg w fuel rq s
  = bind (ProcessFlipCommand cfg w fuel (emit Endpoint_ClearSETUP s))
         (fun s1 => Done (emit Endpoint_ClearStatusStage (case_GETSTATUS s1))).
Proof.
  intros Hrq Hb. unfold EVENT_USB_Device_UnhandledControlRequest.
  rewrite Hrq.
  change (DFU_UPLOAD =? DFU_DETACH) with false.
  change (DFU_UPLOAD =? DFU_DNLOAD) with false.
  change (DFU_UPLOAD =? DFU_UPLOAD) with true.
  cbv beta match zeta.
  unfold case_UPLOAD.
  replace (is_blank_check (emit Endpoint_ClearSETUP s)) with (is_blank_check s)
    by reflexivity.
  rewrite Hb.
  destruct (ProcessFlipCommand cfg w fuel (emit Endpoint_ClearSETUP s)); reflexivity.
Qed.

Lemma case_GETSTATUS_trace s :
  trace (case_GETSTATUS s)
  = trace s ++ Endpoint_IsINReady
      :: status_response (DFU_Status s) (DFU_State (UpdateState s)) ++ [Endpoint_ClearIN].
Proof.
  assert (Ht : trace (UpdateState s) = trace s)
    by (rewrite UpdateState_only_state; reflexivity).
  assert (Hs : DFU_Status (UpdateState s) = DFU_Status s)
    by (rewrite UpdateState_only_state; reflexivity).
  unfold case_GETSTATUS, status_response. cbn [trace emit DFU_Status DFU_State].
  rewrite Ht, Hs. repeat rewrite <- app_assoc. reflexivity.
Qed.



Lemma erase_flash_returns cfg fuel :
  0 < SPM_PAGESIZE cfg ->
  BOOT_START_ADDR cfg + SPM_PAGESIZE cfg <= 2 ^ 16 ->
  forall cur s,
    0 <= cur ->
    (Z.to_nat (BOOT_START_ADDR cfg - cur) < fuel)%nat ->
    exists s', erase_flash cfg fuel cur s = Done s'.
Proof.
  intros HP HB. induction fuel as [|fuel IH]; intros cur s Hc Hf.
  - lia.
  - simpl. destruct (cur <? BOOT_START_ADDR cfg) eqn:E.
    + apply Z.ltb_lt in E.
      assert (Hu : u16 (cur + SPM_PAGESIZE cfg) = cur + SPM_PAGESIZE cfg).
      { unfold u16. apply Z.mod_small. lia. }
      rewrite Hu. apply IH; lia.
    + eexists. reflexivity.
Qed.

Lemma ProcessExec_returns cfg fuel s :
  0 < SPM_PAGESIZE cfg ->
  BOOT_START_ADDR cfg + SPM_PAGESIZE cfg <= 2 ^ 16 ->
  (Z.to_nat (BOOT_START_ADDR cfg) < fuel)%nat ->
  exists s', ProcessExec cfg fuel s = Done s'.
Proof.
  intros HP HB Hf. unfold ProcessExec.
  assert (H1 : exists s1,
             (if (cmd_data s 0 =? 0x00) && (cmd_data s 1 =? 0xFF)
              then bind (erase_flash cfg fuel 0 s) (fun s => Done (emit boot_rww_enable s))
              else Done s) = Done s1).
  { destruct ((cmd_data s 0 =? 0x00) && (cmd_data s 1 =? 0xFF)).
    - destruct (erase_flash_returns cfg fuel HP HB 0 s) as [s1 H1]; [lia| |].
      + rewrite Z.sub_0_r. exact Hf.
      + rewrite H1. eexists. reflexivity.
    - eexists. reflexivity. }
  destruct H1 as [s1 H1]. rewrite H1. cbn [bind].
  destruct ((cmd_data s1 0 =? 0x01) && (cmd_data s1 1 =? 0xFF)); [eexists; reflexivity|].
  destruct ((cmd_data s1 0 =? 0x10) && (cmd_data s1 1 =? 0xFF)); [eexists; reflexivity|].
  destruct (cmd_data s1 0 =? 0x01); [eexists; reflexivity|].
  destruct (cmd_data s1 0 =? 0x03); [|eexists; reflexivity].
  destruct (cmd_data s1 1 =? 0x00); [eexists; reflexivity|].
  destruct (cmd_data s1 1 =? 0x01); eexists; reflexivity.
Qed.

(** C8, as the code has it.  In a Dnload request with a non-empty payload,
    a command of group Exec or Select is handled within that request: its
    handler runs on the command just retrieved, before the status stage is
    acknowledged, and the Exec handler returns when the erase loop has
    fuel for the pages below the boot section.  A command of group Read is
    only recorded, with [waitForSecondRequest] set, and no handler runs; it
    is the following Upload request that calls [ProcessRead]. *)
Theorem exec_select_in_dnload_read_in_upload :
  forall cfg w fuel rq s,
    bRequest rq = DFU_DNLOAD ->
    wLength rq <> 0 ->
    let s1 := retrieve_command w rq s in
    (group (flipCommand s1) = CMD_GROUP_EXEC ->
     EVENT_USB_Device_UnhandledControlRequest cfg w fuel rq s
     = bind (ProcessExec cfg fuel (set_waitForSecondRequest false s1))
            (fun s' => Done (emit Endpoint_ClearStatusStage s'))
     /\ (0 < SPM_PAGESIZE cfg ->
         BOOT_START_ADDR cfg + SPM_PAGESIZE cfg <= 2 ^ 16 ->
         (Z.to_nat (BOOT_START_ADDR cfg) < fuel)%nat ->
         exists s',
           ProcessExec cfg fuel (set_waitForSecondRequest false s1) = Done s'))
    /\ (group (flipCommand s1) = CMD_GROUP_SELECT ->
        EVENT_USB_Device_UnhandledControlRequest cfg w fuel rq s
        = Done (emit Endpoint_ClearStatusStage
                  (ProcessSelect (set_waitForSecondRequest false s1))))
    /\ (group (flipCommand s1) = CMD_GROUP_READ ->
        EVENT_USB_Device_UnhandledControlRequest cfg w fuel rq s
        = Done (emit Endpoint_ClearStatusStage (set_waitForSecondRequest true s1))
        /\ forall rq',
             bRequest rq' = DFU_UPLOAD ->
             EVENT_USB_Device_UnhandledControlRequest cfg w fuel rq'
               (emit Endpoint_ClearStatusStage (set_waitForSecondRequest true s1))
             = Done (emit Endpoint_ClearStatusStage
                       (case_GETSTATUS
                          (ProcessRead
                             (emit Endpoint_ClearSETUP
                                (emit Endpoint_ClearStatusStage
                                   (set_waitForSecondRequest true s1))))))).
Proof.
  intros cfg w fuel rq s Hrq Hlen s1.
  pose proof (DNLOAD_unfold cfg w fuel rq s Hrq Hlen) as HD.
  fold s1 in HD. cbv zeta in HD.
  split; [|split].
  - intros Hg. split.
    + rewrite HD. unfold processed_in_dnload, is_blank_check. rewrite Hg.
      cbn [Z.eqb CMD_GROUP_EXEC CMD_GROUP_DOWNLOAD CMD_GROUP_UPLOAD Pos.eqb andb orb].
      unfold ProcessFlipCommand.
      change (group (flipCommand (set_waitForSecondRequest false s1)))
        with (group (flipCommand s1)).
      rewrite Hg. reflexivity.
    + intros HP HB Hf. apply ProcessExec_returns; assumption.
  - intros Hg. rewrite HD. unfold processed_in_dnload, is_blank_check. rewrite Hg.
    cbn [Z.eqb CMD_GROUP_SELECT CMD_GROUP_EXEC CMD_GROUP_DOWNLOAD CMD_GROUP_UPLOAD
         Pos.eqb andb orb].
    unfold ProcessFlipCommand.
    change (group (flipCommand (set_waitForSecondRequest false s1)))
      with (group (flipCommand s1)).
    rewrite Hg. reflexivity.
  - intros Hg. split.
    + rewrite HD. unfold processed_in_dnload, is_blank_check. rewrite Hg. reflexivity.
    + intros rq' Hrq'. rewrite UPLOAD_unfold; [|assumption|].
      * unfold ProcessFlipCommand.
        change (group (flipCommand
                  (emit Endpoint_ClearSETUP
                     (emit Endpoint_ClearStatusStage (set_waitForSecondRequest true s1)))))
          with (group (flipCommand s1)).
        rewrite Hg. reflexivity.
      * unfold is_blank_check.
        change (group (flipCommand
                  (emit Endpoint_ClearStatusStage (set_waitForSecondRequest true s1))))
          with (group (flipCommand s1)).
        rewrite Hg. reflexivity.
Qed.

Lemma exec_select_in_dnload_read_in_upload_witness :
  (EVENT_USB_Device_UnhandledControlRequest atmega32u2
     (host_world [[6; 3; 0; 1; 0; 0]]) 0 (mkRequest DFU_DNLOAD 6) reset_state
   = Done (emit Endpoint_ClearStatusStage
             (ProcessSelect
                (set_waitForSecondRequest false
                   (retrieve_command (host_world [[6; 3; 0; 1; 0; 0]])
                      (mkRequest DFU_DNLOAD 6) reset_state)))))
  /\ (exists s',
         ProcessExec atmega32u2 (Z.to_nat 30000)
           (set_waitForSecondRequest false
              (retrieve_command (host_world [[4; 0; 0xFF; 0; 0; 0]])
                 (mkRequest DFU_DNLOAD 6) reset_state)) = Done s')
  /\ (EVENT_USB_Device_UnhandledControlRequest atmega32u2 read_version_host 0
        (mkRequest DFU_DNLOAD 6) reset_state
      = Done (emit Endpoint_ClearStatusStage
                (set_waitForSecondRequest true
                   (retrieve_command read_version_host (mkRequest DFU_DNLOAD 6)
                      reset_state)))).
Proof.
  assert (Hlen : wLength (mkRequest DFU_DNLOAD 6) <> 0) by discriminate.
  split; [|split].
  - destruct (exec_select_in_dnload_read_in_upload atmega32u2
                (host_world [[6; 3; 0; 1; 0; 0]]) 0 (mkRequest DFU_DNLOAD 6)
                reset_state eq_refl Hlen) as [_ [H _]].
    apply H. reflexivity.
  - destruct (exec_select_in_dnload_read_in_upload atmega32u2
                (host_world [[4; 0; 0xFF; 0; 0; 0]]) (Z.to_nat 30000)
                (mkRequest DFU_DNLOAD 6) reset_state eq_refl Hlen) as [H _].
    destruct (H eq_refl) as [_ Hret].
    apply Hret.
    + reflexivity.
    + vm_compute. discriminate.
    + cbn [BOOT_START_ADDR atmega32u2]. lia.
  - destruct (exec_select_in_dnload_read_in_upload atmega32u2
                read_version_host 0 (mkRequest DFU_DNLOAD 6)
                reset_state eq_refl Hlen) as [_ [_ H]].
    destruct (H eq_refl) as [Hd _]. exact Hd.
Defined.

(** C8 as stated fails for the Read group: a Dnload request that carries
    the command "read bootloader version" returns with the command recorded
    and [waitForSecondRequest] set; its trace holds the retrieval of the
    six bytes and the acknowledgements, and none of the events of
    [ProcessRead] (no byte is written to the IN endpoint). *)
Lemma read_command_not_handled_in_dnload :
  option_map trace
    (returned (EVENT_USB_Device_UnhandledControlRequest atmega32u2 read_version_host 0
                 (mkRequest DFU_DNLOAD 6) reset_state))
  = Some [Endpoint_ClearSETUP; Endpoint_IsOUTReceived; Endpoint_Read_Byte 5;
          Endpoint_Read_Byte 0; Endpoint_Read_Byte 0; Endpoint_Read_Byte 0;
          Endpoint_Read_Byte 0; Endpoint_Read_Byte 0; Endpoint_ClearOUT;
          Endpoint_ClearStatusStage]
  /\ option_map waitForSecondRequest
       (returned (EVENT_USB_Device_UnhandledControlRequest atmega32u2 read_version_host 0
                    (mkRequest DFU_DNLOAD 6) reset_state))
     = Some true
  /\ option_map (fun s => group (flipCommand s))
       (returned (EVENT_USB_Device_UnhandledControlRequest atmega32u2 read_version_host 0
                    (mkRequest DFU_DNLOAD 6) reset_state))
     = Some CMD_GROUP_READ
  /\ EVENT_USB_Device_UnhandledControlRequest atmega32u2 read_version_host 0
       (mkRequest DFU_DNLOAD 6) reset_state
     <> bind (ProcessFlipCommand atmega32u2 read_version_host 0
                (set_waitForSecondRequest false
                   (retrieve_command read_version_host (mkRequest DFU_DNLOAD 6)
                      reset_state)))
             (fun s => Done (emit Endpoint_ClearStatusStage s)).
Proof.
  repeat split; try reflexivity.
  vm_compute. intros H. discriminate H.
Qed.

(** ** Blank check (claims C3 and C4) *)

Lemma emits_nil s : emits [] s = s.
Proof. destruct s. unfold emits. simpl. rewrite app_nil_r. reflexivity. Qed.

Lemma emits_emit l e s : emits l (emit e s) = emits (e :: l) s.
Proof. unfold emits, emit. simpl. rewrite <- app_assoc. reflexivity. Qed.

Lemma emit_emits l e s : emit e (emits l s) = emits (l ++ [e]) s.
Proof. unfold emits, emit. simpl. rewrite <- app_assoc. reflexivity. Qed.

Lemma blank_check_flash_scan w n :
  forall endAddr cur s,
    n = Z.to_nat (endAddr - cur) ->
    blank_check_flash w n endAddr cur s
    = match first_dirty (flash_cell w) n cur with
      | Some A =>
        check_failed A (emits (map pgm_read_byte (cells_scanned (flash_cell w) n cur)) s)
      | None => emits (map pgm_read_byte (cells_scanned (flash_cell w) n cur)) s
      end.
Proof.
  induction n as [|n IH]; intros endAddr cur s Hn.
  - simpl. rewrite emits_nil. reflexivity.
  - cbn [blank_check_flash first_dirty cells_scanned].
    assert (Hlt : (cur <? endAddr) = true) by (apply Z.ltb_lt; lia).
    rewrite Hlt.
    destruct (flash_cell w cur =? 0xFF) eqn:E; cbn [negb].
    + rewrite IH by lia.
      destruct (first_dirty (flash_cell w) n (cur + 1));
        rewrite emits_emit; reflexivity.
    + reflexivity.
Qed.

Lemma blank_check_dataflash_scan w n :
  forall endAddr cur s,
    n = Z.to_nat (endAddr - cur) ->
    df_cursor s = cur ->
    blank_check_dataflash w n endAddr cur s
    = match first_dirty (dataflash_cell w) n cur with
      | Some A =>
        check_failed (u16 A)
          (set_df_cursor (A + 1)
             (emits (map Dataflash_ReceiveByte (cells_scanned (dataflash_cell w) n cur)) s))
      | None =>
        set_df_cursor (cur + Z.of_nat n)
          (emits (map Dataflash_ReceiveByte (cells_scanned (dataflash_cell w) n cur)) s)
      end.
Proof.
  induction n as [|n IH]; intros endAddr cur s Hn Hc.
  - simpl. rewrite emits_nil. rewrite Z.add_0_r. rewrite <- Hc.
    destruct s; reflexivity.
  - cbn [blank_check_dataflash first_dirty cells_scanned].
    assert (Hlt : (cur <? endAddr) = true) by (apply Z.ltb_lt; lia).
    rewrite Hlt. unfold receive_byte. rewrite Hc.
    destruct (dataflash_cell w cur =? 0xFF) eqn:E; cbn [negb].
    + rewrite IH; [|lia|reflexivity].
      replace (cur + 1 + Z.of_nat n) with (cur + Z.of_nat (S n)) by lia.
      destruct (first_dirty (dataflash_cell w) n (cur + 1));
        rewrite emits_emit; reflexivity.
    + reflexivity.
Qed.

Lemma scan_all_blank cell n :
  forall a,
    (forall x, a <= x < a + Z.of_nat n -> cell x = 0xFF) ->
    first_dirty cell n a = None /\ cells_scanned cell n a = zrange a n.
Proof.
  induction n as [|n IH]; intros a Hb.
  - split; reflexivity.
  - cbn [first_dirty cells_scanned zrange].
    rewrite (Hb a) by lia. cbn [Z.eqb Pos.eqb].
    destruct (IH (a + 1)) as [H1 H2]; [intros x Hx; apply Hb; lia|].
    rewrite H1, H2. split; reflexivity.
Qed.

Lemma scan_first_dirty cell n :
  forall a A,
    a <= A < a + Z.of_nat n ->
    cell A <> 0xFF ->
    (forall x, a <= x < A -> cell x = 0xFF) ->
    first_dirty cell n a = Some A
    /\ cells_scanned cell n a = zrange a (Z.to_nat (A - a + 1)).
Proof.
  induction n as [|n IH]; intros a A Hr Hd Hb.
  - lia.
  - cbn [first_dirty cells_scanned].
    destruct (Z.eq_dec a A) as [-> | Hne].
    + apply Z.eqb_neq in Hd. rewrite Hd.
      replace (A - A + 1) with 1 by lia. split; reflexivity.
    + rewrite (Hb a) by lia. cbn [Z.eqb Pos.eqb].
      destruct (IH (a + 1) A) as [H1 H2]; [lia|assumption|intros x Hx; apply Hb; lia|].
      rewrite H1, H2. split; [reflexivity|].
      replace (Z.to_nat (A - a + 1)) with (S (Z.to_nat (A - (a + 1) + 1))) by lia.
      reflexivity.
Qed.

Lemma page_offset_recompose a b : a / b * b + a mod b = a.
Proof.
  destruct (Z.eq_dec b 0) as [-> | Hb].
  - rewrite Z.div_0_r, Z.mod_0_r. lia.
  - pose proof (Z.div_mod a b Hb). lia.
Qed.

Lemma ProcessUpload_flash_check cfg w fuel s :
  cmd_data s 0 = 0x01 ->
  ProcessUpload cfg w fuel s
  = Done (blank_check_flash w
            (Z.to_nat (addr16 (cmd_data s 3) (cmd_data s 4)
                       - addr16 (cmd_data s 1) (cmd_data s 2)))
            (addr16 (cmd_data s 3) (cmd_data s 4))
            (addr16 (cmd_data s 1) (cmd_data s 2)) s).
Proof. intros H. unfold ProcessUpload. rewrite H. reflexivity. Qed.

Lemma ProcessUpload_dataflash_check cfg w fuel s :
  cmd_data s 0 = 0x11 ->
  ProcessUpload cfg w fuel s
  = let startAddr := addr32 (curFlash64KBPageNumber s) (cmd_data s 1) (cmd_data s 2) in
    let endAddr := addr32 (curFlash64KBPageNumber s) (cmd_data s 3) (cmd_data s 4) in
    Done (emit Dataflash_DeselectChip
            (blank_check_dataflash w (Z.to_nat (endAddr - startAddr)) endAddr startAddr
               (configure_read cfg DF_CMD_CONTARRAYREAD_LF
                  (startAddr / DATAFLASH_PAGE_SIZE cfg)
                  (startAddr mod DATAFLASH_PAGE_SIZE cfg)
                  (emit Dataflash_SelectChip s)))).
Proof. intros H. unfold ProcessUpload. rewrite H. reflexivity. Qed.

Lemma ProcessUpload_eeprom_check cfg w fuel s :
  cmd_data s 0 = 0x03 -> ProcessUpload cfg w fuel s = Done s.
Proof. intros H. unfold ProcessUpload. rewrite H. reflexivity. Qed.

(** The trace of the dataflash blank check around the cells it receives. *)
Lemma dataflash_check_trace cfg w fuel s :
  cmd_data s 0 = 0x11 ->
  let startAddr := addr32 (curFlash64KBPageNumber s) (cmd_data s 1) (cmd_data s 2) in
  let endAddr := addr32 (curFlash64KBPageNumber s) (cmd_data s 3) (cmd_data s 4) in
  let n := Z.to_nat (endAddr - startAddr) in
  exists s',
    ProcessUpload cfg w fuel s = Done s'
    /\ trace s'
       = trace s
         ++ [Dataflash_SelectChip;
             Dataflash_Configure_Read_Page_Offset DF_CMD_CONTARRAYREAD_LF
               (startAddr / DATAFLASH_PAGE_SIZE cfg)
               (startAddr mod DATAFLASH_PAGE_SIZE cfg)]
         ++ map Dataflash_ReceiveByte (cells_scanned (dataflash_cell w) n startAddr)
         ++ [Dataflash_DeselectChip]
    /\ match first_dirty (dataflash_cell w) n startAddr with
       | Some A =>
         DFU_State s' = dfuERROR /\ DFU_Status s' = errCHECK_ERASED
         /\ nonBlankAddr s' = u16 A
       | None =>
         DFU_State s' = DFU_State s /\ DFU_Status s' = DFU_Status s
         /\ nonBlankAddr s' = nonBlankAddr s
       end.
Proof.
  intros H startAddr endAddr n.
  rewrite (ProcessUpload_dataflash_check cfg w fuel s H).
  fold startAddr endAddr. cbv zeta. fold n.
  eexists. split; [reflexivity|].
  rewrite (blank_check_dataflash_scan w n endAddr startAddr); [|reflexivity|].
  - destruct (first_dirty (dataflash_cell w) n startAddr); split;
      try (repeat split; reflexivity);
      cbn [trace emit check_failed set_nonBlankAddr set_DFU_Status set_DFU_State
           set_df_cursor emits configure_read];
      repeat rewrite <- app_assoc; reflexivity.
  - cbn [configure_read df_cursor emit set_df_cursor]. apply page_offset_recompose.
Qed.

Lemma flash_check_trace cfg w fuel s :
  cmd_data s 0 = 0x01 ->
  let startAddr := addr16 (cmd_data s 1) (cmd_data s 2) in
  let endAddr := addr16 (cmd_data s 3) (cmd_data s 4) in
  let n := Z.to_nat (endAddr - startAddr) in
  exists s',
    ProcessUpload cfg w fuel s = Done s'
    /\ trace s' = trace s ++ map pgm_read_byte (cells_scanned (flash_cell w) n startAddr)
    /\ match first_dirty (flash_cell w) n startAddr with
       | Some A =>
         DFU_State s' = dfuERROR /\ DFU_Status s' = errCHECK_ERASED
         /\ nonBlankAddr s' = A
       | None =>
         DFU_State s' = DFU_State s /\ DFU_Status s' = DFU_Status s
         /\ nonBlankAddr s' = nonBlankAddr s
       end.
Proof.
  intros H startAddr endAddr n.
  rewrite (ProcessUpload_flash_check cfg w fuel s H).
  fold startAddr endAddr. fold n.
  eexists. split; [reflexivity|].
  rewrite (blank_check_flash_scan w n endAddr startAddr) by reflexivity.
  destruct (first_dirty (flash_cell w) n startAddr); split;
    try (repeat split; reflexivity).
Qed.

(** C3, as the code has it.  For the flash scan (opcode 0x01) and the
    dataflash scan (opcode 0x11) over the decoded window from [startAddr] up
    to, not including, [endAddr]: when every cell of the window reads 0xFF
    the call returns with state, status and stored result unchanged, having
    read every cell of the window once, in order; when some cell does not,
    and [A] is the lowest such address, the call returns with state Error
    and status errCHECK_ERASED, and the cells read are those from
    [startAddr] to [A], none past [A].  The stored result is [A] for flash;
    for dataflash it is [A] reduced modulo 2^16, the 16 bits [nonBlankAddr]
    holds. *)
Theorem blank_check_scan_result :
  forall cfg w fuel s,
    (cmd_data s 0 = 0x01 ->
     let startAddr := addr16 (cmd_data s 1) (cmd_data s 2) in
     let endAddr := addr16 (cmd_data s 3) (cmd_data s 4) in
     ((forall a, startAddr <= a < endAddr -> flash_cell w a = 0xFF) ->
      exists s',
        ProcessUpload cfg w fuel s = Done s'
        /\ DFU_State s' = DFU_State s /\ DFU_Status s' = DFU_Status s
        /\ nonBlankAddr s' = nonBlankAddr s
        /\ trace s'
           = trace s ++ map pgm_read_byte (zrange startAddr (Z.to_nat (endAddr - startAddr))))
     /\ (forall A,
            startAddr <= A < endAddr ->
            flash_cell w A <> 0xFF ->
            (forall a, startAddr <= a < A -> flash_cell w a = 0xFF) ->
            exists s',
              ProcessUpload cfg w fuel s = Done s'
              /\ DFU_State s' = dfuERROR /\ DFU_Status s' = errCHECK_ERASED
              /\ nonBlankAddr s' = A
              /\ trace s'
                 = trace s
                   ++ map pgm_read_byte (zrange startAddr (Z.to_nat (A - startAddr + 1)))))
    /\ (cmd_data s 0 = 0x11 ->
        let startAddr := addr32 (curFlash64KBPageNumber s) (cmd_data s 1) (cmd_data s 2) in
        let endAddr := addr32 (curFlash64KBPageNumber s) (cmd_data s 3) (cmd_data s 4) in
        let select :=
          [Dataflash_SelectChip;
           Dataflash_Configure_Read_Page_Offset DF_CMD_CONTARRAYREAD_LF
             (startAddr / DATAFLASH_PAGE_SIZE cfg)
             (startAddr mod DATAFLASH_PAGE_SIZE cfg)] in
        ((forall a, startAddr <= a < endAddr -> dataflash_cell w a = 0xFF) ->
         exists s',
           ProcessUpload cfg w fuel s = Done s'
           /\ DFU_State s' = DFU_State s /\ DFU_Status s' = DFU_Status s
           /\ nonBlankAddr s' = nonBlankAddr s
           /\ trace s'
              = trace s ++ select
                ++ map Dataflash_ReceiveByte
                     (zrange startAddr (Z.to_nat (endAddr - startAddr)))
                ++ [Dataflash_DeselectChip])
        /\ (forall A,
               startAddr <= A < endAddr ->
               dataflash_cell w A <> 0xFF ->
               (forall a, startAddr <= a < A -> dataflash_cell w a = 0xFF) ->
               exists s',
                 ProcessUpload cfg w fuel s = Done s'
                 /\ DFU_State s' = dfuERROR /\ DFU_Status s' = errCHECK_ERASED
                 /\ nonBlankAddr s' = A mod 2 ^ 16
                 /\ trace s'
                    = trace s ++ select
                      ++ map Dataflash_ReceiveByte
                           (zrange startAddr (Z.to_nat (A - startAddr + 1)))
                      ++ [Dataflash_DeselectChip])).
Proof.
  intros cfg w fuel s. split.
  - intros Hop startAddr endAddr.
    destruct (flash_check_trace cfg w fuel s Hop) as [s' [Hrun [Htr Hres]]].
    fold startAddr endAddr in Htr, Hres. cbv zeta in Htr, Hres.
    split.
    + intros Hblank.
      destruct (scan_all_blank (flash_cell w) (Z.to_nat (endAddr - startAddr)) startAddr)
        as [Hfd Hcs]; [intros x Hx; apply Hblank; lia|].
      rewrite Hfd in Hres. rewrite Hcs in Htr.
      exists s'. intuition.
    + intros A HA Hd Hb.
      destruct (scan_first_dirty (flash_cell w) (Z.to_nat (endAddr - startAddr))
                  startAddr A) as [Hfd Hcs]; [lia|assumption|assumption|].
      rewrite Hfd in Hres. rewrite Hcs in Htr.
      exists s'. intuition.
  - intros Hop startAddr endAddr select.
    destruct (dataflash_check_trace cfg w fuel s Hop) as [s' [Hrun [Htr Hres]]].
    fold startAddr endAddr in Htr, Hres. cbv zeta in Htr, Hres.
    fold select in Htr.
    split.
    + intros Hblank.
      destruct (scan_all_blank (dataflash_cell w) (Z.to_nat (endAddr - startAddr)) startAddr)
        as [Hfd Hcs]; [intros x Hx; apply Hblank; lia|].
      rewrite Hfd in Hres. rewrite Hcs in Htr.
      exists s'. intuition.
    + intros A HA Hd Hb.
      destruct (scan_first_dirty (dataflash_cell w) (Z.to_nat (endAddr - startAddr))
                  startAddr A) as [Hfd Hcs]; [lia|assumption|assumption|].
      rewrite Hfd in Hres. rewrite Hcs in Htr.
      exists s'. unfold u16 in Hres. intuition.
Qed.

Lemma blank_check_scan_result_witness :
  (exists s',
      ProcessUpload atmega32u2 blank_world 0
        (with_command CMD_GROUP_UPLOAD [0x01; 0; 0; 0; 4] reset_state) = Done s'
      /\ DFU_State s' = dfuIDLE /\ DFU_Status s' = OK /\ nonBlankAddr s' = 0
      /\ trace s' = map pgm_read_byte [0; 1; 2; 3])
  /\ (exists s',
         ProcessUpload atmega32u2 dataflash_check_host 0 bank1_dataflash_check = Done s'
         /\ DFU_State s' = dfuERROR /\ DFU_Status s' = errCHECK_ERASED
         /\ nonBlankAddr s' = 2
         /\ trace s'
            = [Dataflash_SelectChip;
               Dataflash_Configure_Read_Page_Offset DF_CMD_CONTARRAYREAD_LF 128 0;
               Dataflash_ReceiveByte 0x10000; Dataflash_ReceiveByte 0x10001;
               Dataflash_ReceiveByte 0x10002; Dataflash_DeselectChip]).
Proof.
  split.
  - destruct (blank_check_scan_result atmega32u2 blank_world 0
                (with_command CMD_GROUP_UPLOAD [0x01; 0; 0; 0; 4] reset_state))
      as [H _].
    destruct (H eq_refl) as [Hblank _].
    apply Hblank. intros a _. reflexivity.
  - destruct (blank_check_scan_result atmega32u2 dataflash_check_host 0
                bank1_dataflash_check) as [_ H].
    destruct (H eq_refl) as [_ Hdirty].
    apply (Hdirty 0x10002).
    + vm_compute. split; [discriminate | reflexivity].
    + vm_compute. discriminate.
    + intros a [_ Ha]. cbn [dataflash_cell dataflash_check_host].
      destruct (a =? 65538) eqn:E; [apply Z.eqb_eq in E; lia | reflexivity].
Defined.

(** C3 as stated fails for the dataflash scan when a 64KB page other than 0
    is selected: with page 1 selected the window of the payload 0..4 is
    0x10000..0x10004, its lowest cell that is not 0xFF is 0x10002, and the
    stored result is 2. *)
Lemma dataflash_check_stores_low_16_bits :
  addr32 (curFlash64KBPageNumber bank1_dataflash_check)
    (cmd_data bank1_dataflash_check 1) (cmd_data bank1_dataflash_check 2) = 0x10000
  /\ addr32 (curFlash64KBPageNumber bank1_dataflash_check)
       (cmd_data bank1_dataflash_check 3) (cmd_data bank1_dataflash_check 4) = 0x10004
  /\ first_dirty (dataflash_cell dataflash_check_host) 4 0x10000 = Some 0x10002
  /\ option_map nonBlankAddr
       (returned (ProcessUpload atmega32u2 dataflash_check_host 0 bank1_dataflash_check))
     = Some 2
  /\ 2 <> 0x10002.
Proof.
  repeat split; try reflexivity. discriminate.
Qed.

Lemma blank_check_accepted cfg w fuel rq s :
  bRequest rq = DFU_DNLOAD -> wLength rq <> 0 ->
  is_blank_check (retrieve_command w rq s) = true ->
  EVENT_USB_Device_UnhandledControlRequest cfg w fuel rq s
  = bind (ProcessUpload cfg w fuel
            (set_waitForSecondRequest false (retrieve_command w rq s)))
         (fun s' => Done (emit Endpoint_ClearStatusStage s')).
Proof.
  intros Hrq Hlen Hb.
  rewrite (DNLOAD_unfold cfg w fuel rq s Hrq Hlen). cbv zeta.
  unfold processed_in_dnload. rewrite Hb, orb_true_r. cbn [orb].
  unfold ProcessFlipCommand.
  change (group (flipCommand (set_waitForSecondRequest false (retrieve_command w rq s))))
    with (group (flipCommand (retrieve_command w rq s))).
  unfold is_blank_check in Hb.
  destruct (group (flipCommand (retrieve_command w rq s)) =? CMD_GROUP_UPLOAD) eqn:E;
    [|discriminate Hb].
  apply Z.eqb_eq in E. rewrite E. reflexivity.
Qed.

(** C4, as the code has it.  A Dnload request with a non-empty payload that
    carries an Upload command with opcode 0x01, 0x03 or 0x11 is processed
    within that request whatever the DFU state is.  For opcode 0x01 (flash)
    and 0x11 (dataflash) the request returns after a scan that reads the
    cells of the decoded window in ascending order, up to and including the
    first cell that is not 0xFF (every cell when all are 0xFF), with no
    endpoint traffic in between.  For opcode 0x03 (EEPROM) nothing is
    scanned: no cell is read and no global changes. *)
Theorem blank_check_commands_in_dnload :
  forall cfg w fuel rq s,
    bRequest rq = DFU_DNLOAD ->
    wLength rq <> 0 ->
    let s1 := retrieve_command w rq s in
    group (flipCommand s1) = CMD_GROUP_UPLOAD ->
    (cmd_data s1 0 = 0x01 ->
     let startAddr := addr16 (cmd_data s1 1) (cmd_data s1 2) in
     let endAddr := addr16 (cmd_data s1 3) (cmd_data s1 4) in
     exists s',
       EVENT_USB_Device_UnhandledControlRequest cfg w fuel rq s = Done s'
       /\ trace s'
          = trace s1
            ++ map pgm_read_byte
                 (cells_scanned (flash_cell w) (Z.to_nat (endAddr - startAddr)) startAddr)
            ++ [Endpoint_ClearStatusStage])
    /\ (cmd_data s1 0 = 0x11 ->
        let startAddr := addr32 (curFlash64KBPageNumber s1) (cmd_data s1 1) (cmd_data s1 2) in
        let endAddr := addr32 (curFlash64KBPageNumber s1) (cmd_data s1 3) (cmd_data s1 4) in
        exists s',
          EVENT_USB_Device_UnhandledControlRequest cfg w fuel rq s = Done s'
          /\ trace s'
             = trace s1
               ++ [Dataflash_SelectChip;
                   Dataflash_Configure_Read_Page_Offset DF_CMD_CONTARRAYREAD_LF
                     (startAddr / DATAFLASH_PAGE_SIZE cfg)
                     (startAddr mod DATAFLASH_PAGE_SIZE cfg)]
               ++ map Dataflash_ReceiveByte
                    (cells_scanned (dataflash_cell w)
                       (Z.to_nat (endAddr - startAddr)) startAddr)
               ++ [Dataflash_DeselectChip; Endpoint_ClearStatusStage])
    /\ (cmd_data s1 0 = 0x03 ->
        EVENT_USB_Device_UnhandledControlRequest cfg w fuel rq s
        = Done (emit Endpoint_ClearStatusStage (set_waitForSecondRequest false s1))).
Proof.
  intros cfg w fuel rq s Hrq Hlen s1 Hg.
  assert (Hacc : forall op, cmd_data s1 0 = op -> op = 0x01 \/ op = 0x03 \/ op = 0x11 ->
                 EVENT_USB_Device_UnhandledControlRequest cfg w fuel rq s
                 = bind (ProcessUpload cfg w fuel (set_waitForSecondRequest false s1))
                        (fun s' => Done (emit Endpoint_ClearStatusStage s'))).
  { intros op Hop Hcase. apply blank_check_accepted; try assumption.
    fold s1. unfold is_blank_check. rewrite Hg, Hop.
    destruct Hcase as [-> | [-> | ->]]; reflexivity. }
  split; [|split].
  - intros Hop startAddr endAddr.
    rewrite (Hacc 0x01 Hop) by auto.
    destruct (flash_check_trace cfg w fuel (set_waitForSecondRequest false s1) Hop)
      as [s' [Hrun [Htr _]]].
    rewrite Hrun. cbn [bind]. eexists. split; [reflexivity|].
    cbn [trace emit]. rewrite Htr. rewrite <- app_assoc. reflexivity.
  - intros Hop startAddr endAddr.
    rewrite (Hacc 0x11 Hop) by auto.
    destruct (dataflash_check_trace cfg w fuel (set_waitForSecondRequest false s1) Hop)
      as [s' [Hrun [Htr _]]].
    rewrite Hrun. cbn [bind]. eexists. split; [reflexivity|].
    cbn [trace emit]. rewrite Htr. repeat rewrite <- app_assoc. reflexivity.
  - intros Hop. rewrite (Hacc 0x03 Hop) by auto.
    rewrite ProcessUpload_eeprom_check by exact Hop. reflexivity.
Qed.

Lemma blank_check_commands_in_dnload_witness :
  (exists s',
      EVENT_USB_Device_UnhandledControlRequest atmega32u2
        (host_world [[3; 0x01; 0; 0; 0; 2]]) 0 (mkRequest DFU_DNLOAD 6)
        (set_DFU_State dfuERROR reset_state) = Done s'
      /\ trace s'
         = [Endpoint_ClearSETUP; Endpoint_IsOUTReceived; Endpoint_Read_Byte 3;
            Endpoint_Read_Byte 1; Endpoint_Read_Byte 0; Endpoint_Read_Byte 0;
            Endpoint_Read_Byte 0; Endpoint_Read_Byte 2; Endpoint_ClearOUT;
            pgm_read_byte 0; pgm_read_byte 1; Endpoint_ClearStatusStage])
  /\ (exists s',
         EVENT_USB_Device_UnhandledControlRequest atmega32u2
           dataflash_check_host 0 (mkRequest DFU_DNLOAD 6)
           (set_DFU_State dfuDNLOAD_IDLE reset_state) = Done s'
         /\ trace s'
            = [Endpoint_ClearSETUP; Endpoint_IsOUTReceived; Endpoint_Read_Byte 3;
               Endpoint_Read_Byte 17; Endpoint_Read_Byte 0; Endpoint_Read_Byte 0;
               Endpoint_Read_Byte 0; Endpoint_Read_Byte 4; Endpoint_ClearOUT;
               Dataflash_SelectChip;
               Dataflash_Configure_Read_Page_Offset DF_CMD_CONTARRAYREAD_LF 0 0;
               Dataflash_ReceiveByte 0; Dataflash_ReceiveByte 1;
               Dataflash_ReceiveByte 2; Dataflash_ReceiveByte 3;
               Dataflash_DeselectChip; Endpoint_ClearStatusStage])
  /\ EVENT_USB_Device_UnhandledControlRequest atmega32u2 eeprom_check_host 0
       (mkRequest DFU_DNLOAD 6) (set_DFU_State dfuUPLOAD_IDLE reset_state)
     = Done (emit Endpoint_ClearStatusStage
               (set_waitForSecondRequest false
                  (retrieve_command eeprom_check_host (mkRequest DFU_DNLOAD 6)
                     (set_DFU_State dfuUPLOAD_IDLE reset_state)))).
Proof.
  assert (Hlen : wLength (mkRequest DFU_DNLOAD 6) <> 0) by discriminate.
  split; [|split].
  - destruct (blank_check_commands_in_dnload atmega32u2
                (host_world [[3; 0x01; 0; 0; 0; 2]]) 0 (mkRequest DFU_DNLOAD 6)
                (set_DFU_State dfuERROR reset_state) eq_refl Hlen eq_refl) as [H _].
    destruct (H eq_refl) as [s' [Hrun Htr]].
    exists s'. split; [exact Hrun | rewrite Htr; reflexivity].
  - destruct (blank_check_commands_in_dnload atmega32u2
                dataflash_check_host 0 (mkRequest DFU_DNLOAD 6)
                (set_DFU_State dfuDNLOAD_IDLE reset_state) eq_refl Hlen eq_refl)
      as [_ [H _]].
    destruct (H eq_refl) as [s' [Hrun Htr]].
    exists s'. split; [exact Hrun | rewrite Htr; reflexivity].
  - destruct (blank_check_commands_in_dnload atmega32u2
                eeprom_check_host 0 (mkRequest DFU_DNLOAD 6)
                (set_DFU_State dfuUPLOAD_IDLE reset_state) eq_refl Hlen eq_refl)
      as [_ [_ H]].
    apply H. reflexivity.
Defined.

(** C4 as stated fails for opcode 0x03: the Dnload request that carries the
    EEPROM blank check of the window 0..4, with EEPROM cell 0 holding 0,
    returns without one EEPROM read in its trace and with state and status
    as they were. *)
Lemma eeprom_blank_check_scans_nothing :
  eeprom_cell eeprom_check_host 0 = 0
  /\ option_map trace
       (returned (EVENT_USB_Device_UnhandledControlRequest atmega32u2 eeprom_check_host 0
                    (mkRequest DFU_DNLOAD 6) reset_state))
     = Some [Endpoint_ClearSETUP; Endpoint_IsOUTReceived; Endpoint_Read_Byte 3;
             Endpoint_Read_Byte 3; Endpoint_Read_Byte 0; Endpoint_Read_Byte 0;
             Endpoint_Read_Byte 0; Endpoint_Read_Byte 4; Endpoint_ClearOUT;
             Endpoint_ClearStatusStage]
  /\ option_map DFU_State
       (returned (EVENT_USB_Device_UnhandledControlRequest atmega32u2 eeprom_check_host 0
                    (mkRequest DFU_DNLOAD 6) reset_state))
     = Some dfuIDLE
  /\ option_map DFU_Status
       (returned (EVENT_USB_Device_UnhandledControlRequest atmega32u2 eeprom_check_host 0
                    (mkRequest DFU_DNLOAD 6) reset_state))
     = Some OK.
Proof. repeat split; reflexivity. Qed.

(** ** Flash download (claims C2 and C5) *)

Lemma page_ops_app l1 l2 : page_ops (l1 ++ l2) = page_ops l1 ++ page_ops l2.
Proof.
  induction l1 as [|e l1 IH]; [reflexivity|].
  simpl. destruct (page_op_of e); rewrite IH; reflexivity.
Qed.

Lemma count_app p l1 l2 : count p (l1 ++ l2) = (count p l1 + count p l2)%nat.
Proof. unfold count. rewrite filter_app, length_app. reflexivity. Qed.

Lemma stream_ops_app P startAddr k1 :
  forall k2 cur,
    stream_ops P startAddr cur (k1 + k2)
    = stream_ops P startAddr cur k1
      ++ stream_ops P startAddr (cur + 2 * Z.of_nat k1) k2.
Proof.
  induction k1 as [|k1 IH]; intros k2 cur.
  - simpl. rewrite Z.add_0_r. reflexivity.
  - cbn [Nat.add stream_ops]. rewrite IH.
    replace (cur + 2 + 2 * Z.of_nat k1) with (cur + 2 * Z.of_nat (S k1)) by lia.
    rewrite <- app_assoc. reflexivity.
Qed.

(** One iteration of the [for] loop at a page boundary past the end
    address: the page is turned and the loop left, with no word read. *)
Lemma flash_iteration_breaks cfg w n startAddr endAddr cur s :
  cur mod SPM_PAGESIZE cfg = 0 ->
  endAddr < cur ->
  download_flash_packet cfg w (S n) startAddr endAddr cur s
  = (cur,
     set_DFU_State dfuMANIFEST_SYNC
       (emits ([boot_page_erase cur; boot_spm_busy_wait]
               ++ (if cur =? startAddr then [] else [boot_page_write (u16 (cur - 2))])
               ++ [boot_spm_busy_wait; boot_rww_enable]) s)).
Proof.
  intros Hb He. cbn [download_flash_packet].
  rewrite Hb. change (0 =? 0) with true.
  assert (Hgt : (cur >? endAddr) = true) by (apply Z.gtb_lt; lia).
  rewrite Hgt. cbn [andb].
  destruct (cur =? startAddr); cbn [negb app];
    repeat rewrite emit_emits; rewrite <- (emits_nil s) at 1;
    repeat rewrite emit_emits; reflexivity.
Qed.

(** Any other iteration reads a word, fills it in and goes on. *)
Lemma flash_iteration_fills cfg w n startAddr endAddr cur s :
  cur mod SPM_PAGESIZE cfg <> 0 \/ cur <= endAddr ->
  exists s1,
    download_flash_packet cfg w (S n) startAddr endAddr cur s
    = download_flash_packet cfg w n startAddr endAddr (u16 (cur + 2)) s1
    /\ DFU_State s1 = DFU_State s
    /\ out_packet s1 = out_packet s
    /\ out_offset s1 = S (S (out_offset s))
    /\ page_ops (trace s1)
       = page_ops (trace s) ++ stream_ops (SPM_PAGESIZE cfg) startAddr cur 1.
Proof.
  intros Hc. cbn [download_flash_packet stream_ops].
  assert (Hnb : (cur mod SPM_PAGESIZE cfg =? 0) && (cur >? endAddr) = false).
  { destruct Hc as [Hc | Hc].
    - apply Z.eqb_neq in Hc. rewrite Hc. reflexivity.
    - apply andb_false_iff. right. rewrite Z.gtb_ltb. apply Z.ltb_ge. lia. }
  rewrite Hnb. unfold read_word_LE.
  eexists. split; [reflexivity|].
  destruct (cur mod SPM_PAGESIZE cfg =? 0);
    [destruct (cur =? startAddr)|];
    cbn [negb DFU_State out_packet out_offset trace emit set_out];
    repeat split; repeat rewrite page_ops_app; cbn [page_ops page_op_of app];
    repeat rewrite <- app_assoc; reflexivity.
Qed.

Lemma stream_ops_S P startAddr cur k :
  stream_ops P startAddr cur (S k)
  = stream_ops P startAddr cur 1 ++ stream_ops P startAddr (cur + 2) k.
Proof.
  change (S k) with (1 + k)%nat. rewrite stream_ops_app.
  replace (cur + 2 * Z.of_nat 1) with (cur + 2) by lia. reflexivity.
Qed.

Lemma u16_small x : 0 <= x < 2 ^ 16 -> u16 x = x.
Proof. intros H. unfold u16. apply Z.mod_small. exact H. Qed.

Lemma end_of_packet_busy s :
  DFU_State s = dfuDNBUSY ->
  end_of_packet s = set_DFU_State dfuDNLOAD_SYNC (clear_OUT s).
Proof.
  intros H. unfold end_of_packet.
  change (DFU_State (clear_OUT s)) with (DFU_State s). rewrite H. reflexivity.
Qed.

Lemma end_of_packet_manifest s :
  DFU_State s = dfuMANIFEST_SYNC -> end_of_packet s = clear_OUT s.
Proof.
  intros H. unfold end_of_packet.
  change (DFU_State (clear_OUT s)) with (DFU_State s). rewrite H. reflexivity.
Qed.

Lemma download_flash_stream_step cfg w fuel startAddr endAddr cur s :
  DFU_State s <> dfuMANIFEST_SYNC ->
  download_flash_stream cfg w (S fuel) startAddr endAddr cur s
  = download_flash_rest cfg w fuel (packet_words cfg) startAddr endAddr cur
      (set_DFU_State dfuDNBUSY (emit Endpoint_IsOUTReceived s)).
Proof.
  intros H. cbn [download_flash_stream]. apply Z.eqb_neq in H. rewrite H.
  reflexivity.
Qed.

Lemma download_flash_stream_done cfg w fuel startAddr endAddr cur s :
  DFU_State s = dfuMANIFEST_SYNC ->
  download_flash_stream cfg w (S fuel) startAddr endAddr cur s = Some (cur, s).
Proof. intros H. cbn [download_flash_stream]. rewrite H. reflexivity. Qed.


Section FlashWindow.

Variable cfg : config.
Variable w : world.
Variables startAddr endAddr T : Z.

(** [T] is the first page boundary past the end address. *)
Hypothesis HP : 0 < (SPM_PAGESIZE cfg).
Hypothesis HT : T mod (SPM_PAGESIZE cfg) = 0.
Hypothesis HendT : endAddr < T.
Hypothesis HTend : T - (SPM_PAGESIZE cfg) <= endAddr.
Hypothesis HT16 : T < 2 ^ 16.

Lemma boundary_before_T c : c mod (SPM_PAGESIZE cfg) = 0 -> c < T -> c <= endAddr.
Proof.
  intros Hc Hlt.
  apply Z.mod_divide in Hc; [|lia]. apply Z.mod_divide in HT; [|lia].
  destruct Hc as [q1 Hq1]. destruct HT as [q2 Hq2].
  assert (q1 < q2) by nia. nia.
Qed.

Lemma flash_packet_before_T n :
  forall cur s,
    0 <= cur -> cur + 2 * Z.of_nat n <= T ->
    exists s',
      download_flash_packet cfg w n startAddr endAddr cur s
      = (cur + 2 * Z.of_nat n, s')
      /\ DFU_State s' = DFU_State s
      /\ page_ops (trace s') = page_ops (trace s) ++ stream_ops (SPM_PAGESIZE cfg) startAddr cur n.
Proof.
  induction n as [|n IH]; intros cur s H0 Hle.
  - exists s. cbn [download_flash_packet stream_ops].
    rewrite Z.add_0_r, app_nil_r. repeat split.
  - destruct (flash_iteration_fills cfg w n startAddr endAddr cur s)
      as [s1 [Hstep [Hst [_ [_ Hops]]]]].
    { destruct (Z.eq_dec (cur mod (SPM_PAGESIZE cfg)) 0) as [Hb | Hb]; [right | left; exact Hb].
      apply boundary_before_T; [exact Hb | lia]. }
    rewrite Hstep. rewrite u16_small by lia.
    destruct (IH (cur + 2) s1) as [s' [Hrun [Hst' Hops']]]; [lia | lia |].
    exists s'. split; [|split].
    + rewrite Hrun. f_equal. lia.
    + congruence.
    + rewrite Hops', Hops, (stream_ops_S (SPM_PAGESIZE cfg) startAddr cur n), <- app_assoc.
      reflexivity.
Qed.

Lemma flash_packet_reaches_T n :
  forall cur s,
    0 <= cur <= T -> (T - cur) mod 2 = 0 -> T - cur < 2 * Z.of_nat n ->
    startAddr < T -> 2 <= T ->
    exists s',
      download_flash_packet cfg w n startAddr endAddr cur s = (T, s')
      /\ DFU_State s' = dfuMANIFEST_SYNC
      /\ out_packet s' = out_packet s
      /\ page_ops (trace s')
         = page_ops (trace s)
           ++ stream_ops (SPM_PAGESIZE cfg) startAddr cur (Z.to_nat ((T - cur) / 2))
           ++ [Erase T; Commit (T - 2)].
Proof.
  induction n as [|n IH]; intros cur s Hc Hpar Hn HsT H2.
  - lia.
  - destruct (Z.eq_dec cur T) as [-> | Hne].
    + rewrite flash_iteration_breaks by assumption.
      eexists. split; [reflexivity|]. split; [reflexivity|]. split; [reflexivity|].
      replace (T - T) with 0 by lia. cbn [Z.div Z.to_nat stream_ops app Z.div_eucl].
      assert (Hns : (T =? startAddr) = false) by (apply Z.eqb_neq; lia).
      rewrite Hns. cbn [trace set_DFU_State emits].
      rewrite page_ops_app. cbn [page_ops page_op_of app].
      rewrite u16_small by lia. reflexivity.
    + assert (Hlt : cur + 2 <= T).
      { assert (T - cur <> 1) by (intros E; rewrite E in Hpar; discriminate Hpar). lia. }
      destruct (flash_iteration_fills cfg w n startAddr endAddr cur s)
        as [s1 [Hstep [Hst [Hpk [_ Hops]]]]].
      { destruct (Z.eq_dec (cur mod (SPM_PAGESIZE cfg)) 0) as [Hb | Hb]; [right | left; exact Hb].
        apply boundary_before_T; [exact Hb | lia]. }
      rewrite Hstep. rewrite u16_small by lia.
      destruct (IH (cur + 2) s1) as [s' [Hrun [Hst' [Hpk' Hops']]]]; try lia.
      { replace (T - (cur + 2)) with (T - cur + (-1) * 2) by lia.
        rewrite Z.mod_add by lia. exact Hpar. }
      exists s'. split; [exact Hrun|]. split; [exact Hst'|]. split; [congruence|].
      rewrite Hops', Hops.
      replace (Z.to_nat ((T - cur) / 2)) with (S (Z.to_nat ((T - (cur + 2)) / 2))).
      * rewrite (stream_ops_S (SPM_PAGESIZE cfg) startAddr cur (Z.to_nat ((T - (cur + 2)) / 2))).
        repeat rewrite <- app_assoc. reflexivity.
      * replace (T - cur) with (T - (cur + 2) + 1 * 2) by lia.
        rewrite Z.div_add by lia.
        assert (0 <= (T - (cur + 2)) / 2) by (apply Z.div_pos; lia). lia.
Qed.

Lemma flash_stream_reaches_T fuel :
  forall cur s,
    DFU_State s <> dfuMANIFEST_SYNC ->
    0 <= cur <= T -> (T - cur) mod 2 = 0 -> startAddr < T -> 2 <= T ->
    T - cur < 2 * Z.of_nat (packet_words cfg) * Z.of_nat fuel ->
    exists s',
      download_flash_stream cfg w (S fuel) startAddr endAddr cur s = Some (T, s')
      /\ DFU_State s' = dfuMANIFEST_SYNC
      /\ page_ops (trace s')
         = page_ops (trace s)
           ++ stream_ops (SPM_PAGESIZE cfg) startAddr cur (Z.to_nat ((T - cur) / 2))
           ++ [Erase T; Commit (T - 2)].
Proof.
  induction fuel as [|fuel IH]; intros cur s Hst Hc Hpar HsT H2 Hf.
  - lia.
  - rewrite download_flash_stream_step by exact Hst.
    unfold download_flash_rest.
    set (s1 := set_DFU_State dfuDNBUSY (emit Endpoint_IsOUTReceived s)).
    assert (Hs1 : page_ops (trace s1) = page_ops (trace s)).
    { unfold s1. cbn [trace set_DFU_State emit]. rewrite page_ops_app.
      cbn [page_ops page_op_of]. apply app_nil_r. }
    destruct (Z_lt_le_dec (T - cur) (2 * Z.of_nat (packet_words cfg))) as [Hin | Hout].
    + destruct (flash_packet_reaches_T (packet_words cfg) cur s1)
        as [s2 [Hrun [Hst2 [_ Hops]]]]; try assumption.
      rewrite Hrun. rewrite end_of_packet_manifest by exact Hst2.
      rewrite download_flash_stream_done by exact Hst2.
      eexists. split; [reflexivity|]. split; [exact Hst2|].
      cbn [trace clear_OUT emit set_out]. rewrite page_ops_app.
      cbn [page_ops page_op_of]. rewrite app_nil_r, Hops, Hs1. reflexivity.
    + destruct (flash_packet_before_T (packet_words cfg) cur s1)
        as [s2 [Hrun [Hst2 Hops]]]; [lia | lia |].
      rewrite Hrun. rewrite end_of_packet_busy by (rewrite Hst2; reflexivity).
      set (cur' := cur + 2 * Z.of_nat (packet_words cfg)) in *.
      destruct (IH cur' (set_DFU_State dfuDNLOAD_SYNC (clear_OUT s2)))
        as [s' [Hrun' [Hst' Hops']]]; try assumption.
      * cbn [DFU_State set_DFU_State]. discriminate.
      * unfold cur'. lia.
      * unfold cur'.
        replace (T - (cur + 2 * Z.of_nat (packet_words cfg)))
          with (T - cur + (- Z.of_nat (packet_words cfg)) * 2) by lia.
        rewrite Z.mod_add by lia. exact Hpar.
      * unfold cur'. lia.
      * exists s'. split; [exact Hrun'|]. split; [exact Hst'|].
        rewrite Hops'. cbn [trace set_DFU_State clear_OUT emit set_out].
        rewrite page_ops_app. cbn [page_ops page_op_of]. rewrite app_nil_r.
        rewrite Hops, Hs1.
        replace (Z.to_nat ((T - cur) / 2))
          with (packet_words cfg + Z.to_nat ((T - cur') / 2))%nat.
        -- rewrite stream_ops_app. fold cur'. repeat rewrite <- app_assoc. reflexivity.
        -- unfold cur'.
           replace (T - cur)
             with (T - (cur + 2 * Z.of_nat (packet_words cfg))
                   + Z.of_nat (packet_words cfg) * 2) by lia.
           rewrite Z.div_add by lia.
           assert (0 <= (T - (cur + 2 * Z.of_nat (packet_words cfg))) / 2)
             by (apply Z.div_pos; lia).
           lia.
Qed.

End FlashWindow.

(** *** From words to pages *)

Lemma stream_ops_inside P startAddr k :
  forall c,
    (forall j, 0 <= j < Z.of_nat k -> (c + 2 * j) mod P <> 0) ->
    stream_ops P startAddr c k = fills c k.
Proof.
  induction k as [|k IH]; intros c Hin; [reflexivity|].
  cbn [stream_ops fills].
  assert (Hc : (c mod P =? 0) = false).
  { apply Z.eqb_neq. specialize (Hin 0). rewrite Z.mul_0_r, Z.add_0_r in Hin.
    apply Hin. lia. }
  rewrite Hc. cbn [app]. f_equal. apply IH.
  intros j Hj. replace (c + 2 + 2 * j) with (c + 2 * (j + 1)) by lia.
  apply Hin. lia.
Qed.

Lemma half_page P : 0 < P -> P mod 2 = 0 -> 2 * (P / 2) = P /\ 1 <= P / 2.
Proof.
  intros HP He. pose proof (Z.div_mod P 2 ltac:(lia)) as H. rewrite He in H.
  split; lia.
Qed.

Lemma stream_ops_page P startAddr a :
  0 < P -> P mod 2 = 0 -> a mod P = 0 ->
  a = startAddr \/ 2 <= a < 2 ^ 16 ->
  stream_ops P startAddr a (Z.to_nat (P / 2))
  = Erase a :: (if a =? startAddr then [] else [Commit (a - 2)])
    ++ fills a (Z.to_nat (P / 2)).
Proof.
  intros HP He Ha Hr. destruct (half_page P HP He) as [H2 H1].
  destruct (Z.to_nat (P / 2)) as [|m] eqn:Em; [lia|].
  rewrite stream_ops_S. cbn [stream_ops fills].
  rewrite Ha. change (0 =? 0) with true.
  rewrite (stream_ops_inside P startAddr m (a + 2)).
  - destruct (a =? startAddr) eqn:E.
    + reflexivity.
    + apply Z.eqb_neq in E. rewrite u16_small by lia. reflexivity.
  - intros j Hj.
    replace (a + 2 + 2 * j) with (2 + 2 * j + a) by lia.
    apply Z.mod_divide in Ha; [|lia]. destruct Ha as [q Hq]. rewrite Hq.
    rewrite Z.mod_add by lia. rewrite Z.mod_small by lia. lia.
Qed.

Lemma stream_ops_window P startAddr N :
  0 < P -> P mod 2 = 0 ->
  forall a,
    a mod P = 0 -> 0 <= startAddr <= a -> a + Z.of_nat N * P < 2 ^ 16 ->
    stream_ops P startAddr a (N * Z.to_nat (P / 2))
    ++ [Erase (a + Z.of_nat N * P); Commit (a + Z.of_nat N * P - 2)]
    = window_ops P (a =? startAddr) a N.
Proof.
  intros HP He. destruct (half_page P HP He) as [H2 H1].
  induction N as [|N IH]; intros a Ha Hs Hb.
  - cbn [Nat.mul stream_ops window_ops app Z.of_nat].
    rewrite Z.mul_0_l, Z.add_0_r. reflexivity.
  - cbn [Nat.mul window_ops]. rewrite stream_ops_app.
    rewrite stream_ops_page; try assumption.
    + replace (a + 2 * Z.of_nat (Z.to_nat (P / 2))) with (a + P) by lia.
      replace (a + Z.of_nat (S N) * P) with (a + P + Z.of_nat N * P) by lia.
      cbn [app]. f_equal. repeat rewrite <- app_assoc. f_equal. f_equal.
      rewrite IH.
      * assert (Hne : (a + P =? startAddr) = false) by (apply Z.eqb_neq; lia).
        rewrite Hne. reflexivity.
      * replace (a + P) with (a + 1 * P) by lia. rewrite Z.mod_add by lia. exact Ha.
      * lia.
      * lia.
    + destruct (Z.eq_dec a startAddr) as [E | E]; [left; exact E | right].
      apply Z.mod_divide in Ha; [|lia]. destruct Ha as [q Hq].
      assert (1 <= q) by nia. nia.
Qed.

(** *** Counting the operations of a window *)

Lemma count_fills p a n : (forall x, p (Fill x) = false) -> count p (fills a n) = 0%nat.
Proof.
  intros Hp. revert a. induction n as [|n IH]; intros a; [reflexivity|].
  unfold count in *. cbn [fills filter]. rewrite Hp. apply IH.
Qed.

Lemma count_cons p o l :
  count p (o :: l) = ((if p o then 1 else 0) + count p l)%nat.
Proof. unfold count. cbn [filter]. destruct (p o); reflexivity. Qed.

Lemma window_ops_erases P first a N : count is_erase (window_ops P first a N) = S N.
Proof.
  revert first a. induction N as [|N IH]; intros first a; [reflexivity|].
  cbn [window_ops]. rewrite count_cons. cbn [is_erase].
  repeat rewrite count_app. rewrite count_fills by reflexivity. rewrite IH.
  destruct first; reflexivity.
Qed.

Lemma window_ops_commits_rest P a N : count is_commit (window_ops P false a N) = S N.
Proof.
  revert a. induction N as [|N IH]; intros a; [reflexivity|].
  cbn [window_ops]. rewrite count_cons. cbn [is_commit].
  repeat rewrite count_app. rewrite count_fills by reflexivity. rewrite IH.
  reflexivity.
Qed.

Lemma window_ops_commits P a N : count is_commit (window_ops P true a (S N)) = S N.
Proof.
  cbn [window_ops]. rewrite count_cons. cbn [is_commit].
  repeat rewrite count_app. rewrite count_fills by reflexivity.
  rewrite window_ops_commits_rest. reflexivity.
Qed.

Lemma window_ops_no_erase_below P first N :
  0 < P ->
  forall a x, x < a -> count (is_erase_of x) (window_ops P first a N) = 0%nat.
Proof.
  intros HP. revert first. induction N as [|N IH]; intros first a x Hx.
  - cbn [window_ops]. repeat rewrite count_cons. cbn [is_erase_of].
    assert (E : (a =? x) = false) by (apply Z.eqb_neq; lia). rewrite E. reflexivity.
  - cbn [window_ops]. rewrite count_cons. cbn [is_erase_of].
    assert (E : (a =? x) = false) by (apply Z.eqb_neq; lia). rewrite E.
    repeat rewrite count_app. rewrite count_fills by reflexivity.
    rewrite IH by lia. destruct first; reflexivity.
Qed.

Lemma window_ops_erase_once P N :
  0 < P ->
  forall first a k,
    (k <= N)%nat ->
    count (is_erase_of (a + Z.of_nat k * P)) (window_ops P first a N) = 1%nat.
Proof.
  intros HP. induction N as [|N IH]; intros first a k Hk.
  - assert (k = 0%nat) by lia. subst k.
    cbn [window_ops Z.of_nat]. rewrite Z.mul_0_l, Z.add_0_r.
    repeat rewrite count_cons. cbn [is_erase_of]. rewrite Z.eqb_refl. reflexivity.
  - cbn [window_ops]. rewrite count_cons. cbn [is_erase_of].
    repeat rewrite count_app. rewrite count_fills by reflexivity.
    destruct k as [|k].
    + cbn [Z.of_nat]. rewrite Z.mul_0_l, Z.add_0_r. rewrite Z.eqb_refl.
      rewrite window_ops_no_erase_below by lia. destruct first; reflexivity.
    + assert (E : (a =? a + Z.of_nat (S k) * P) = false) by (apply Z.eqb_neq; nia).
      rewrite E.
      replace (a + Z.of_nat (S k) * P) with (a + P + Z.of_nat k * P) by lia.
      rewrite IH by lia. destruct first; reflexivity.
Qed.

Lemma addr16_range hi lo : 0 <= addr16 hi lo < 2 ^ 16.
Proof. unfold addr16, u16. apply Z.mod_pos_bound. reflexivity. Qed.

Lemma ProcessDownload_flash cfg w fuel s :
  cmd_data s 0 = 0x00 -> DFU_State s = dfuIDLE ->
  ProcessDownload cfg w fuel s
  = finish (download_flash_stream cfg w fuel
              (addr16 (cmd_data s 1) (cmd_data s 2))
              (addr16 (cmd_data s 3) (cmd_data s 4))
              (addr16 (cmd_data s 1) (cmd_data s 2)) s).
Proof. intros Hop Hst. unfold ProcessDownload. rewrite Hop, Hst. reflexivity. Qed.

(** The whole flash download of a window with a page-aligned start: it
    returns in ManifestSync, and its page operations are those of the
    window, page by page. *)
Lemma flash_download_runs cfg w s :
  let P := SPM_PAGESIZE cfg in
  let startAddr := addr16 (cmd_data s 1) (cmd_data s 2) in
  let endAddr := addr16 (cmd_data s 3) (cmd_data s 4) in
  let N := Z.to_nat (endAddr / P - startAddr / P + 1) in
  cmd_data s 0 = 0x00 ->
  DFU_State s = dfuIDLE ->
  0 < P -> P mod 2 = 0 ->
  0 < FIXED_CONTROL_ENDPOINT_SIZE cfg ->
  startAddr mod P = 0 ->
  startAddr <= endAddr ->
  startAddr + Z.of_nat N * P < 2 ^ 16 ->
  (1 <= N)%nat
  /\ exists fuel0,
      forall fuel, (fuel0 <= fuel)%nat ->
        exists s',
          ProcessDownload cfg w fuel s = Done s'
          /\ DFU_State s' = dfuMANIFEST_SYNC
          /\ page_ops (trace s') = page_ops (trace s) ++ window_ops P true startAddr N.
Proof.
  intros P startAddr endAddr N Hop Hst HP He HE Hal Hse Hb.
  pose proof (addr16_range (cmd_data s 1) (cmd_data s 2)) as Hs0. fold startAddr in Hs0.
  destruct (half_page P HP He) as [H2 H1].
  assert (Hdiv : startAddr / P <= endAddr / P) by (apply Z.div_le_mono; lia).
  assert (HN : Z.of_nat N = endAddr / P - startAddr / P + 1) by (unfold N; lia).
  assert (Hsq : startAddr = P * (startAddr / P)).
  { pose proof (Z.div_mod startAddr P ltac:(lia)). lia. }
  pose proof (Z.div_mod endAddr P ltac:(lia)) as Heq.
  pose proof (Z.mod_pos_bound endAddr P HP) as Hem.
  set (T := startAddr + Z.of_nat N * P) in *.
  assert (HT : T = (endAddr / P + 1) * P) by (unfold T; nia).
  assert (HTm : T mod P = 0) by (rewrite HT; apply Z.mod_mul; lia).
  assert (HeT : endAddr < T) by nia.
  assert (HTe : T - P <= endAddr) by nia.
  assert (Hpw : (1 <= packet_words cfg)%nat).
  { unfold packet_words.
    assert (1 <= (FIXED_CONTROL_ENDPOINT_SIZE cfg + 1) / 2)
      by (apply Z.div_le_lower_bound; lia).
    lia. }
  split; [lia|].
  exists (S (S (Z.to_nat (T - startAddr)))). intros fuel Hfuel.
  destruct fuel as [|f]; [lia|].
  destruct (flash_stream_reaches_T cfg w startAddr endAddr T HP HTm HeT HTe Hb f startAddr s)
    as [s' [Hrun [Hst' Hops]]].
  - rewrite Hst. discriminate.
  - lia.
  - unfold T. replace (startAddr + Z.of_nat N * P - startAddr)
      with (0 + (Z.of_nat N * (P / 2)) * 2) by lia.
    rewrite Z.mod_add by lia. reflexivity.
  - lia.
  - lia.
  - assert (T - startAddr < Z.of_nat f) by lia.
    fold P. nia.
  - exists s'. split; [|split; [exact Hst'|]].
    + rewrite ProcessDownload_flash by assumption.
      fold startAddr endAddr. rewrite Hrun. reflexivity.
    + rewrite Hops.
      pose proof (stream_ops_window P startAddr N HP He startAddr Hal
                    ltac:(lia) Hb) as Hw.
      rewrite Z.eqb_refl in Hw. rewrite <- Hw. fold T. fold P.
      replace (Z.to_nat ((T - startAddr) / 2)) with (N * Z.to_nat (P / 2))%nat;
        [reflexivity|].
      unfold T. replace (startAddr + Z.of_nat N * P - startAddr)
        with (Z.of_nat N * (P / 2) * 2) by lia.
      rewrite Z.div_mul by lia. rewrite Z2Nat.inj_mul by lia.
      rewrite Nat2Z.id. reflexivity.
Qed.

(** C2, as the code has it.  For a flash Download from Idle whose start
    address is page-aligned and not above the end address, with the window
    spanning [N] pages and the page boundary that closes it below 2^16, the
    loop returns (given fuel for its packets) in ManifestSync and its page
    operations are, in this order: for each page of the window the erase of
    the page, then (except at the first page) the commit of the page
    before, then the fills of the page; and at the first boundary past the
    end address one more erase followed at once by the commit of the last
    page.  So exactly [N] commits occur, each page of the window is erased
    exactly once, before it is filled, and the first page is filled before
    it is committed.  The erase at the closing boundary is of the page that
    begins there, which makes [N + 1] erases in all. *)
Theorem flash_download_page_operations :
  forall cfg w s,
    let P := SPM_PAGESIZE cfg in
    let startAddr := addr16 (cmd_data s 1) (cmd_data s 2) in
    let endAddr := addr16 (cmd_data s 3) (cmd_data s 4) in
    let N := Z.to_nat (endAddr / P - startAddr / P + 1) in
    cmd_data s 0 = 0x00 ->
    DFU_State s = dfuIDLE ->
    0 < P -> P mod 2 = 0 ->
    0 < FIXED_CONTROL_ENDPOINT_SIZE cfg ->
    startAddr mod P = 0 ->
    startAddr <= endAddr ->
    startAddr + Z.of_nat N * P < 2 ^ 16 ->
    exists fuel0,
      forall fuel, (fuel0 <= fuel)%nat ->
        exists s',
          ProcessDownload cfg w fuel s = Done s'
          /\ DFU_State s' = dfuMANIFEST_SYNC
          /\ page_ops (trace s') = page_ops (trace s) ++ window_ops P true startAddr N
          /\ count is_commit (window_ops P true startAddr N) = N
          /\ (forall k, (k < N)%nat ->
                count (is_erase_of (startAddr + Z.of_nat k * P))
                  (window_ops P true startAddr N) = 1%nat)
          /\ count is_erase (window_ops P true startAddr N) = S N.
Proof.
  intros cfg w s P startAddr endAddr N Hop Hst HP He HE Hal Hse Hb.
  destruct (flash_download_runs cfg w s Hop Hst HP He HE Hal Hse Hb) as [HN [fuel0 Hrun]].
  fold P startAddr endAddr N in HN, Hrun.
  exists fuel0. intros fuel Hfuel.
  destruct (Hrun fuel Hfuel) as [s' [Hd [Hm Hops]]].
  exists s'. repeat split; try assumption.
  - destruct N as [|N']; [lia|]. apply window_ops_commits.
  - intros k Hk. apply window_ops_erase_once; [exact HP | lia].
  - apply window_ops_erases.
Qed.

Lemma flash_download_page_operations_witness :
  exists fuel0,
    forall fuel, (fuel0 <= fuel)%nat ->
      exists s',
        ProcessDownload atmega32u2 blank_world fuel flash_download_0_1 = Done s'
        /\ DFU_State s' = dfuMANIFEST_SYNC
        /\ page_ops (trace s') = [] ++ window_ops 128 true 0 1
        /\ count is_commit (window_ops 128 true 0 1) = 1%nat
        /\ (forall k, (k < 1)%nat ->
              count (is_erase_of (0 + Z.of_nat k * 128)) (window_ops 128 true 0 1) = 1%nat)
        /\ count is_erase (window_ops 128 true 0 1) = 2%nat.
Proof.
  refine (flash_download_page_operations atmega32u2 blank_world flash_download_0_1
            _ _ _ _ _ _ _ _); try reflexivity; vm_compute; discriminate.
Defined.

(** C2 as stated fails on the number of erases and on which pages are
    erased.  The download of the window 0..1, one page, erases page 0 and
    also page 128, the page after the window: two erases for one page and
    one commit.  The download of the window 2..3, which does not start on a
    page boundary, commits page 0 without ever erasing it. *)
Lemma flash_download_erases_past_window :
  1 / SPM_PAGESIZE atmega32u2 - 0 / SPM_PAGESIZE atmega32u2 + 1 = 1
  /\ option_map (fun s => filter is_erase (page_ops (trace s)))
       (returned (ProcessDownload atmega32u2 blank_world 20 flash_download_0_1))
     = Some [Erase 0; Erase 128]
  /\ option_map (fun s => filter is_commit (page_ops (trace s)))
       (returned (ProcessDownload atmega32u2 blank_world 20 flash_download_0_1))
     = Some [Commit 126]
  /\ option_map (fun s => filter is_erase (page_ops (trace s)))
       (returned (ProcessDownload atmega32u2 blank_world 20 flash_download_2_3))
     = Some [Erase 128]
  /\ option_map (fun s => filter is_commit (page_ops (trace s)))
       (returned (ProcessDownload atmega32u2 blank_world 20 flash_download_2_3))
     = Some [Commit 126].
Proof. repeat split; vm_compute; reflexivity. Qed.

(** C5, as the code has it.  In the flash download loop the end address is
    tested at page boundaries only.  From an iteration of the [for] loop
    whose cursor is on a page boundary and past the end address, the rest
    of the loop turns the page (erase of the page at the cursor, commit of
    the page before unless the cursor is the start address), sets
    ManifestSync, acknowledges the packet and returns, with no word read
    and no fill.  Every other iteration, also one whose cursor is past the
    end address but inside a page, reads a word, fills it in at the cursor
    and goes on with the state as it was.  The [while] loop enters the
    [for] loop with DownloadBusy set, and for a page-aligned window it does
    reach such a boundary and return. *)
Theorem flash_download_ends_at_page_boundary :
  forall cfg w fuel n startAddr endAddr cur s,
    (cur mod SPM_PAGESIZE cfg = 0 ->
     endAddr < cur ->
     exists s',
       download_flash_rest cfg w (S fuel) (S n) startAddr endAddr cur s = Some (cur, s')
       /\ DFU_State s' = dfuMANIFEST_SYNC
       /\ out_packet s' = S (out_packet s)
       /\ trace s'
          = trace s
            ++ [boot_page_erase cur; boot_spm_busy_wait]
            ++ (if cur =? startAddr then [] else [boot_page_write (u16 (cur - 2))])
            ++ [boot_spm_busy_wait; boot_rww_enable; Endpoint_ClearOUT])
    /\ (cur mod SPM_PAGESIZE cfg <> 0 \/ cur <= endAddr ->
        exists s1,
          download_flash_packet cfg w (S n) startAddr endAddr cur s
          = download_flash_packet cfg w n startAddr endAddr (u16 (cur + 2)) s1
          /\ DFU_State s1 = DFU_State s
          /\ out_offset s1 = S (S (out_offset s))
          /\ page_ops (trace s1)
             = page_ops (trace s) ++ stream_ops (SPM_PAGESIZE cfg) startAddr cur 1)
    /\ (DFU_State s <> dfuMANIFEST_SYNC ->
        download_flash_stream cfg w (S fuel) startAddr endAddr cur s
        = download_flash_rest cfg w fuel (packet_words cfg) startAddr endAddr cur
            (set_DFU_State dfuDNBUSY (emit Endpoint_IsOUTReceived s))).
Proof.
  intros cfg w fuel n startAddr endAddr cur s. split; [|split].
  - intros Hb He. unfold download_flash_rest.
    rewrite flash_iteration_breaks by assumption.
    rewrite end_of_packet_manifest by reflexivity.
    rewrite download_flash_stream_done by reflexivity.
    eexists. split; [reflexivity|]. split; [reflexivity|]. split; [reflexivity|].
    cbn [trace clear_OUT emit set_out set_DFU_State emits].
    repeat rewrite <- app_assoc. reflexivity.
  - intros Hc.
    destruct (flash_iteration_fills cfg w n startAddr endAddr cur s Hc)
      as [s1 [H1 [H2 [_ [H3 H4]]]]].
    exists s1. repeat split; assumption.
  - apply download_flash_stream_step.
Qed.

Lemma flash_download_ends_at_page_boundary_witness :
  (exists s',
      download_flash_rest atmega32u2 blank_world 1 1 0 1 128
        (set_DFU_State dfuDNBUSY reset_state) = Some (128, s')
      /\ DFU_State s' = dfuMANIFEST_SYNC
      /\ out_packet s' = 1%nat
      /\ trace s'
         = [boot_page_erase 128; boot_spm_busy_wait; boot_page_write 126;
            boot_spm_busy_wait; boot_rww_enable; Endpoint_ClearOUT])
  /\ (exists s1,
         download_flash_packet atmega32u2 blank_world 1 0 1 2
           (set_DFU_State dfuDNBUSY reset_state)
         = download_flash_packet atmega32u2 blank_world 0 0 1 (u16 (2 + 2)) s1
         /\ DFU_State s1 = dfuDNBUSY
         /\ out_offset s1 = 2%nat
         /\ page_ops (trace s1) = [Fill 2])
  /\ download_flash_stream atmega32u2 blank_world 1 0 1 0 reset_state
     = download_flash_rest atmega32u2 blank_world 0 (packet_words atmega32u2) 0 1 0
         (set_DFU_State dfuDNBUSY (emit Endpoint_IsOUTReceived reset_state)).
Proof.
  split; [|split].
  - destruct (flash_download_ends_at_page_boundary atmega32u2 blank_world 0 0 0 1 128
                (set_DFU_State dfuDNBUSY reset_state)) as [H _].
    apply H; reflexivity.
  - destruct (flash_download_ends_at_page_boundary atmega32u2 blank_world 0 0 0 1 2
                (set_DFU_State dfuDNBUSY reset_state)) as [_ [H _]].
    apply H. left. vm_compute. discriminate.
  - destruct (flash_download_ends_at_page_boundary atmega32u2 blank_world 0 0 0 1 0
                reset_state) as [_ [_ H]].
    apply H. vm_compute. discriminate.
Defined.

(** C5 as stated fails inside a page.  In the download of the window 0..1
    the iteration at cursor 2, past the end address 1, reads a word and
    fills it in at 2, and the state stays DownloadBusy; the whole download
    fills 64 words, up to the end of the page, although the window holds
    one. *)
Lemma flash_download_fills_past_end :
  download_flash_packet atmega32u2 blank_world 1 0 1 2
    (set_DFU_State dfuDNBUSY reset_state)
  = (4, mkState false (mkFlip 0 [0; 0; 0; 0; 0]) dfuDNBUSY OK 0 0 0 0%nat 2%nat 0
          [Endpoint_Read_Word_LE 256; boot_page_fill 2 256])
  /\ option_map (fun s => count is_fill (page_ops (trace s)))
       (returned (ProcessDownload atmega32u2 blank_world 20 flash_download_0_1))
     = Some 64%nat
  /\ option_map (fun s => last (filter is_fill (page_ops (trace s))) (Fill 0))
       (returned (ProcessDownload atmega32u2 blank_world 20 flash_download_0_1))
     = Some (Fill 126).
Proof. repeat split; vm_compute; reflexivity. Qed.

(** ** The end address in downloads, displays and blank checks (claim C9) *)

Lemma cells_written_app l1 l2 :
  cells_written (l1 ++ l2) = cells_written l1 + cells_written l2.
Proof. induction l1 as [|e l1 IH]; simpl; [reflexivity | rewrite IH; lia]. Qed.


Lemma flash_iteration_written cfg w n startAddr endAddr cur s :
  cur mod SPM_PAGESIZE cfg <> 0 \/ cur <= endAddr ->
  exists s1,
    download_flash_packet cfg w (S n) startAddr endAddr cur s
    = download_flash_packet cfg w n startAddr endAddr (u16 (cur + 2)) s1
    /\ DFU_State s1 = DFU_State s
    /\ cells_written (trace s1) = cells_written (trace s) + 2.
Proof.
  intros Hc. cbn [download_flash_packet].
  assert (Hnb : (cur mod SPM_PAGESIZE cfg =? 0) && (cur >? endAddr) = false).
  { destruct Hc as [Hc | Hc].
    - apply Z.eqb_neq in Hc. rewrite Hc. reflexivity.
    - apply andb_false_iff. right. rewrite Z.gtb_ltb. apply Z.ltb_ge. lia. }
  rewrite Hnb. unfold read_word_LE.
  eexists. split; [reflexivity|].
  destruct (cur mod SPM_PAGESIZE cfg =? 0);
    [destruct (cur =? startAddr)|];
    cbn [negb DFU_State trace emit set_out];
    (split; [reflexivity|]);
    repeat rewrite cells_written_app; cbn [cells_written written_by]; lia.
Qed.

Section DownloadWindow.

Variable cfg : config.
Variable w : world.
Variables startAddr endAddr W0 : Z.

Hypothesis Hstart : 0 <= startAddr.





End DownloadWindow.

Lemma download_flash_stream_of cfg w startAddr endAddr fuel :
  forall cur s,
    download_flash_stream cfg w fuel startAddr endAddr cur s
    = download_stream_of (download_flash_packet cfg w (packet_words cfg) startAddr endAddr)
        fuel cur s.
Proof.
  induction fuel as [|fuel IH]; intros cur s; [reflexivity|].
  cbn [download_flash_stream download_stream_of].
  destruct (negb (DFU_State s =? dfuMANIFEST_SYNC)); [|reflexivity].
  destruct (download_flash_packet cfg w (packet_words cfg) startAddr endAddr cur
              (set_DFU_State dfuDNBUSY (emit Endpoint_IsOUTReceived s))).
  apply IH.
Qed.

Lemma download_eeprom_stream_of cfg w endAddr fuel :
  forall cur s,
    download_eeprom_stream cfg w fuel endAddr cur s
    = download_stream_of (download_eeprom_packet w (packet_bytes cfg) endAddr) fuel cur s.
Proof.
  induction fuel as [|fuel IH]; intros cur s; [reflexivity|].
  cbn [download_eeprom_stream download_stream_of].
  destruct (negb (DFU_State s =? dfuMANIFEST_SYNC)); [|reflexivity].
  destruct (download_eeprom_packet w (packet_bytes cfg) endAddr cur
              (set_DFU_State dfuDNBUSY (emit Endpoint_IsOUTReceived s))).
  apply IH.
Qed.

Lemma download_dataflash_stream_of cfg w startAddr endAddr fuel :
  forall cur s,
    download_dataflash_stream cfg w fuel startAddr endAddr cur s
    = download_stream_of
        (download_dataflash_packet cfg w (packet_bytes cfg) startAddr endAddr) fuel cur s.
Proof.
  induction fuel as [|fuel IH]; intros cur s; [reflexivity|].
  cbn [download_dataflash_stream download_stream_of].
  destruct (negb (DFU_State s =? dfuMANIFEST_SYNC)); [|reflexivity].
  destruct (download_dataflash_packet cfg w (packet_bytes cfg) startAddr endAddr cur
              (set_DFU_State dfuDNBUSY (emit Endpoint_IsOUTReceived s))).
  apply IH.
Qed.








(** *** Download streams return

    A [for] loop [pk] that leaves with ManifestSync at the cursors where
    [brk] holds and otherwise moves on by [step], run from a cursor from
    which [T] is the first such cursor. *)
Section DownloadReturns.

Variable pk : nat -> Z -> state -> Z * state.
Variables step bound lo T : Z.
Variable brk : Z -> bool.

Hypothesis pk_O : forall cur s, pk 0 cur s = (cur, s).
Hypothesis pk_break :
  forall n cur s,
    brk cur = true ->
    exists s', pk (S n) cur s = (cur, s') /\ DFU_State s' = dfuMANIFEST_SYNC.
Hypothesis pk_go :
  forall n cur s,
    brk cur = false ->
    exists s1,
      pk (S n) cur s = pk n ((cur + step) mod bound) s1
      /\ DFU_State s1 = DFU_State s.
Hypothesis Hstep : 0 < step.
Hypothesis Hlo : 0 <= lo.
Hypothesis HTb : T < bound.
Hypothesis HT : brk T = true.
Hypothesis Hbefore : forall c, lo <= c < T -> brk c = false.




End DownloadReturns.



Lemma finish_done r s' : finish r = Done s' -> exists c', r = Some (c', s').
Proof.
  destruct r as [[c s]|]; cbn [finish]; intros H; [|discriminate H].
  injection H as ->. exists c. reflexivity.
Qed.





(** * Further properties of the bootloader *)

(** ** The address fields of the payload *)

Lemma lor_shiftl_low a b k :
  0 <= k -> 0 <= b < 2 ^ k -> Z.lor (Z.shiftl a k) b = a * 2 ^ k + b.
Proof.
  intros Hk Hb. rewrite Z.shiftl_mul_pow2 by exact Hk.
  assert (Hland : Z.land (a * 2 ^ k) b = 0).
  { apply Z.bits_inj'. intros n Hn. rewrite Z.land_spec, Z.bits_0.
    destruct (Z_lt_le_dec n k) as [Hlt | Hge].
    - rewrite Z.mul_pow2_bits_low by lia. reflexivity.
    - rewrite <- (Z.mod_small b (2 ^ k)) by exact Hb.
      rewrite Z.mod_pow2_bits_high by lia. apply andb_false_r. }
  rewrite <- Z.lxor_lor by exact Hland.
  symmetry. apply Z.add_nocarry_lxor. exact Hland.
Qed.

Lemma addr16_bytes hi lo :
  0 <= hi < 256 -> 0 <= lo < 256 -> addr16 hi lo = hi * 256 + lo.
Proof.
  intros Hh Hl. unfold addr16.
  rewrite (lor_shiftl_low hi lo 8) by lia.
  change (2 ^ 8) with 256. apply u16_small. lia.
Qed.

Lemma addr32_bytes bank hi lo :
  0 <= bank < 256 -> 0 <= hi < 256 -> 0 <= lo < 256 ->
  addr32 bank hi lo = bank * 65536 + hi * 256 + lo.
Proof.
  intros Hb Hh Hl. unfold addr32.
  assert (H1 : Z.lor (Z.shiftl bank 16) (Z.shiftl hi 8) = bank * 65536 + hi * 256).
  { rewrite (Z.shiftl_mul_pow2 hi 8) by lia. change (2 ^ 8) with 256.
    rewrite (lor_shiftl_low bank (hi * 256) 16) by (change (2 ^ 16) with 65536; lia).
    reflexivity. }
  rewrite H1.
  replace (bank * 65536 + hi * 256) with (Z.shiftl (bank * 256 + hi) 8)
    by (rewrite Z.shiftl_mul_pow2 by lia; change (2 ^ 8) with 256; lia).
  rewrite (lor_shiftl_low (bank * 256 + hi) lo 8) by lia.
  change (2 ^ 8) with 256. unfold u32. change (2 ^ 32) with 4294967296.
  rewrite Z.mod_small by lia.
  rewrite Z.shiftl_mul_pow2 by lia. change (2 ^ 8) with 256. lia.
Qed.

(** X1.  The two big-endian bytes of an address field decode to
    [hi * 256 + lo], every 16-bit address is the decoding of its own two
    bytes, and with the 64KB page number on top the dataflash address is
    [bank * 65536 + hi * 256 + lo]: the page register selects the 64KB bank
    and the payload the offset inside it. *)
Theorem address_fields_decode :
  forall bank hi lo a,
    0 <= bank < 256 -> 0 <= hi < 256 -> 0 <= lo < 256 -> 0 <= a < 65536 ->
    addr16 hi lo = hi * 256 + lo
    /\ addr16 (a / 256) (a mod 256) = a
    /\ addr32 bank hi lo = bank * 65536 + addr16 hi lo
    /\ addr32 bank hi lo / 65536 = bank
    /\ addr32 bank hi lo mod 65536 = addr16 hi lo.
Proof.
  intros bank hi lo a Hb Hh Hl Ha.
  rewrite (addr16_bytes hi lo Hh Hl), (addr32_bytes bank hi lo Hb Hh Hl).
  split; [reflexivity|]. split; [|split; [lia|split]].
  - rewrite addr16_bytes.
    + pose proof (Z.div_mod a 256 ltac:(lia)). lia.
    + split; [apply Z.div_pos; lia | apply Z.div_lt_upper_bound; lia].
    + apply Z.mod_pos_bound. lia.
  - replace (bank * 65536 + hi * 256 + lo) with (hi * 256 + lo + bank * 65536) by lia.
    rewrite Z.div_add by lia. rewrite Z.div_small by lia. lia.
  - replace (bank * 65536 + hi * 256 + lo) with (hi * 256 + lo + bank * 65536) by lia.
    rewrite Z.mod_add by lia. apply Z.mod_small. lia.
Qed.

Lemma address_fields_decode_witness :
  addr16 0x12 0x34 = 0x12 * 256 + 0x34
  /\ addr16 (0xABCD / 256) (0xABCD mod 256) = 0xABCD
  /\ addr32 1 0x12 0x34 = 1 * 65536 + addr16 0x12 0x34
  /\ addr32 1 0x12 0x34 / 65536 = 1
  /\ addr32 1 0x12 0x34 mod 65536 = addr16 0x12 0x34.
Proof.
  apply (address_fields_decode 1 0x12 0x34 0xABCD); lia.
Defined.

(** ** Retrieval of the FLIP command *)

Lemma length_list_set l : forall i v, length (list_set i v l) = length l.
Proof.
  induction l as [|h t IH]; intros i v; [destruct i; reflexivity|].
  destruct i; cbn [list_set length]; [reflexivity | rewrite IH; reflexivity].
Qed.

Lemma nth_list_set_same l : forall i v, (i < length l)%nat -> nth i (list_set i v l) 0 = v.
Proof.
  induction l as [|h t IH]; intros i v Hi; [cbn [length] in Hi; lia|].
  destruct i; cbn [list_set nth]; [reflexivity|].
  apply IH. cbn [length] in Hi. lia.
Qed.

Lemma nth_list_set_other l : forall i j v, i <> j -> nth j (list_set i v l) 0 = nth j l 0.
Proof.
  induction l as [|h t IH]; intros i j v Hne; [destruct i; reflexivity|].
  destruct i, j; cbn [list_set nth]; try reflexivity; try lia.
  apply IH. lia.
Qed.

Lemma read_flip_data_bytes w len n :
  forall i s,
    length (data (flipCommand s)) = 5%nat ->
    (i + n <= 5)%nat ->
    let r := read_flip_data w n i len s in
    length (data (flipCommand r)) = 5%nat
    /\ group (flipCommand r) = group (flipCommand s)
    /\ out_packet r = out_packet s
    /\ DFU_State r = DFU_State s /\ DFU_Status r = DFU_Status s
    /\ nonBlankAddr r = nonBlankAddr s
    /\ curFlash64KBPageNumber r = curFlash64KBPageNumber s
    /\ AppStartPtr r = AppStartPtr s
    /\ (forall j, (i <= j < i + n)%nat -> Z.of_nat j < len - 1 ->
          cmd_data r j = u8 (host_out w (out_packet s) (out_offset s + (j - i))))
    /\ (forall j, ~ ((i <= j < i + n)%nat /\ Z.of_nat j < len - 1) ->
          cmd_data r j = cmd_data s j).
Proof.
  induction n as [|n IH]; intros i s Hlen Hin; cbv zeta.
  - cbn [read_flip_data]. repeat split; try reflexivity; try assumption.
    intros j Hj. lia.
  - cbn [read_flip_data]. destruct (Z.of_nat i <? len - 1) eqn:E.
    + apply Z.ltb_lt in E. unfold read_byte.
      set (v := u8 (host_out w (out_packet s) (out_offset s))).
      set (s1 := set_cmd_data i v
                   (emit (Endpoint_Read_Byte v)
                      (set_out (out_packet s) (S (out_offset s)) s))).
      assert (Hlen1 : length (data (flipCommand s1)) = 5%nat).
      { unfold s1. cbn [set_cmd_data set_flipCommand flipCommand data emit set_out].
        rewrite length_list_set. exact Hlen. }
      destruct (IH (S i) s1 Hlen1 ltac:(lia))
        as [H1 [H2 [H3 [H4 [H5 [H6 [H7 [H8 [H9 H10]]]]]]]]].
      repeat split; try assumption.
      * intros j Hj Hjl.
        destruct (Nat.eq_dec j i) as [-> | Hne].
        -- rewrite H10 by lia. unfold cmd_data, s1.
           cbn [set_cmd_data set_flipCommand flipCommand data emit set_out].
           rewrite nth_list_set_same by lia.
           replace (i - i)%nat with 0%nat by lia. rewrite Nat.add_0_r. reflexivity.
        -- rewrite H9 by lia. unfold s1.
           cbn [set_cmd_data set_flipCommand out_packet out_offset emit set_out].
           f_equal. f_equal. lia.
      * intros j Hj.
        rewrite H10 by lia. unfold cmd_data, s1.
        cbn [set_cmd_data set_flipCommand flipCommand data emit set_out].
        apply nth_list_set_other. lia.
    + apply Z.ltb_ge in E. repeat split; try reflexivity; try assumption.
      intros j Hj Hjl. lia.
Qed.

Lemma retrieve_command_bytes :
  forall w rq s,
    length (data (flipCommand s)) = 5%nat ->
    let s1 := retrieve_command w rq s in
    group (flipCommand s1) = u8 (host_out w (out_packet s) (out_offset s))
    /\ (forall j, (j < 5)%nat -> Z.of_nat j < wLength rq - 1 ->
          cmd_data s1 j = u8 (host_out w (out_packet s) (S (out_offset s) + j)))
    /\ (forall j, wLength rq - 1 <= Z.of_nat j -> cmd_data s1 j = cmd_data s j)
    /\ length (data (flipCommand s1)) = 5%nat
    /\ out_packet s1 = S (out_packet s) /\ out_offset s1 = 0%nat
    /\ DFU_State s1 = DFU_State s /\ DFU_Status s1 = DFU_Status s
    /\ nonBlankAddr s1 = nonBlankAddr s
    /\ curFlash64KBPageNumber s1 = curFlash64KBPageNumber s
    /\ AppStartPtr s1 = AppStartPtr s.
Proof.
  intros w rq s Hlen s1. unfold s1, retrieve_command, read_byte.
  set (g := u8 (host_out w (out_packet (emit Endpoint_IsOUTReceived (emit Endpoint_ClearSETUP s)))
                  (out_offset (emit Endpoint_IsOUTReceived (emit Endpoint_ClearSETUP s))))).
  set (s0 := set_group g _).
  assert (Hlen0 : length (data (flipCommand s0)) = 5%nat) by exact Hlen.
  destruct (read_flip_data_bytes w (wLength rq) 5 0 s0 Hlen0 ltac:(lia))
    as [H1 [H2 [H3 [H4 [H5 [H6 [H7 [H8 [H9 H10]]]]]]]]].
  repeat split.
  - cbn [clear_OUT flipCommand emit set_out]. rewrite H2. reflexivity.
  - intros j Hj Hjl.
    change (cmd_data (clear_OUT (read_flip_data w 5 0 (wLength rq) s0)) j)
      with (cmd_data (read_flip_data w 5 0 (wLength rq) s0) j).
    rewrite H9 by lia. unfold s0.
    cbn [set_group set_flipCommand out_packet out_offset emit set_out].
    f_equal. f_equal. lia.
  - intros j Hj.
    change (cmd_data (clear_OUT (read_flip_data w 5 0 (wLength rq) s0)) j)
      with (cmd_data (read_flip_data w 5 0 (wLength rq) s0) j).
    rewrite H10 by lia. reflexivity.
  - exact H1.
  - cbn [clear_OUT out_packet emit set_out]. rewrite H3. reflexivity.
  - exact H4.
  - exact H5.
  - exact H6.
  - exact H7.
  - exact H8.
Qed.

(** X2.  Retrieval of the command from a non-empty Dnload request: the
    group is the first byte of the OUT packet; of the five payload bytes
    only the first [wLength - 1] are taken from the packet, in order, and
    the others keep what the command before left in them; the packet is
    acknowledged, and no other global changes. *)
Theorem command_retrieval :
  forall w rq s,
    length (data (flipCommand s)) = 5%nat ->
    let s1 := retrieve_command w rq s in
    group (flipCommand s1) = u8 (host_out w (out_packet s) (out_offset s))
    /\ (forall j, (j < 5)%nat -> Z.of_nat j < wLength rq - 1 ->
          cmd_data s1 j = u8 (host_out w (out_packet s) (S (out_offset s) + j)))
    /\ (forall j, wLength rq - 1 <= Z.of_nat j -> cmd_data s1 j = cmd_data s j)
    /\ length (data (flipCommand s1)) = 5%nat
    /\ out_packet s1 = S (out_packet s) /\ out_offset s1 = 0%nat
    /\ DFU_State s1 = DFU_State s /\ DFU_Status s1 = DFU_Status s
    /\ nonBlankAddr s1 = nonBlankAddr s
    /\ curFlash64KBPageNumber s1 = curFlash64KBPageNumber s
    /\ AppStartPtr s1 = AppStartPtr s.
Proof. exact retrieve_command_bytes. Qed.

Lemma command_retrieval_witness :
  group (flipCommand (retrieve_command (host_world [[6; 3]]) (mkRequest DFU_DNLOAD 2)
                        bank1_dataflash_check)) = 6
  /\ cmd_data (retrieve_command (host_world [[6; 3]]) (mkRequest DFU_DNLOAD 2)
                 bank1_dataflash_check) 0 = 3
  /\ cmd_data (retrieve_command (host_world [[6; 3]]) (mkRequest DFU_DNLOAD 2)
                 bank1_dataflash_check) 4
     = cmd_data bank1_dataflash_check 4.
Proof.
  destruct (command_retrieval (host_world [[6; 3]]) (mkRequest DFU_DNLOAD 2)
              bank1_dataflash_check eq_refl) as [Hg [Hin [Hout _]]].
  split; [exact Hg|]. split.
  - apply (Hin 0%nat); [lia | reflexivity].
  - apply (Hout 4%nat). cbn [wLength]. lia.
Defined.

(** ** Read, Select and Exec commands *)

(** X3.  [ProcessRead] changes no global: it sends one IN packet, which
    holds the identity byte the two opcode bytes select (version 0x20, the
    two bootloader ID bytes, manufacturer, family, product name, product
    revision) and is empty for every other pair of opcode bytes. *)
Theorem read_command_reply :
  forall s,
    ProcessRead s
    = emits (in_packet (match identity_byte (cmd_data s 0) (cmd_data s 1) with
                        | Some b => [b]
                        | None => []
                        end)) s
    /\ identity_byte 0 0 = Some 0x20
    /\ (forall c f b, identity_byte c f = Some b ->
          (c = 0 /\ (f = 0 \/ f = 1 \/ f = 2))
          \/ (c = 1 /\ (f = 0x30 \/ f = 0x31 \/ f = 0x60 \/ f = 0x61))).
Proof.
  intros s. split; [|split].
  - unfold ProcessRead, identity_byte, in_packet.
    change (cmd_data (emit Endpoint_IsINReady s)) with (cmd_data s).
    destruct (cmd_data s 0 =? 0x00);
      [|destruct (cmd_data s 0 =? 0x01)];
      repeat match goal with
             | |- context [if ?c then _ else _] => destruct c
             end;
      unfold emits, emit; cbn [trace app map waitForSecondRequest flipCommand DFU_State
                                DFU_Status nonBlankAddr AppStartPtr curFlash64KBPageNumber
                                out_packet out_offset df_cursor];
      repeat rewrite <- app_assoc; reflexivity.
  - reflexivity.
  - intros c f b. unfold identity_byte.
    destruct (c =? 0x00) eqn:Ec; [apply Z.eqb_eq in Ec|
      destruct (c =? 0x01) eqn:Ec1; [apply Z.eqb_eq in Ec1|discriminate]].
    + destruct (f =? 0x00) eqn:E0; [apply Z.eqb_eq in E0; auto|].
      destruct (f =? 0x01) eqn:E1; [apply Z.eqb_eq in E1; auto|].
      destruct (f =? 0x02) eqn:E2; [apply Z.eqb_eq in E2; auto|discriminate].
    + destruct (f =? 0x30) eqn:E0; [apply Z.eqb_eq in E0; auto|].
      destruct (f =? 0x31) eqn:E1; [apply Z.eqb_eq in E1; auto|].
      destruct (f =? 0x60) eqn:E2; [apply Z.eqb_eq in E2; auto 6|].
      destruct (f =? 0x61) eqn:E3; [apply Z.eqb_eq in E3; auto 6|discriminate].
Qed.

Lemma read_command_reply_witness :
  ProcessRead (with_command CMD_GROUP_READ [1; 0x30; 0; 0; 0] reset_state)
  = emits (in_packet [MANUFACTURER_CODE])
      (with_command CMD_GROUP_READ [1; 0x30; 0; 0; 0] reset_state)
  /\ ((1 = 0 /\ (0x30 = 0 \/ 0x30 = 1 \/ 0x30 = 2))
      \/ (1 = 1 /\ (0x30 = 0x30 \/ 0x30 = 0x31 \/ 0x30 = 0x60 \/ 0x30 = 0x61))).
Proof.
  destruct (read_command_reply
              (with_command CMD_GROUP_READ [1; 0x30; 0; 0; 0] reset_state))
    as [H [_ Ht]].
  split; [exact H|]. apply (Ht 1 0x30 MANUFACTURER_CODE). reflexivity.
Defined.

Lemma ProcessSelect_page s :
  cmd_data s 0 = 0x03 -> cmd_data s 1 = 0x00 ->
  ProcessSelect s = set_curFlash64KBPageNumber (cmd_data s 2) s.
Proof. intros H0 H1. unfold ProcessSelect. rewrite H0, H1. reflexivity. Qed.

Lemma ProcessSelect_other s :
  cmd_data s 0 <> 0x03 \/ cmd_data s 1 <> 0x00 -> ProcessSelect s = s.
Proof.
  intros H. unfold ProcessSelect.
  destruct (cmd_data s 0 =? 0x03) eqn:E0; [|reflexivity].
  destruct (cmd_data s 1 =? 0x00) eqn:E1; [|reflexivity].
  apply Z.eqb_eq in E0, E1. destruct H as [H | H]; contradiction.
Qed.

(** X4.  The Select command with opcode bytes (0x03, 0x00) stores its third
    byte in the 64KB page register and changes nothing else; every other
    Select payload changes nothing.  A dataflash blank check issued after
    the page [p] was selected scans from cell [p * 65536 + hi * 256 + lo]
    on, over the length the two 16-bit fields give: the page register moves
    the window, not its length. *)
Theorem select_page_moves_dataflash_window :
  forall cfg w fuel s p hi lo hi' lo',
    0 <= p < 256 -> 0 <= hi < 256 -> 0 <= lo < 256 ->
    0 <= hi' < 256 -> 0 <= lo' < 256 ->
    (cmd_data s 0 <> 0x03 \/ cmd_data s 1 <> 0x00 -> ProcessSelect s = s)
    /\ (cmd_data s 0 = 0x03 -> cmd_data s 1 = 0x00 -> cmd_data s 2 = p ->
        ProcessSelect s = set_curFlash64KBPageNumber p s
        /\ let first := p * 65536 + hi * 256 + lo in
           exists s',
             ProcessUpload cfg w fuel
               (with_command CMD_GROUP_UPLOAD [0x11; hi; lo; hi'; lo'] (ProcessSelect s))
             = Done s'
             /\ curFlash64KBPageNumber s' = p
             /\ trace s'
                = trace s
                  ++ [Dataflash_SelectChip;
                      Dataflash_Configure_Read_Page_Offset DF_CMD_CONTARRAYREAD_LF
                        (first / DATAFLASH_PAGE_SIZE cfg)
                        (first mod DATAFLASH_PAGE_SIZE cfg)]
                  ++ map Dataflash_ReceiveByte
                       (cells_scanned (dataflash_cell w)
                          (Z.to_nat (hi' * 256 + lo' - (hi * 256 + lo))) first)
                  ++ [Dataflash_DeselectChip]).
Proof.
  intros cfg w fuel s p hi lo hi' lo' Hp Hh Hl Hh' Hl'. split.
  - apply ProcessSelect_other.
  - intros H0 H1 H2. rewrite (ProcessSelect_page s H0 H1), H2.
    split; [reflexivity|]. intros first.
    set (s1 := with_command CMD_GROUP_UPLOAD [0x11; hi; lo; hi'; lo']
                 (set_curFlash64KBPageNumber p s)).
    destruct (dataflash_check_trace cfg w fuel s1 eq_refl) as [s' [Hrun [Htr Hres]]].
    change (curFlash64KBPageNumber s1) with p in Htr, Hres.
    change (cmd_data s1 1) with hi in Htr, Hres.
    change (cmd_data s1 2) with lo in Htr, Hres.
    change (cmd_data s1 3) with hi' in Htr, Hres.
    change (cmd_data s1 4) with lo' in Htr, Hres.
    rewrite (addr32_bytes p hi lo Hp Hh Hl) in Htr.
    rewrite (addr32_bytes p hi' lo' Hp Hh' Hl') in Htr.
    cbv zeta in Htr.
    replace (p * 65536 + hi' * 256 + lo' - (p * 65536 + hi * 256 + lo))
      with (hi' * 256 + lo' - (hi * 256 + lo)) in Htr by lia.
    exists s'. split; [exact Hrun|]. split; [|exact Htr].
    (* the page register is kept by the scan *)
    rewrite (ProcessUpload_dataflash_check cfg w fuel s1 eq_refl) in Hrun.
    cbv zeta in Hrun. injection Hrun as <-.
    match goal with
    | |- curFlash64KBPageNumber
           (emit _ (blank_check_dataflash w ?n ?e ?c ?s0)) = _ =>
      change (curFlash64KBPageNumber (blank_check_dataflash w n e c s0) = p);
      rewrite (blank_check_dataflash_scan w n e c s0 eq_refl
                 (page_offset_recompose c (DATAFLASH_PAGE_SIZE cfg)));
      destruct (first_dirty (dataflash_cell w) n c); reflexivity
    end.
Qed.

Lemma select_page_moves_dataflash_window_witness :
  ProcessSelect (with_command CMD_GROUP_SELECT [3; 0; 1; 0; 0] reset_state)
  = set_curFlash64KBPageNumber 1
      (with_command CMD_GROUP_SELECT [3; 0; 1; 0; 0] reset_state)
  /\ ProcessSelect (with_command CMD_GROUP_SELECT [3; 1; 1; 0; 0] reset_state)
     = with_command CMD_GROUP_SELECT [3; 1; 1; 0; 0] reset_state.
Proof.
  assert (Hb : 0 <= 0 < 256) by lia.
  assert (Hp : 0 <= 1 < 256) by lia.
  split.
  - destruct (select_page_moves_dataflash_window atmega32u2 blank_world 0
                (with_command CMD_GROUP_SELECT [3; 0; 1; 0; 0] reset_state)
                1 0 0 0 0 Hp Hb Hb Hb Hb) as [_ H].
    destruct (H eq_refl eq_refl eq_refl) as [Hs _]. exact Hs.
  - destruct (select_page_moves_dataflash_window atmega32u2 blank_world 0
                (with_command CMD_GROUP_SELECT [3; 1; 1; 0; 0] reset_state)
                1 0 0 0 0 Hp Hb Hb Hb Hb) as [H _].
    apply H. right. vm_compute. discriminate.
Defined.

Lemma erase_flash_pages cfg n :
  0 < SPM_PAGESIZE cfg ->
  BOOT_START_ADDR cfg + SPM_PAGESIZE cfg <= 2 ^ 16 ->
  forall fuel cur s,
    0 <= cur ->
    (forall k, 0 <= k < Z.of_nat n -> cur + k * SPM_PAGESIZE cfg < BOOT_START_ADDR cfg) ->
    BOOT_START_ADDR cfg <= cur + Z.of_nat n * SPM_PAGESIZE cfg ->
    (n < fuel)%nat ->
    erase_flash cfg fuel cur s
    = Done (emits (erase_pages (page_starts (SPM_PAGESIZE cfg) cur n)) s).
Proof.
  intros HP HB. induction n as [|n IH]; intros fuel cur s Hc Hlt Hge Hf.
  - destruct fuel as [|fuel]; [lia|]. cbn [erase_flash].
    assert (E : (cur <? BOOT_START_ADDR cfg) = false) by (apply Z.ltb_ge; lia).
    rewrite E. cbn [page_starts erase_pages flat_map]. rewrite emits_nil. reflexivity.
  - destruct fuel as [|fuel]; [lia|]. cbn [erase_flash].
    assert (Hcb : cur < BOOT_START_ADDR cfg).
    { specialize (Hlt 0). rewrite Z.mul_0_l, Z.add_0_r in Hlt. apply Hlt. lia. }
    assert (E : (cur <? BOOT_START_ADDR cfg) = true) by (apply Z.ltb_lt; exact Hcb).
    rewrite E. rewrite u16_small by lia.
    rewrite IH; [| lia | | lia | lia].
    + cbn [page_starts erase_pages flat_map app].
      repeat rewrite emits_emit. reflexivity.
    + intros k Hk.
      replace (cur + SPM_PAGESIZE cfg + k * SPM_PAGESIZE cfg)
        with (cur + (k + 1) * SPM_PAGESIZE cfg) by lia.
      apply Hlt. lia.
Qed.

Lemma page_starts_in P n :
  forall a x, In x (page_starts P a n) -> exists k, 0 <= k < Z.of_nat n /\ x = a + k * P.
Proof.
  induction n as [|n IH]; intros a x Hin; [destruct Hin|].
  cbn [page_starts] in Hin. destruct Hin as [<- | Hin].
  - exists 0. lia.
  - destruct (IH _ _ Hin) as [k [Hk ->]]. exists (k + 1). lia.
Qed.

Lemma pages_below_boot P B :
  0 < P -> 0 <= B ->
  let N := Z.to_nat ((B + P - 1) / P) in
  (forall k, 0 <= k < Z.of_nat N -> k * P < B) /\ B <= Z.of_nat N * P.
Proof.
  intros HP HB N.
  assert (H0 : 0 <= (B + P - 1) / P) by (apply Z.div_pos; lia).
  assert (HN : Z.of_nat N = (B + P - 1) / P) by (unfold N; lia).
  pose proof (Z.div_mod (B + P - 1) P ltac:(lia)) as Hd.
  pose proof (Z.mod_pos_bound (B + P - 1) P HP) as Hm.
  rewrite HN. split; [intros k Hk|]; nia.
Qed.

(** X5.  The Exec command "erase flash" (opcode bytes 0x00, 0xFF) returns,
    given fuel for the pages, after erasing the pages that begin at 0,
    [SPM_PAGESIZE], 2 [SPM_PAGESIZE], ... below [BOOT_START_ADDR], each
    once and in this order, followed by one re-enable of the RWW section.
    Every erased page begins below [BOOT_START_ADDR]: the bootloader does
    not erase a page that begins in its own section; and no global
    changes. *)
Theorem exec_erase_flash :
  forall cfg fuel s,
    let P := SPM_PAGESIZE cfg in
    let N := Z.to_nat ((BOOT_START_ADDR cfg + P - 1) / P) in
    cmd_data s 0 = 0x00 -> cmd_data s 1 = 0xFF ->
    0 < P -> 0 <= BOOT_START_ADDR cfg -> BOOT_START_ADDR cfg + P <= 2 ^ 16 ->
    (N < fuel)%nat ->
    ProcessExec cfg fuel s
    = Done (emits (erase_pages (page_starts P 0 N) ++ [boot_rww_enable]) s)
    /\ (forall a, In a (page_starts P 0 N) ->
          0 <= a < BOOT_START_ADDR cfg /\ a mod P = 0)
    /\ length (page_starts P 0 N) = N.
Proof.
  intros cfg fuel s P N H0 H1 HP HB0 HB Hf.
  destruct (pages_below_boot P (BOOT_START_ADDR cfg) HP HB0) as [Hlt Hge].
  fold N in Hlt, Hge.
  split; [|split].
  - unfold ProcessExec. rewrite H0, H1.
    cbn [Z.eqb Pos.eqb andb].
    rewrite (erase_flash_pages cfg N HP HB fuel 0 s); try lia.
    + cbn [bind]. rewrite emit_emits.
      change (cmd_data (emits _ s)) with (cmd_data s). rewrite H0, H1.
      reflexivity.
    + intros k Hk. fold P. specialize (Hlt k Hk). lia.
  - intros a Hin. destruct (page_starts_in P N 0 a Hin) as [k [Hk ->]].
    specialize (Hlt k Hk). split; [nia|].
    rewrite Z.add_0_l. apply Z.mod_mul. lia.
  - clear. generalize 0. induction N as [|N IH]; intros a; [reflexivity|].
    cbn [page_starts length]. rewrite IH. reflexivity.
Qed.

Lemma exec_erase_flash_witness :
  ProcessExec atmega32u2 (Z.to_nat 300)
    (with_command CMD_GROUP_EXEC [0x00; 0xFF; 0; 0; 0] reset_state)
  = Done (emits (erase_pages (page_starts 128 0 224) ++ [boot_rww_enable])
            (with_command CMD_GROUP_EXEC [0x00; 0xFF; 0; 0; 0] reset_state))
  /\ length (page_starts 128 0 224) = 224%nat.
Proof.
  destruct (exec_erase_flash atmega32u2 (Z.to_nat 300)
              (with_command CMD_GROUP_EXEC [0x00; 0xFF; 0; 0; 0] reset_state))
    as [H [_ Hl]]; try reflexivity.
  - vm_compute. discriminate.
  - vm_compute. discriminate.
  - vm_compute. lia.
  - split; [exact H | exact Hl].
Defined.

Lemma erase_eeprom_cells n :
  forall a s, erase_eeprom n a s = emits (eeprom_fill 0xFF (zrange a n)) s.
Proof.
  induction n as [|n IH]; intros a s.
  - cbn [erase_eeprom zrange eeprom_fill flat_map]. rewrite emits_nil. reflexivity.
  - cbn [erase_eeprom zrange eeprom_fill flat_map app]. rewrite IH.
    repeat rewrite emits_emit. reflexivity.
Qed.

Lemma zrange_in n : forall a x, In x (zrange a n) -> a <= x < a + Z.of_nat n.
Proof.
  induction n as [|n IH]; intros a x Hin; [destruct Hin|].
  cbn [zrange] in Hin. destruct Hin as [<- | Hin]; [lia|].
  apply IH in Hin. lia.
Qed.

(** X6.  The Exec command "erase EEPROM" (opcode bytes 0x01, 0xFF)
    returns, whatever the fuel, after writing 0xFF to the 512 cells 0 to
    511, each once and in ascending order, and changes no global. *)
Theorem exec_erase_eeprom :
  forall cfg fuel s,
    cmd_data s 0 = 0x01 -> cmd_data s 1 = 0xFF ->
    ProcessExec cfg fuel s = Done (emits (eeprom_fill 0xFF (zrange 0 512)) s)
    /\ (forall a, In a (zrange 0 512) -> 0 <= a < 512).
Proof.
  intros cfg fuel s H0 H1. split.
  - unfold ProcessExec. rewrite H0, H1. cbn [Z.eqb Pos.eqb andb bind].
    rewrite H0, H1. cbn [Z.eqb Pos.eqb andb].
    rewrite erase_eeprom_cells. reflexivity.
  - intros a Hin. apply zrange_in in Hin. lia.
Qed.

Lemma exec_erase_eeprom_witness :
  ProcessExec atmega32u2 0
    (with_command CMD_GROUP_EXEC [0x01; 0xFF; 0; 0; 0] reset_state)
  = Done (emits (eeprom_fill 0xFF (zrange 0 512))
            (with_command CMD_GROUP_EXEC [0x01; 0xFF; 0; 0; 0] reset_state)).
Proof.
  apply (exec_erase_eeprom atmega32u2 0
           (with_command CMD_GROUP_EXEC [0x01; 0xFF; 0; 0; 0] reset_state));
    reflexivity.
Defined.

Lemma emit_one e s : emit e s = emits [e] s.
Proof. reflexivity. Qed.

Lemma erase_flash_frame cfg fuel :
  forall cur s s', erase_flash cfg fuel cur s = Done s' -> exists l, s' = emits l s.
Proof.
  induction fuel as [|fuel IH]; intros cur s s' H; [discriminate H|].
  cbn [erase_flash] in H. destruct (cur <? BOOT_START_ADDR cfg).
  - apply IH in H. destruct H as [l ->]. eexists. repeat rewrite emits_emit. reflexivity.
  - injection H as <-. exists []. symmetry. apply emits_nil.
Qed.

Lemma ProcessExec_frame cfg fuel s s' :
  ProcessExec cfg fuel s = Done s' ->
  exists l,
    s' = emits l (if is_jump_command s
                  then set_AppStartPtr (addr16 (cmd_data s 3) (cmd_data s 4)) s
                  else s).
Proof.
  unfold ProcessExec, is_jump_command. intros H.
  destruct ((cmd_data s 0 =? 0x00) && (cmd_data s 1 =? 0xFF)) eqn:Eflash.
  - apply andb_prop in Eflash. destruct Eflash as [E0 E1].
    apply Z.eqb_eq in E0, E1.
    destruct (erase_flash cfg fuel 0 s) as [s1| |] eqn:Er; try discriminate H.
    cbn [bind] in H. apply erase_flash_frame in Er. destruct Er as [l ->].
    change (cmd_data (emit boot_rww_enable (emits l s))) with (cmd_data s) in H.
    rewrite E0, E1 in H. cbn [Z.eqb Pos.eqb andb] in H. injection H as <-.
    rewrite E0. cbn [Z.eqb andb]. eexists. rewrite emit_emits. reflexivity.
  - cbn [bind] in H.
    destruct ((cmd_data s 0 =? 0x01) && (cmd_data s 1 =? 0xFF)) eqn:Eee.
    + rewrite erase_eeprom_cells in H. injection H as <-.
      apply andb_prop in Eee. destruct Eee as [E0 _].
      apply Z.eqb_eq in E0. rewrite E0. cbn [Z.eqb Pos.eqb andb].
      eexists. reflexivity.
    + destruct ((cmd_data s 0 =? 0x10) && (cmd_data s 1 =? 0xFF)) eqn:Edf.
      * rewrite (emit_one Dataflash_SelectChip s) in H.
        repeat rewrite emit_emits in H. injection H as <-.
        apply andb_prop in Edf. destruct Edf as [E0 _].
        apply Z.eqb_eq in E0. rewrite E0. cbn [Z.eqb Pos.eqb andb].
        eexists. reflexivity.
      * destruct (cmd_data s 0 =? 0x01) eqn:E1.
        -- injection H as <-. apply Z.eqb_eq in E1. rewrite E1.
           cbn [Z.eqb Pos.eqb andb]. exists []. symmetry. apply emits_nil.
        -- destruct (cmd_data s 0 =? 0x03) eqn:E3; cbn [andb].
           ++ destruct (cmd_data s 1 =? 0x00) eqn:E10.
              ** rewrite (emit_one wdt_enable_250MS s) in H. injection H as <-.
                 apply Z.eqb_eq in E10. rewrite E10.
                 cbn [Z.eqb]. eexists. reflexivity.
              ** destruct (cmd_data s 1 =? 0x01); injection H as <-;
                   exists []; symmetry; apply emits_nil.
           ++ injection H as <-. exists []. symmetry. apply emits_nil.
Qed.

(** X7.  Whatever Exec command is processed, when [ProcessExec] returns it
    has left the DFU state, the status, the remembered command, the 64KB
    page register and the stored blank check result as they were; the
    application start pointer changes only for "start application by
    jump" (opcode bytes 0x03, 0x01), where it becomes the address in payload
    bytes 3 and 4. *)
Theorem exec_keeps_protocol_state :
  forall cfg fuel s s',
    ProcessExec cfg fuel s = Done s' ->
    DFU_State s' = DFU_State s
    /\ DFU_Status s' = DFU_Status s
    /\ flipCommand s' = flipCommand s
    /\ curFlash64KBPageNumber s' = curFlash64KBPageNumber s
    /\ nonBlankAddr s' = nonBlankAddr s
    /\ waitForSecondRequest s' = waitForSecondRequest s
    /\ AppStartPtr s'
       = (if is_jump_command s then addr16 (cmd_data s 3) (cmd_data s 4)
          else AppStartPtr s).
Proof.
  intros cfg fuel s s' H. apply ProcessExec_frame in H. destruct H as [l ->].
  destruct (is_jump_command s); repeat split.
Qed.

Lemma exec_keeps_protocol_state_witness :
  AppStartPtr
    (result (ProcessExec atmega32u2 0
               (with_command CMD_GROUP_EXEC [0x03; 0x01; 0; 0x12; 0x34]
                  (set_DFU_State dfuERROR reset_state))))
  = 0x1234
  /\ DFU_State
       (result (ProcessExec atmega32u2 0
                  (with_command CMD_GROUP_EXEC [0x03; 0x01; 0; 0x12; 0x34]
                     (set_DFU_State dfuERROR reset_state))))
     = dfuERROR.
Proof.
  destruct (exec_keeps_protocol_state atmega32u2 0
              (with_command CMD_GROUP_EXEC [0x03; 0x01; 0; 0x12; 0x34]
                 (set_DFU_State dfuERROR reset_state))
              (result (ProcessExec atmega32u2 0
                         (with_command CMD_GROUP_EXEC [0x03; 0x01; 0; 0x12; 0x34]
                            (set_DFU_State dfuERROR reset_state))))
              eq_refl) as [Hs [_ [_ [_ [_ [_ Ha]]]]]].
  split; [exact Ha | exact Hs].
Defined.

Lemma empty_DNLOAD_leaves cfg w fuel rq s :
  bRequest rq = DFU_DNLOAD -> wLength rq = 0 ->
  EVENT_USB_Device_UnhandledControlRequest cfg w fuel rq s
  = Exited (emits (leave_bootloader (AppStartPtr s)) s).
Proof.
  intros Hrq Hlen. unfold EVENT_USB_Device_UnhandledControlRequest.
  rewrite Hrq.
  change (DFU_DNLOAD =? DFU_DETACH) with false.
  change (DFU_DNLOAD =? DFU_DNLOAD) with true.
  cbv beta match zeta. unfold case_DNLOAD. rewrite Hlen.
  cbn [Z.eqb negb bind]. unfold ResetHardware, leave_bootloader, emits, emit.
  cbn [trace waitForSecondRequest flipCommand DFU_State DFU_Status nonBlankAddr
       AppStartPtr curFlash64KBPageNumber out_packet out_offset df_cursor].
  repeat rewrite <- app_assoc. reflexivity.
Qed.

(** X8.  A Dnload request with an empty payload never returns to the host:
    the bootloader resets the hardware and hands control to the application
    at the start pointer, without acknowledging the status stage, and no
    later request of the session is handled.  After the Exec command
    "start application by jump" with address bytes [hi], [lo] the
    application is entered at [hi * 256 + lo]; the pointer the bootloader
    starts with is 0. *)
Theorem empty_dnload_starts_application :
  forall cfg w fuel rq rest s hi lo,
    bRequest rq = DFU_DNLOAD -> wLength rq = 0 ->
    0 <= hi < 256 -> 0 <= lo < 256 ->
    handle_requests cfg w fuel (rq :: rest) s
    = Exited (emits (leave_bootloader (AppStartPtr s)) s)
    /\ AppStartPtr reset_state = 0
    /\ (cmd_data s 0 = 0x03 -> cmd_data s 1 = 0x01 ->
        cmd_data s 3 = hi -> cmd_data s 4 = lo ->
        exists s1,
          ProcessExec cfg fuel s = Done s1
          /\ handle_requests cfg w fuel (rq :: rest) s1
             = Exited (emits (leave_bootloader (hi * 256 + lo)) s1)).
Proof.
  intros cfg w fuel rq rest s hi lo Hrq Hlen Hh Hl. split; [|split].
  - cbn [handle_requests]. rewrite empty_DNLOAD_leaves by assumption. reflexivity.
  - reflexivity.
  - intros H0 H1 H3 H4.
    assert (Hex : ProcessExec cfg fuel s
                  = Done (set_AppStartPtr (addr16 (cmd_data s 3) (cmd_data s 4)) s)).
    { unfold ProcessExec. rewrite H0, H1. cbn [Z.eqb Pos.eqb andb bind].
      rewrite H0, H1. reflexivity. }
    eexists. split; [exact Hex|].
    cbn [handle_requests]. rewrite empty_DNLOAD_leaves by assumption.
    cbn [bind AppStartPtr set_AppStartPtr]. rewrite H3, H4.
    rewrite (addr16_bytes hi lo Hh Hl). reflexivity.
Qed.

Lemma empty_dnload_starts_application_witness :
  handle_requests atmega32u2 blank_world 0
    [mkRequest DFU_DNLOAD 0; mkRequest DFU_GETSTATUS 6] reset_state
  = Exited (emits (leave_bootloader 0) reset_state).
Proof.
  assert (Hb : 0 <= 0 < 256) by lia.
  destruct (empty_dnload_starts_application atmega32u2 blank_world 0
              (mkRequest DFU_DNLOAD 0) [mkRequest DFU_GETSTATUS 6] reset_state 0 0
              eq_refl eq_refl Hb Hb) as [H _].
  exact H.
Defined.

(** ** Requests that only report *)

Lemma passive_request cfg w fuel rq s :
  is_passive_request rq = true ->
  EVENT_USB_Device_UnhandledControlRequest cfg w fuel rq s
  = Done (emits (passive_events (DFU_State s) rq) s).
Proof.
  unfold is_passive_request. intros H. apply negb_true_iff in H.
  repeat (apply orb_false_elim in H; destruct H as [H ?]).
  unfold EVENT_USB_Device_UnhandledControlRequest, passive_events.
  rewrite H, H0, H1, H2, H3.
  destruct (bRequest rq =? DFU_DETACH) eqn:Ed.
  - apply Z.eqb_eq in Ed. rewrite Ed.
    change (DFU_DETACH =? DFU_GETSTATE) with false. cbn [bind app].
    rewrite (emit_one Endpoint_ClearSETUP s), emit_emits. reflexivity.
  - destruct (bRequest rq =? DFU_GETSTATE); cbn [bind app];
      rewrite (emit_one Endpoint_ClearSETUP s); repeat rewrite emit_emits; reflexivity.
Qed.

(** X9.  Detach, Getstate and request codes the handler has no case for
    leave every global as it was, whatever their number and order: such a
    session returns with nothing but trace events added, and the only bytes
    it sends are the one state byte per Getstate, always the DFU state the
    session started in (Getstate, unlike Getstatus, makes no state
    transition). *)
Theorem passive_requests_change_nothing :
  forall cfg w fuel rqs s,
    forallb is_passive_request rqs = true ->
    handle_requests cfg w fuel rqs s
    = Done (emits (flat_map (passive_events (DFU_State s)) rqs) s).
Proof.
  intros cfg w fuel rqs. induction rqs as [|rq rest IH]; intros s H.
  - cbn [handle_requests flat_map]. rewrite emits_nil. reflexivity.
  - cbn [forallb] in H. apply andb_prop in H. destruct H as [Hrq Hrest].
    cbn [handle_requests flat_map]. rewrite (passive_request cfg w fuel rq s Hrq).
    cbn [bind]. rewrite (IH _ Hrest).
    change (DFU_State (emits (passive_events (DFU_State s) rq) s)) with (DFU_State s).
    unfold emits. cbn [trace waitForSecondRequest flipCommand DFU_State DFU_Status
                        nonBlankAddr AppStartPtr curFlash64KBPageNumber out_packet
                        out_offset df_cursor].
    rewrite <- app_assoc. reflexivity.
Qed.

Lemma passive_requests_change_nothing_witness :
  handle_requests atmega32u2 blank_world 0
    [mkRequest DFU_GETSTATE 1; mkRequest DFU_DETACH 0; mkRequest 9 0]
    (set_DFU_State dfuDNLOAD_SYNC reset_state)
  = Done (emits
            [Endpoint_ClearSETUP; Endpoint_IsINReady; Endpoint_Write_Byte dfuDNLOAD_SYNC;
             Endpoint_ClearIN; Endpoint_ClearStatusStage;
             Endpoint_ClearSETUP; Endpoint_ClearStatusStage;
             Endpoint_ClearSETUP; Endpoint_ClearStatusStage]
            (set_DFU_State dfuDNLOAD_SYNC reset_state)).
Proof.
  apply (passive_requests_change_nothing atmega32u2 blank_world 0
           [mkRequest DFU_GETSTATE 1; mkRequest DFU_DETACH 0; mkRequest 9 0]
           (set_DFU_State dfuDNLOAD_SYNC reset_state)).
  reflexivity.
Defined.

Lemma UpdateState_emit e s : UpdateState (emit e s) = emit e (UpdateState s).
Proof.
  unfold UpdateState. change (DFU_State (emit e s)) with (DFU_State s).
  destruct (DFU_State s =? dfuDNLOAD_SYNC); [reflexivity|].
  destruct (DFU_State s =? dfuUPLOAD_IDLE); [reflexivity|].
  destruct (DFU_State s =? dfuMANIFEST_SYNC); reflexivity.
Qed.

(** X10.  The state byte of a Getstatus reply is never DownloadSync,
    UploadIdle or ManifestSync: the transition is made before the reply is
    written, so the reply reports the state the device is left in, and the
    status byte is the status as it was. *)
Theorem getstatus_reports_state_after_transition :
  forall cfg w fuel rq s,
    bRequest rq = DFU_GETSTATUS ->
    exists s' st,
      EVENT_USB_Device_UnhandledControlRequest cfg w fuel rq s = Done s'
      /\ trace s'
         = trace s ++ [Endpoint_ClearSETUP; Endpoint_IsINReady]
           ++ status_response (DFU_Status s) st
           ++ [Endpoint_ClearIN; Endpoint_ClearStatusStage]
      /\ DFU_State s' = st
      /\ DFU_Status s' = DFU_Status s
      /\ st <> dfuDNLOAD_SYNC /\ st <> dfuUPLOAD_IDLE /\ st <> dfuMANIFEST_SYNC.
Proof.
  intros cfg w fuel rq s Hrq.
  exists (emit Endpoint_ClearStatusStage (case_GETSTATUS (emit Endpoint_ClearSETUP s))).
  exists (DFU_State (UpdateState s)).
  split; [apply GETSTATUS_returns; exact Hrq|].
  split; [|split; [apply case_GETSTATUS_state|split]].
  - change (trace (emit Endpoint_ClearStatusStage (case_GETSTATUS (emit Endpoint_ClearSETUP s))))
      with (trace (case_GETSTATUS (emit Endpoint_ClearSETUP s)) ++ [Endpoint_ClearStatusStage]).
    rewrite case_GETSTATUS_trace.
    rewrite UpdateState_emit.
    cbn [trace emit DFU_Status DFU_State]. unfold status_response.
    repeat rewrite <- app_assoc. reflexivity.
  - unfold case_GETSTATUS. rewrite (UpdateState_only_state (emit Endpoint_ClearSETUP s)).
    reflexivity.
  - unfold UpdateState.
    destruct (DFU_State s =? dfuDNLOAD_SYNC) eqn:E1;
      [cbn [DFU_State set_DFU_State]; repeat split; discriminate|].
    destruct (DFU_State s =? dfuUPLOAD_IDLE) eqn:E2;
      [cbn [DFU_State set_DFU_State]; repeat split; discriminate|].
    destruct (DFU_State s =? dfuMANIFEST_SYNC) eqn:E3;
      [cbn [DFU_State set_DFU_State]; repeat split; discriminate|].
    apply Z.eqb_neq in E1, E2, E3. repeat split; assumption.
Qed.

Lemma getstatus_reports_state_after_transition_witness :
  exists s' st,
    EVENT_USB_Device_UnhandledControlRequest atmega32u2 blank_world 0
      (mkRequest DFU_GETSTATUS 6) (set_DFU_State dfuMANIFEST_SYNC reset_state) = Done s'
    /\ trace s'
       = [] ++ [Endpoint_ClearSETUP; Endpoint_IsINReady]
         ++ status_response OK st
         ++ [Endpoint_ClearIN; Endpoint_ClearStatusStage]
    /\ DFU_State s' = st
    /\ DFU_Status s' = OK
    /\ st <> dfuDNLOAD_SYNC /\ st <> dfuUPLOAD_IDLE /\ st <> dfuMANIFEST_SYNC.
Proof.
  apply (getstatus_reports_state_after_transition atmega32u2 blank_world 0
           (mkRequest DFU_GETSTATUS 6) (set_DFU_State dfuMANIFEST_SYNC reset_state)).
  reflexivity.
Defined.

(** ** Fetching the blank check result *)

Lemma flash_check_result cfg w fuel s :
  cmd_data s 0 = 0x01 ->
  let startAddr := addr16 (cmd_data s 1) (cmd_data s 2) in
  let endAddr := addr16 (cmd_data s 3) (cmd_data s 4) in
  let n := Z.to_nat (endAddr - startAddr) in
  ProcessUpload cfg w fuel s
  = Done (match first_dirty (flash_cell w) n startAddr with
          | Some A =>
            check_failed A
              (emits (map pgm_read_byte (cells_scanned (flash_cell w) n startAddr)) s)
          | None => emits (map pgm_read_byte (cells_scanned (flash_cell w) n startAddr)) s
          end).
Proof.
  intros H startAddr endAddr n.
  rewrite (ProcessUpload_flash_check cfg w fuel s H). fold startAddr endAddr n.
  rewrite (blank_check_flash_scan w n endAddr startAddr s eq_refl). reflexivity.
Qed.

Lemma UPLOAD_blank_result cfg w fuel rq s :
  bRequest rq = DFU_UPLOAD ->
  is_blank_check s = true ->
  EVENT_USB_Device_UnhandledControlRequest cfg w fuel rq s
  = Done (emits (result_reply (u16 (nonBlankAddr s))) s).
Proof.
  intros Hrq Hb. unfold EVENT_USB_Device_UnhandledControlRequest.
  rewrite Hrq.
  change (DFU_UPLOAD =? DFU_DETACH) with false.
  change (DFU_UPLOAD =? DFU_DNLOAD) with false.
  change (DFU_UPLOAD =? DFU_UPLOAD) with true.
  cbv beta match zeta. unfold case_UPLOAD.
  change (is_blank_check (emit Endpoint_ClearSETUP s)) with (is_blank_check s).
  rewrite Hb. cbn [bind]. unfold result_reply, emits, emit.
  cbn [trace waitForSecondRequest flipCommand DFU_State DFU_Status nonBlankAddr
       AppStartPtr curFlash64KBPageNumber out_packet out_offset df_cursor].
  repeat rewrite <- app_assoc. reflexivity.
Qed.

(** X11.  A Dnload request that carries a flash blank check, followed by
    an Upload request: when the scan found the first cell that is not 0xFF
    at [A], the Upload request sends [A] as one little-endian word and the
    device stays in Error with status errCHECK_ERASED (no state transition,
    no status bytes); when the whole window is blank, state and status stay
    as they were and the Upload request sends whatever [nonBlankAddr] held
    before, the result of an earlier scan or 0. *)
Theorem blank_check_result_fetched :
  forall cfg w fuel rq rq' s,
    bRequest rq = DFU_DNLOAD -> wLength rq <> 0 -> bRequest rq' = DFU_UPLOAD ->
    let s1 := retrieve_command w rq s in
    let startAddr := addr16 (cmd_data s1 1) (cmd_data s1 2) in
    let endAddr := addr16 (cmd_data s1 3) (cmd_data s1 4) in
    group (flipCommand s1) = CMD_GROUP_UPLOAD -> cmd_data s1 0 = 0x01 ->
    (forall A,
        startAddr <= A < endAddr ->
        flash_cell w A <> 0xFF ->
        (forall a, startAddr <= a < A -> flash_cell w a = 0xFF) ->
        exists s' pre,
          handle_requests cfg w fuel [rq; rq'] s = Done s'
          /\ DFU_State s' = dfuERROR /\ DFU_Status s' = errCHECK_ERASED
          /\ trace s' = pre ++ result_reply A)
    /\ ((forall a, startAddr <= a < endAddr -> flash_cell w a = 0xFF) ->
        exists s' pre,
          handle_requests cfg w fuel [rq; rq'] s = Done s'
          /\ DFU_State s' = DFU_State s1 /\ DFU_Status s' = DFU_Status s1
          /\ trace s' = pre ++ result_reply (u16 (nonBlankAddr s1))).
Proof.
  intros cfg w fuel rq rq' s Hrq Hlen Hrq' s1 startAddr endAddr Hg Hop.
  assert (Hbc : is_blank_check s1 = true).
  { unfold is_blank_check. rewrite Hg, Hop. reflexivity. }
  pose proof (blank_check_accepted cfg w fuel rq s Hrq Hlen Hbc) as Hev.
  fold s1 in Hev.
  pose proof (flash_check_result cfg w fuel (set_waitForSecondRequest false s1) Hop) as Hup.
  cbv zeta in Hup.
  change (cmd_data (set_waitForSecondRequest false s1)) with (cmd_data s1) in Hup.
  fold startAddr endAddr in Hup.
  pose proof (addr16_range (cmd_data s1 3) (cmd_data s1 4)) as Hre. fold endAddr in Hre.
  pose proof (addr16_range (cmd_data s1 1) (cmd_data s1 2)) as Hrs. fold startAddr in Hrs.
  split.
  - intros A HA Hd Hb.
    destruct (scan_first_dirty (flash_cell w) (Z.to_nat (endAddr - startAddr)) startAddr A)
      as [Hfd _]; [lia | exact Hd | exact Hb |].
    rewrite Hfd in Hup.
    cbn [handle_requests]. rewrite Hev, Hup. cbn [bind].
    rewrite UPLOAD_blank_result; [| exact Hrq' | exact Hbc]. cbn [bind].
    eexists. eexists. split; [reflexivity|].
    split; [reflexivity|]. split; [reflexivity|].
    cbn [trace emits nonBlankAddr emit check_failed set_nonBlankAddr].
    rewrite (u16_small A) by lia. reflexivity.
  - intros Hb.
    destruct (scan_all_blank (flash_cell w) (Z.to_nat (endAddr - startAddr)) startAddr)
      as [Hfd _]; [intros x Hx; apply Hb; lia|].
    rewrite Hfd in Hup.
    cbn [handle_requests]. rewrite Hev, Hup. cbn [bind].
    rewrite UPLOAD_blank_result; [| exact Hrq' | exact Hbc]. cbn [bind].
    eexists. eexists. split; [reflexivity|].
    split; [reflexivity|]. split; [reflexivity|]. reflexivity.
Qed.

Lemma blank_check_result_fetched_witness :
  exists s' pre,
    handle_requests atmega32u2 flash_check_host 0
      [mkRequest DFU_DNLOAD 6; mkRequest DFU_UPLOAD 2] reset_state = Done s'
    /\ DFU_State s' = dfuERROR /\ DFU_Status s' = errCHECK_ERASED
    /\ trace s' = pre ++ result_reply 2.
Proof.
  assert (Hlen : wLength (mkRequest DFU_DNLOAD 6) <> 0) by discriminate.
  destruct (blank_check_result_fetched atmega32u2 flash_check_host 0
              (mkRequest DFU_DNLOAD 6) (mkRequest DFU_UPLOAD 2) reset_state
              eq_refl Hlen eq_refl eq_refl eq_refl) as [H _].
  apply (H 2).
  - vm_compute. split; [discriminate | reflexivity].
  - vm_compute. discriminate.
  - intros a [_ Ha]. cbn [flash_cell flash_check_host].
    destruct (a =? 2) eqn:E; [apply Z.eqb_eq in E; lia | reflexivity].
Defined.

(** ** Downloads that never end *)

Section NeverReturns.

Variable pk : Z -> state -> Z * state.
Variable Inv : Z -> Prop.

Hypothesis pk_keeps :
  forall cur s,
    Inv cur -> Inv (fst (pk cur s)) /\ DFU_State (snd (pk cur s)) = DFU_State s.

Lemma download_stream_starves fuel :
  forall cur s,
    Inv cur -> DFU_State s <> dfuMANIFEST_SYNC ->
    download_stream_of pk fuel cur s = None.
Proof.
  induction fuel as [|fuel IH]; intros cur s Hinv Hst; [reflexivity|].
  cbn [download_stream_of]. apply Z.eqb_neq in Hst. rewrite Hst. cbn [negb].
  destruct (pk_keeps cur (set_DFU_State dfuDNBUSY (emit Endpoint_IsOUTReceived s)) Hinv)
    as [Hi Hs].
  destruct (pk cur (set_DFU_State dfuDNBUSY (emit Endpoint_IsOUTReceived s))) as [c2 s2].
  cbn [fst snd] in Hi, Hs.
  rewrite end_of_packet_busy by exact Hs.
  apply IH; [exact Hi|]. cbn [DFU_State set_DFU_State]. discriminate.
Qed.

End NeverReturns.

Lemma odd_not_page_boundary P cur : P mod 2 = 0 -> cur mod 2 = 1 -> cur mod P <> 0.
Proof.
  intros HP Hc Hb.
  destruct (Z.eq_dec P 0) as [-> | Hne].
  - rewrite Z.mod_0_r in Hb. subst cur. discriminate Hc.
  - apply Z.mod_divide in Hb; [|exact Hne]. destruct Hb as [q Hq].
    apply Z.mod_divide in HP; [|lia]. destruct HP as [p Hp].
    subst cur. rewrite Hp in Hc.
    replace (q * (p * 2)) with (q * p * 2) in Hc by lia.
    rewrite Z.mod_mul in Hc by lia. discriminate Hc.
Qed.

Lemma u16_parity x : u16 x mod 2 = x mod 2.
Proof.
  unfold u16. rewrite (Z.mod_eq x (2 ^ 16)) by (intros H; discriminate H).
  replace (x - 2 ^ 16 * (x / 2 ^ 16)) with (x + (- (x / 2 ^ 16) * 2 ^ 15) * 2).
  - apply Z.mod_add. lia.
  - change (2 ^ 16) with 65536. change (2 ^ 15) with 32768. lia.
Qed.

Lemma flash_packet_odd cfg w startAddr endAddr n :
  SPM_PAGESIZE cfg mod 2 = 0 ->
  forall cur s,
    cur mod 2 = 1 ->
    fst (download_flash_packet cfg w n startAddr endAddr cur s) mod 2 = 1
    /\ DFU_State (snd (download_flash_packet cfg w n startAddr endAddr cur s))
       = DFU_State s.
Proof.
  intros HP. induction n as [|n IH]; intros cur s Hc.
  - split; [exact Hc | reflexivity].
  - destruct (flash_iteration_written cfg w n startAddr endAddr cur s)
      as [s1 [Hstep [Hst _]]].
    { left. apply odd_not_page_boundary; assumption. }
    rewrite Hstep. rewrite <- Hst. apply IH.
    rewrite u16_parity.
    replace (cur + 2) with (cur + 1 * 2) by lia. rewrite Z.mod_add by lia. exact Hc.
Qed.

(** X12.  A flash download whose start address is odd never ends, however
    many packets the host sends: the cursor moves in steps of two and never
    stands on a page boundary, the only place where the end address is
    tested. *)
Theorem flash_download_odd_start_never_ends :
  forall cfg w fuel s,
    cmd_data s 0 = 0x00 ->
    DFU_State s = dfuIDLE ->
    SPM_PAGESIZE cfg mod 2 = 0 ->
    addr16 (cmd_data s 1) (cmd_data s 2) mod 2 = 1 ->
    ProcessDownload cfg w fuel s = OutOfFuel.
Proof.
  intros cfg w fuel s Hop Hidle HP Hodd.
  rewrite ProcessDownload_flash by assumption.
  rewrite download_flash_stream_of.
  rewrite (download_stream_starves _ (fun c => c mod 2 = 1)); [reflexivity | | exact Hodd |].
  - intros cur s0 Hc. apply flash_packet_odd; assumption.
  - rewrite Hidle. discriminate.
Qed.

Lemma flash_download_odd_start_never_ends_witness :
  ProcessDownload atmega32u2 blank_world 40
    (with_command CMD_GROUP_DOWNLOAD [0x00; 0; 1; 0; 9] reset_state) = OutOfFuel.
Proof.
  apply (flash_download_odd_start_never_ends atmega32u2 blank_world 40
           (with_command CMD_GROUP_DOWNLOAD [0x00; 0; 1; 0; 9] reset_state));
    reflexivity.
Defined.

Lemma eeprom_packet_below_top w endAddr n :
  2 ^ 16 - 1 <= endAddr ->
  forall cur s,
    0 <= cur < 2 ^ 16 ->
    0 <= fst (download_eeprom_packet w n endAddr cur s) < 2 ^ 16
    /\ DFU_State (snd (download_eeprom_packet w n endAddr cur s)) = DFU_State s.
Proof.
  intros He. induction n as [|n IH]; intros cur s Hc.
  - split; [exact Hc | reflexivity].
  - cbn [download_eeprom_packet].
    assert (E : (cur >? endAddr) = false) by (rewrite Z.gtb_ltb; apply Z.ltb_ge; lia).
    rewrite E. unfold read_byte.
    match goal with
    | |- context [download_eeprom_packet w n endAddr ?c ?s1] =>
      destruct (IH c s1) as [H1 H2];
        [unfold u16; apply Z.mod_pos_bound; reflexivity|]
    end.
    split; [exact H1 | rewrite H2; reflexivity].
Qed.

(** X13.  An EEPROM download whose end address is 0xFFFF never ends: the
    16-bit cursor cannot pass the end address, it wraps to 0 and the cells
    are written over and over for as long as the host sends packets. *)
Theorem eeprom_download_to_top_never_ends :
  forall cfg w fuel s,
    cmd_data s 0 = 0x01 ->
    DFU_State s = dfuIDLE ->
    addr16 (cmd_data s 3) (cmd_data s 4) = 0xFFFF ->
    ProcessDownload cfg w fuel s = OutOfFuel.
Proof.
  intros cfg w fuel s Hop Hidle Hend.
  unfold ProcessDownload. rewrite Hop, Hidle. cbn [Z.eqb Pos.eqb negb dfuIDLE].
  rewrite download_eeprom_stream_of.
  rewrite (download_stream_starves _ (fun c => 0 <= c < 2 ^ 16)); [reflexivity | | |].
  - intros cur s0 Hc. apply eeprom_packet_below_top; [rewrite Hend; reflexivity | exact Hc].
  - apply addr16_range.
  - rewrite Hidle. discriminate.
Qed.

Lemma eeprom_download_to_top_never_ends_witness :
  ProcessDownload atmega32u2 blank_world 40
    (with_command CMD_GROUP_DOWNLOAD [0x01; 0xFF; 0xF0; 0xFF; 0xFF] reset_state)
  = OutOfFuel.
Proof.
  apply (eeprom_download_to_top_never_ends atmega32u2 blank_world 40
           (with_command CMD_GROUP_DOWNLOAD [0x01; 0xFF; 0xF0; 0xFF; 0xFF] reset_state));
    reflexivity.
Defined.

(** ** What a download leaves behind *)

Lemma same_globals_refl s : same_globals s s.
Proof. repeat split. Qed.

Lemma same_globals_trans s1 s2 s3 :
  same_globals s1 s2 -> same_globals s2 s3 -> same_globals s1 s3.
Proof.
  unfold same_globals. intros [A1 [A2 [A3 [A4 [A5 A6]]]]] [B1 [B2 [B3 [B4 [B5 B6]]]]].
  repeat split; congruence.
Qed.

Lemma flash_packet_frame cfg w startAddr endAddr n :
  forall cur s, same_globals s (snd (download_flash_packet cfg w n startAddr endAddr cur s)).
Proof.
  induction n as [|n IH]; intros cur s; [apply same_globals_refl|].
  cbn [download_flash_packet]. unfold read_word_LE.
  destruct (cur mod SPM_PAGESIZE cfg =? 0);
    [destruct (negb (cur =? startAddr)); destruct (cur >? endAddr)|];
    cbn [andb snd];
    try (repeat split; fail);
    (eapply same_globals_trans; [|apply IH]); repeat split.
Qed.

Lemma eeprom_packet_frame w endAddr n :
  forall cur s, same_globals s (snd (download_eeprom_packet w n endAddr cur s)).
Proof.
  induction n as [|n IH]; intros cur s; [apply same_globals_refl|].
  cbn [download_eeprom_packet]. unfold read_byte.
  destruct (cur >? endAddr); cbn [snd];
    try (repeat split; fail);
    (eapply same_globals_trans; [|apply IH]); repeat split.
Qed.

Lemma dataflash_packet_frame cfg w startAddr endAddr n :
  forall cur s,
    same_globals s (snd (download_dataflash_packet cfg w n startAddr endAddr cur s)).
Proof.
  induction n as [|n IH]; intros cur s; [apply same_globals_refl|].
  cbn [download_dataflash_packet]. unfold read_byte.
  destruct (negb (cur =? startAddr) && (cur mod DATAFLASH_PAGE_SIZE cfg =? 0));
    [destruct (cur >? endAddr)|];
    cbn [andb snd];
    try (repeat split; fail);
    (eapply same_globals_trans; [|apply IH]); repeat split.
Qed.

Lemma download_stream_frame pk :
  (forall cur s, same_globals s (snd (pk cur s))) ->
  forall fuel cur s c' s',
    download_stream_of pk fuel cur s = Some (c', s') ->
    same_globals s s' /\ (DFU_State s <> dfuMANIFEST_SYNC -> DFU_State s' = dfuMANIFEST_SYNC).
Proof.
  intros Hpk. induction fuel as [|fuel IH]; intros cur s c' s' Hrun; [discriminate Hrun|].
  cbn [download_stream_of] in Hrun.
  destruct (DFU_State s =? dfuMANIFEST_SYNC) eqn:E; cbn [negb] in Hrun.
  - injection Hrun as _ <-. split; [apply same_globals_refl|].
    apply Z.eqb_eq in E. intros H. contradiction.
  - pose proof (Hpk cur (set_DFU_State dfuDNBUSY (emit Endpoint_IsOUTReceived s))) as Hf.
    destruct (pk cur (set_DFU_State dfuDNBUSY (emit Endpoint_IsOUTReceived s))) as [c2 s2].
    cbn [snd] in Hf.
    destruct (IH _ _ _ _ Hrun) as [Hg Hm].
    assert (Hg2 : same_globals s (end_of_packet s2)).
    { eapply same_globals_trans; [|eapply same_globals_trans; [exact Hf|]].
      - repeat split.
      - unfold end_of_packet. destruct (DFU_State (clear_OUT s2) =? dfuDNBUSY); repeat split. }
    split; [eapply same_globals_trans; eassumption|].
    intros _. destruct (Z.eq_dec (DFU_State (end_of_packet s2)) dfuMANIFEST_SYNC) as [Em | Em].
    + destruct fuel as [|fuel']; [discriminate Hrun|].
      cbn [download_stream_of] in Hrun. rewrite Em in Hrun.
      cbn [Z.eqb Pos.eqb negb dfuMANIFEST_SYNC] in Hrun. injection Hrun as _ <-. exact Em.
    + apply Hm. exact Em.
Qed.

Lemma ProcessDownload_from_idle cfg w fuel s s' :
  cmd_data s 0 = 0x00 \/ cmd_data s 0 = 0x01 \/ cmd_data s 0 = 0x10 ->
  DFU_State s = dfuIDLE ->
  ProcessDownload cfg w fuel s = Done s' ->
  same_globals s s' /\ DFU_State s' = dfuMANIFEST_SYNC.
Proof.
  intros Hop Hidle Hrun.
  assert (Hnm : DFU_State s <> dfuMANIFEST_SYNC) by (rewrite Hidle; discriminate).
  unfold ProcessDownload in Hrun. rewrite Hidle in Hrun.
  cbn [Z.eqb Pos.eqb negb dfuIDLE] in Hrun.
  destruct Hop as [Hop | [Hop | Hop]]; rewrite Hop in Hrun;
    cbn [Z.eqb Pos.eqb] in Hrun;
    destruct (finish_done _ _ Hrun) as [c' Hs].
  - rewrite download_flash_stream_of in Hs.
    destruct (download_stream_frame _ (flash_packet_frame cfg w _ _ _) _ _ _ _ _ Hs)
      as [Hg Hm].
    split; [exact Hg | apply Hm; exact Hnm].
  - rewrite download_eeprom_stream_of in Hs.
    destruct (download_stream_frame _ (eeprom_packet_frame w _ _) _ _ _ _ _ Hs)
      as [Hg Hm].
    split; [exact Hg | apply Hm; exact Hnm].
  - rewrite download_dataflash_stream_of in Hs.
    destruct (download_stream_frame _ (dataflash_packet_frame cfg w _ _ _) _ _ _ _ _ Hs)
      as [Hg Hm].
    split; [eapply same_globals_trans; [|exact Hg]; repeat split | apply Hm; exact Hnm].
Qed.

(** X14.  A Download command to flash, EEPROM or dataflash that returns
    has changed no global but the DFU state, which is ManifestSync when the
    download started from Idle and Error otherwise: the whole stream runs
    inside the one call, so DownloadBusy and DownloadSync are never left
    behind.  The same command issued again right away is refused with
    Error; a download that started from Idle is in Idle again after one
    Getstatus request. *)
Theorem download_leaves_manifest_or_error :
  forall cfg w fuel s s',
    cmd_data s 0 = 0x00 \/ cmd_data s 0 = 0x01 \/ cmd_data s 0 = 0x10 ->
    ProcessDownload cfg w fuel s = Done s' ->
    same_globals s s'
    /\ (DFU_State s = dfuIDLE -> DFU_State s' = dfuMANIFEST_SYNC)
    /\ (DFU_State s <> dfuIDLE -> s' = set_DFU_State dfuERROR s)
    /\ (forall fuel', ProcessDownload cfg w fuel' s' = Done (set_DFU_State dfuERROR s'))
    /\ (DFU_State s = dfuIDLE ->
        forall rq, bRequest rq = DFU_GETSTATUS ->
          exists s'',
            EVENT_USB_Device_UnhandledControlRequest cfg w fuel rq s' = Done s''
            /\ DFU_State s'' = dfuIDLE /\ same_globals s s'').
Proof.
  intros cfg w fuel s s' Hop Hrun.
  assert (Hcases : (DFU_State s = dfuIDLE /\ same_globals s s'
                    /\ DFU_State s' = dfuMANIFEST_SYNC)
                   \/ (DFU_State s <> dfuIDLE /\ s' = set_DFU_State dfuERROR s)).
  { destruct (Z.eq_dec (DFU_State s) dfuIDLE) as [Hi | Hi].
    - left. split; [exact Hi|]. apply (ProcessDownload_from_idle cfg w fuel); assumption.
    - right. split; [exact Hi|].
      rewrite (ProcessDownload_refused cfg w fuel s Hi Hop) in Hrun.
      injection Hrun as <-. reflexivity. }
  assert (Hg : same_globals s s').
  { destruct Hcases as [[_ [Hg _]] | [_ ->]]; [exact Hg | repeat split]. }
  assert (Hni : DFU_State s' <> dfuIDLE).
  { destruct Hcases as [[_ [_ Hm]] | [_ ->]]; [rewrite Hm | cbn [DFU_State set_DFU_State]];
      discriminate. }
  assert (Hop' : cmd_data s' 0 = 0x00 \/ cmd_data s' 0 = 0x01 \/ cmd_data s' 0 = 0x10).
  { destruct Hg as [Hf _]. unfold cmd_data. rewrite Hf. exact Hop. }
  split; [exact Hg|]. split; [|split; [|split]].
  - intros Hi. destruct Hcases as [[_ [_ Hm]] | [Hn _]]; [exact Hm | contradiction].
  - intros Hi. destruct Hcases as [[Hidle _] | [_ He]]; [contradiction | exact He].
  - intros fuel'. apply ProcessDownload_refused; assumption.
  - intros Hi rq Hrq.
    destruct Hcases as [[_ [_ Hm]] | [Hn _]]; [|contradiction].
    eexists. split; [apply GETSTATUS_returns; exact Hrq|].
    split.
    + rewrite case_GETSTATUS_state. unfold UpdateState. rewrite Hm. reflexivity.
    + eapply same_globals_trans; [exact Hg|].
      unfold case_GETSTATUS.
      rewrite (UpdateState_only_state (emit Endpoint_ClearSETUP s')).
      repeat split.
Qed.

Lemma download_leaves_manifest_or_error_witness :
  DFU_State (result (ProcessDownload atmega32u2 blank_world 5 eeprom_download_0_1))
  = dfuMANIFEST_SYNC
  /\ ProcessDownload atmega32u2 blank_world 5
       (result (ProcessDownload atmega32u2 blank_world 5 eeprom_download_0_1))
     = Done (set_DFU_State dfuERROR
               (result (ProcessDownload atmega32u2 blank_world 5 eeprom_download_0_1))).
Proof.
  destruct (download_leaves_manifest_or_error atmega32u2 blank_world 5
              eeprom_download_0_1
              (result (ProcessDownload atmega32u2 blank_world 5 eeprom_download_0_1)))
    as [_ [Hm [_ [Hr _]]]].
  - right. left. reflexivity.
  - reflexivity.
  - split; [apply Hm; reflexivity | apply Hr].
Defined.

(** ** What an EEPROM download writes *)









(** ** What a display sends *)




















(** ** What a flash download fills in *)



Section FlashImage.

Variable cfg : config.
Variable w : world.
Variables startAddr endAddr T : Z.

(** [T] is the first page boundary past the end address. *)
Hypothesis HP : 0 < SPM_PAGESIZE cfg.
Hypothesis HT : T mod SPM_PAGESIZE cfg = 0.
Hypothesis HendT : endAddr < T.
Hypothesis HTend : T - SPM_PAGESIZE cfg <= endAddr.
Hypothesis HT16 : T < 2 ^ 16.





End FlashImage.



(** ** What a dataflash download sends and stores *)








Section DataflashImage.

Variable cfg : config.
Variable w : world.
Variables startAddr endAddr T : Z.

(** [T] is the first page boundary past the end address. *)
Hypothesis HD : 0 < DATAFLASH_PAGE_SIZE cfg.
Hypothesis HT : T mod DATAFLASH_PAGE_SIZE cfg = 0.
Hypothesis HendT : endAddr < T.
Hypothesis HTend : T - DATAFLASH_PAGE_SIZE cfg <= endAddr.
Hypothesis Hs0 : 0 <= startAddr.
Hypothesis Hse : startAddr <= endAddr.
Hypothesis HT32 : T < 2 ^ 32.








End DataflashImage.


